(** * instead-assignment: the PDF parsing scripts

    A shallow embedding of [test-scripts/visualParser.py] and
    [test-scripts/textParser.py].

    Conventions.
    - Python [int] is [Z]; NumPy [int32] scalars are [Z] with the wrap-around
      written out ([wrap32]).
    - Python and NumPy binary64 floats are idealised as real numbers [R]:
      [/] is exact division, [round(x, n)] is rounding half to even on the
      n-th decimal, [int(x)] truncates toward zero.
    - Calls into cv2, sklearn, pdf2image, PyMuPDF, pdfplumber and json are
      parameters (the fields of the classes [Libs], [PdfPlumber], [Json]
      and [FileSystem]); they return a [result], because they may raise.
    - Effects ([print], opening and closing a document or a file) are
      recorded in a trace threaded through the code. *)

From Stdlib Require Import ZArith List String Ascii Bool Reals Lra Lia.
From Stdlib Require DecimalString DecimalZ DecimalPos.
Import ListNotations.
Open Scope string_scope.
Open Scope list_scope.
Open Scope Z_scope.

(* ================================================================= *)
(** ** Numbers *)

Module PyNum.

(** NumPy [int32] arithmetic wraps around. *)
Definition wrap32 (z : Z) : Z := (z + 2 ^ 31) mod 2 ^ 32 - 2 ^ 31.

Definition is_int32 (z : Z) : Prop := - 2 ^ 31 <= z < 2 ^ 31.

(** Comparison of floats, as a boolean. *)
Definition Rltb (a b : R) : bool := if Rlt_dec a b then true else false.
Definition Rleb (a b : R) : bool := if Rle_dec a b then true else false.

(** Round to the nearest integer, ties to even. *)
Definition rint (r : R) : Z :=
  let n := Int_part r in
  let f := frac_part r in
  if Rlt_dec f (1 / 2) then n
  else if Rlt_dec (1 / 2) f then n + 1
  else if Z.even n then n else n + 1.

(** [round(x, ndigits)]. *)
Definition round (x : R) (ndigits : nat) : R :=
  (IZR (rint (x * 10 ^ ndigits)) / 10 ^ ndigits)%R.

(** [int(x)] on a float: truncation toward zero. *)
Definition int (x : R) : Z :=
  if Rle_dec 0 x then Int_part x else - Int_part (- x).

(** [np.arctan2(y, x)], in radians, in (-pi, pi]. *)
Definition arctan2 (y x : R) : R :=
  if Rlt_dec 0 x then atan (y / x)
  else if Rlt_dec x 0 then
         if Rle_dec 0 y then (atan (y / x) + PI)%R else (atan (y / x) - PI)%R
  else if Rlt_dec 0 y then (PI / 2)%R
  else if Rlt_dec y 0 then (- PI / 2)%R
  else 0%R.

(** [np.mean] and [np.std] of a flat array. *)
Definition Rsum (l : list R) : R := fold_right Rplus 0%R l.

Definition mean (l : list R) : R := (Rsum l / INR (List.length l))%R.

Definition std (l : list R) : R :=
  let m := mean l in
  sqrt (mean (map (fun v => ((v - m) * (v - m))%R) l)).

(** [range(start, stop, step)] for a positive step. *)
Definition range3 (start stop step : Z) : list Z :=
  map (fun k => start + Z.of_nat k * step)
      (seq 0 (Z.to_nat ((stop - start + step - 1) / step))).

Definition range (n : Z) : list Z := range3 0 n 1.

(** The indices of a slice [lo:hi] of an axis of length [len], for
    [0 <= lo] and [0 <= hi] (the scripts slice from pixel positions). *)
Definition slice (lo hi len : Z) : list Z :=
  range3 lo (Z.min hi len) 1.

End PyNum.
Import PyNum.

(* ================================================================= *)
(** ** Exceptions, results and effects *)

Module Py.

(** A raised exception.  [is_Exception] tells whether its class derives
    from [Exception] (so that [except Exception] catches it) or only from
    [BaseException] (such as [KeyboardInterrupt]); a bare [except:]
    catches both. *)
Record exn := Exn { is_Exception : bool; message : string }.

Definition ZeroDivisionError : exn := Exn true "division by zero".
Definition IndexError : exn := Exn true "index out of range".
Definition ValueError (msg : string) : exn := Exn true msg.

Inductive result (A : Type) : Type :=
| Ok (a : A)
| Raise (e : exn).
Arguments Ok {A} a.
Arguments Raise {A} e.

Definition bind {A B} (m : result A) (k : A -> result B) : result B :=
  match m with
  | Ok a => k a
  | Raise e => Raise e
  end.

(** A [for] loop that builds one item per element and stops at the first
    exception. *)
Fixpoint mapM {A B} (f : A -> result B) (l : list A) : result (list B) :=
  match l with
  | [] => Ok []
  | a :: l' =>
      bind (f a) (fun b => bind (mapM f l') (fun bs => Ok (b :: bs)))
  end.

(** What a run does to the outside world, oldest event first. *)
Inductive event : Type :=
| Print (s : string)
| DocOpen (path : string)
| DocClose (path : string)
| FileOpen (name : string)
| FileWrite (name : string) (chunk : string)
| FileClose (name : string).

Definition trace := list event.

(** Effectful code: a trace transformer that returns or raises. *)
Definition M (A : Type) : Type := trace -> result A * trace.

Definition ret {A} (a : A) : M A := fun t => (Ok a, t).

Definition bindM {A B} (m : M A) (k : A -> M B) : M B :=
  fun t => match m t with
           | (Ok a, t') => k a t'
           | (Raise e, t') => (Raise e, t')
           end.

Definition lift {A} (r : result A) : M A := fun t => (r, t).

Definition emit (e : event) : M unit := fun t => (Ok tt, t ++ [e]).

Definition print (s : string) : M unit := emit (Print s).

(** [try: body  except Exception as e: handler e]. *)
Definition try_except_Exception {A} (body : M A) (handler : exn -> M A)
  : M A :=
  fun t => match body t with
           | (Ok a, t') => (Ok a, t')
           | (Raise e, t') =>
               if is_Exception e then handler e t' else (Raise e, t')
           end.

(** Documents opened and not closed again. *)
Fixpoint open_docs (t : trace) : Z :=
  match t with
  | [] => 0
  | DocOpen _ :: t' => 1 + open_docs t'
  | DocClose _ :: t' => open_docs t' - 1
  | _ :: t' => open_docs t'
  end.

Definition printed (t : trace) : list string :=
  flat_map (fun e => match e with Print s => [s] | _ => [] end) t.

(** [str(n)] for an integer. *)
Definition str (n : Z) : string :=
  DecimalString.NilZero.string_of_int (Z.to_int n).

End Py.
Import Py.

Declare Scope py_scope.
Delimit Scope py_scope with py.
Notation "x <- m ;; k" := (bind m (fun x => k))
  (at level 61, m at next level, right associativity) : py_scope.
Notation "x <~ m ;; k" := (bindM m (fun x => k))
  (at level 61, m at next level, right associativity) : py_scope.
Open Scope py_scope.

(* ================================================================= *)
(** ** The records written to the JSON output *)

(** ["position"] of a line record. *)
Record segment_position := SegmentPosition
  { x1 : R; y1 : R; x2 : R; y2 : R; segment_units : string }.

(** ["position"] of a colour or checkbox record. *)
Record box_position := BoxPosition
  { x : R; y : R; width : R; height : R; box_units : string }.

Module Line.
Record t := Build
  { element_type : string;
    orientation : string;
    line_style : string;
    position : segment_position;
    length : R;
    angle : R }.
End Line.

Module Color.
Record t := Build
  { element_type : string;
    position : box_position;
    rgb : list Z;
    hex : string;
    region_count : Z }.
End Color.

Module Checkbox.
Inductive detail : Type :=
| confidence (c : R)
| properties (aspect_ratio extent area interior_brightness : R).

Record t := Build
  { element_type : string;
    detection_method : string;
    position : box_position;
    details : detail }.
End Checkbox.

Module Shape.
Inductive coordinates : Type :=
| line (p : segment_position)
| rectangle (p : box_position).

Record t := Build { type : string; coords : coordinates }.
End Shape.

(** Images as NumPy arrays: [shape[0]] rows, [shape[1]] columns. *)
Record gray_image := GrayImage
  { gray_rows : Z; gray_cols : Z; gray_at : Z -> Z -> Z }.

Record bgr_image := BgrImage
  { bgr_rows : Z; bgr_cols : Z; bgr_at : Z -> Z -> Z * Z * Z }.

(** A cluster centre or an average colour: the B, G and R channels. *)
Definition color : Type := R * R * R.

(** A sampled region: [(x, y, w, h)] in pixels. *)
Definition rect : Type := Z * Z * Z * Z.

(** A line segment of [cv2.HoughLinesP]: [x1, y1, x2, y2], [int32] each. *)
Definition segment : Type := Z * Z * Z * Z.

(* ================================================================= *)
(** ** The libraries the scripts call *)

(** Every library call the scripts make.  The types are the libraries' own
    opaque values.  [entropy] stands for whatever a run does not control
    (operating-system randomness, time): a library that draws random
    numbers reads it. *)
Class Libs : Type :=
  { pil_image : Type;
    edge_map : Type;
    contour : Type;
    fitz_doc : Type;
    fitz_page : Type;
    drawing : Type;
    entropy : Type;
    (* pdf2image *)
    convert_from_path : string -> Z -> Z -> Z -> result (list pil_image);
    (* cv2.cvtColor(np.array(page), cv2.COLOR_RGB2BGR) *)
    cvtColor_RGB2BGR : pil_image -> result bgr_image;
    (* cv2.cvtColor(img, cv2.COLOR_BGR2GRAY) *)
    cvtColor_BGR2GRAY : bgr_image -> result gray_image;
    (* cv2.Canny(image, threshold1, threshold2, apertureSize) *)
    Canny : gray_image -> Z -> Z -> Z -> result edge_map;
    (* cv2.HoughLinesP(edges, rho, theta, threshold, minLineLength,
       maxLineGap); [None] when no line is found *)
    HoughLinesP :
      edge_map -> R -> R -> Z -> Z -> Z -> entropy ->
      result (option (list segment));
    (* from sklearn.cluster import KMeans: the import statement inside
       detect_background_colors, which raises when sklearn cannot be
       imported *)
    import_sklearn_cluster : result unit;
    (* KMeans(n_clusters, random_state, n_init).fit_predict(X): the labels
       and [cluster_centers_] *)
    KMeans_fit_predict :
      Z -> option Z -> Z -> list color -> entropy ->
      result (list Z * list color);
    (* cv2.rectangle(img, pt1, pt2, color, thickness) *)
    rectangle : gray_image -> Z * Z -> Z * Z -> Z -> Z -> result gray_image;
    (* cv2.matchTemplate(image, templ, cv2.TM_CCOEFF_NORMED): the rows of
       the score map *)
    matchTemplate : gray_image -> gray_image -> result (list (list R));
    (* cv2.morphologyEx(src, cv2.MORPH_CLOSE, np.ones((3,3))) *)
    morphologyEx_CLOSE : gray_image -> result gray_image;
    (* cv2.findContours(image, cv2.RETR_EXTERNAL, cv2.CHAIN_APPROX_SIMPLE) *)
    findContours : gray_image -> result (list contour);
    arcLength : contour -> bool -> result R;
    approxPolyDP : contour -> R -> bool -> result (list (Z * Z));
    boundingRect : contour -> result rect;
    contourArea : contour -> result R;
    (* PyMuPDF; [PYMUPDF_AVAILABLE] is set when the module is imported *)
    PYMUPDF_AVAILABLE : bool;
    fitz_open : string -> result fitz_doc;
    doc_len : fitz_doc -> Z;
    doc_getitem : fitz_doc -> Z -> result fitz_page;
    get_drawings : fitz_page -> result (list drawing);
    (* drawing["items"]: each item is a tuple, a tag followed by numbers *)
    drawing_items : drawing -> list (string * list R) }.

(* ================================================================= *)
(** ** visualParser.py *)

(** ["{:02x}".format(n)]: lowercase hexadecimal, the sign first, padded
    with zeros to two characters. *)
Definition hex_digit (d : Z) : ascii :=
  nth (Z.to_nat d) (list_ascii_of_string "0123456789abcdef") "?"%char.

Fixpoint hex_digits (fuel : nat) (n : Z) (acc : string) : string :=
  match fuel with
  | O => acc
  | S fuel' =>
      let acc' := String (hex_digit (n mod 16)) acc in
      if n <? 16 then acc' else hex_digits fuel' (n / 16) acc'
  end.

Definition hex_of_nonneg (n : Z) : string :=
  hex_digits (S (Z.to_nat (Z.log2 n))) n "".

Definition format_02x (n : Z) : string :=
  if n <? 0 then String "-" (hex_of_nonneg (- n))
  else
    let s := hex_of_nonneg n in
    if (String.length s <? 2)%nat then String "0" s else s.

Definition len {A} (l : list A) : Z := Z.of_nat (List.length l).

(** A [dict] with string keys, in insertion order (the order in which
    [json.dump] writes the keys). *)
Definition dict (V : Type) : Type := list (string * V).

Fixpoint dict_get {V} (d : dict V) (k : string) : option V :=
  match d with
  | [] => None
  | (k', v) :: d' => if String.eqb k' k then Some v else dict_get d' k
  end.

(** [d[k] = v]: replaces the value of a key already there, else appends. *)
Fixpoint dict_set {V} (d : dict V) (k : string) (v : V) : dict V :=
  match d with
  | [] => [(k, v)]
  | (k', v') :: d' =>
      if String.eqb k' k then (k', v) :: d' else (k', v') :: dict_set d' k v
  end.

Definition keys {V} (d : dict V) : list string := map fst d.

(** [json.dump(obj, fp)] writes the encoding chunk by chunk; the encoder or
    a write may raise part-way.  [json_dump obj] gives the chunks that
    reached the file and the exception, if one was raised. *)
Class Json (A : Type) : Type :=
  { json_dump : A -> list string * option exn }.

(** The built-in [open(name, "w")], which may raise. *)
Class FileSystem : Type :=
  { open_w : string -> result unit }.

Definition raise {A} (e : exn) : M A := fun t => (Raise e, t).

Fixpoint write_chunks (name : string) (chunks : list string) : M unit :=
  match chunks with
  | [] => ret tt
  | c :: chunks' =>
      _ <~ emit (FileWrite name c) ;; write_chunks name chunks'
  end.

(** [with open(name, "w") as f: json.dump(obj, f)]: leaving the [with]
    block closes the file, also when [json.dump] raised. *)
Definition with_open_json_dump {A} `{Json A} `{FileSystem}
  (name : string) (obj : A) : M unit :=
  _ <~ lift (open_w name) ;;
  _ <~ emit (FileOpen name) ;;
  let (chunks, failure) := json_dump obj in
  _ <~ write_chunks name chunks ;;
  _ <~ emit (FileClose name) ;;
  match failure with
  | None => ret tt
  | Some e => raise e
  end.

(** What a trace leaves in the file [name]: [None] when the file was never
    opened, else what was written since it was last opened (opening for
    writing truncates). *)
Definition file_content (name : string) (t : trace) : option string :=
  fold_left
    (fun content e =>
       match e with
       | FileOpen n => if String.eqb n name then Some EmptyString else content
       | FileWrite n c =>
           if String.eqb n name
           then option_map (fun s => (s ++ c)%string) content
           else content
       | _ => content
       end)
    t None.

Section VisualParser.
Context {L : Libs}.

(** *** detect_line_style *)

Definition num_samples : Z := 20.

(** The [i]-th sample point [(x, y)] on the segment. *)
Definition sample_point (x1 y1 x2 y2 i : Z) : Z * Z :=
  let t := (IZR i / IZR (num_samples - 1))%R in
  (int (IZR x1 + t * IZR (wrap32 (x2 - x1))),
   int (IZR y1 + t * IZR (wrap32 (y2 - y1)))).

(** The sample is inside the image and its pixel is dark. *)
Definition dark_sample (gray_image : gray_image) (p : Z * Z) : bool :=
  let (x, y) := p in
  if (0 <=? x) && (x <? gray_cols gray_image)
     && (0 <=? y) && (y <? gray_rows gray_image)
  then gray_at gray_image y x <? 128
  else false.

Definition black_count (gray_image : gray_image) (x1 y1 x2 y2 : Z) : Z :=
  fold_left
    (fun black_count i =>
       if dark_sample gray_image (sample_point x1 y1 x2 y2 i)
       then black_count + 1 else black_count)
    (range num_samples) 0.

Definition detect_line_style (gray_image : gray_image) (x1 y1 x2 y2 : Z)
  : string :=
  if Rltb (IZR (black_count gray_image x1 y1 x2 y2) / IZR num_samples)
          (7 / 10)
  then "dotted" else "solid".

(** *** detect_lines *)

(** [np.arctan2(y2-y1, x2-x1) * 180 / np.pi]. *)
Definition segment_angle (s : segment) : R :=
  let '(x1, y1, x2, y2) := s in
  (arctan2 (IZR (wrap32 (y2 - y1))) (IZR (wrap32 (x2 - x1))) * 180 / PI)%R.

(** [np.sqrt((x2-x1)**2 + (y2-y1)**2)], the squares and their sum in
    [int32].  (Where the sum wraps to a negative number NumPy gives nan
    and [sqrt] gives 0; it takes a segment longer than 46340 pixels.) *)
Definition segment_length (s : segment) : R :=
  let '(x1, y1, x2, y2) := s in
  let dx := wrap32 (x2 - x1) in
  let dy := wrap32 (y2 - y1) in
  sqrt (IZR (wrap32 (wrap32 (dx ^ 2) + wrap32 (dy ^ 2)))).

Definition classify_orientation (angle : R) : string :=
  if Rltb (Rabs angle) 10 || Rltb (Rabs (angle - 180)) 10 then "horizontal"
  else if Rltb (Rabs (angle - 90)) 10 || Rltb (Rabs (angle + 90)) 10
       then "vertical"
  else "diagonal".

(** The body of the loop over the Hough segments. *)
Definition line_record (gray_image : gray_image) (dpi : Z) (s : segment)
  : result Line.t :=
  let '(x1, y1, x2, y2) := s in
  if dpi =? 0 then Raise ZeroDivisionError
  else
    let points_per_pixel := (72 / IZR dpi)%R in
    let x1_pt := (IZR x1 * points_per_pixel)%R in
    let y1_pt := (IZR y1 * points_per_pixel)%R in
    let x2_pt := (IZR x2 * points_per_pixel)%R in
    let y2_pt := (IZR y2 * points_per_pixel)%R in
    let length := segment_length s in
    let angle := segment_angle s in
    let orientation := classify_orientation angle in
    let line_style := detect_line_style gray_image x1 y1 x2 y2 in
    Ok {| Line.element_type := "line";
          Line.orientation := orientation;
          Line.line_style := line_style;
          Line.position :=
            {| x1 := round x1_pt 2; y1 := round y1_pt 2;
               x2 := round x2_pt 2; y2 := round y2_pt 2;
               segment_units := "points" |};
          Line.length := round (length * points_per_pixel) 2;
          Line.angle := round angle 2 |}.

Definition detect_lines (gray_image : gray_image) (dpi : Z) (w : entropy)
  : result (list Line.t) :=
  edges <- Canny gray_image 100 200 3 ;;
  lines <- HoughLinesP edges 1 (PI / 180) 200 100 5 w ;;
  match lines with
  | Some lines => mapM (line_record gray_image dpi) lines
  | None => Ok []
  end.

(** *** detect_background_colors *)

Definition grid_size : Z := 100.

(** [img[y:y+grid_size, x:x+grid_size].reshape(-1, 3)]: the pixels of the
    region, row by row. *)
Definition region (img : bgr_image) (x y : Z) : list (Z * Z * Z) :=
  flat_map
    (fun yy =>
       map (fun xx => bgr_at img yy xx)
           (slice x (x + grid_size) (bgr_cols img)))
    (slice y (y + grid_size) (bgr_rows img)).

(** [np.mean(region.reshape(-1, 3), axis=0)]. *)
Definition avg_color (region : list (Z * Z * Z)) : color :=
  (mean (map (fun p => IZR (fst (fst p))) region),
   mean (map (fun p => IZR (snd (fst p))) region),
   mean (map (fun p => IZR (snd p)) region)).

Definition channels (c : color) : list R :=
  let '(b, g, r) := c in [b; g; r].

(** Not white and has variation. *)
Definition not_near_white (avg_color : color) : bool :=
  Rltb (mean (channels avg_color)) 230
  && Rltb 10 (std (channels avg_color)).

(** The two nested loops: the regions kept, with their colours, in the
    order the loops append them. *)
Definition sampled_regions (img : bgr_image) : list (color * rect) :=
  flat_map
    (fun y =>
       flat_map
         (fun x =>
            let region := region img x y in
            if 0 <? 3 * len region then
              let avg_color := avg_color region in
              if not_near_white avg_color
              then [(avg_color, (x, y, grid_size, grid_size))]
              else []
            else [])
         (range3 0 (bgr_cols img - grid_size) grid_size))
    (range3 0 (bgr_rows img - grid_size) grid_size).

Definition all_colors (img : bgr_image) : list color :=
  map fst (sampled_regions img).

Definition positions (img : bgr_image) : list rect :=
  map snd (sampled_regions img).

(** [min(5, len(all_colors))]. *)
Definition n_clusters (img : bgr_image) : Z :=
  Z.min 5 (len (all_colors img)).

(** [[positions[i] for i in range(len(positions)) if color_labels[i] ==
    cluster_id]]; indexing [color_labels] out of range raises. *)
Definition cluster_positions (positions : list rect) (color_labels : list Z)
  (cluster_id : Z) : result (list rect) :=
  picked <-
    mapM (fun i =>
            match nth_error color_labels (Z.to_nat i) with
            | Some label =>
                Ok (label =? cluster_id,
                    nth (Z.to_nat i) positions (0, 0, 0, 0))
            | None => Raise IndexError
            end)
         (range (len positions)) ;;
  Ok (map snd (filter fst picked)).

Definition py_min (l : list Z) : result Z :=
  match l with
  | [] => Raise (ValueError "min() arg is an empty sequence")
  | a :: l' => Ok (fold_left Z.min l' a)
  end.

Definition py_max (l : list Z) : result Z :=
  match l with
  | [] => Raise (ValueError "max() arg is an empty sequence")
  | a :: l' => Ok (fold_left Z.max l' a)
  end.

Definition rect_x (p : rect) : Z := fst (fst (fst p)).
Definition rect_y (p : rect) : Z := snd (fst (fst p)).
Definition rect_w (p : rect) : Z := snd (fst p).
Definition rect_h (p : rect) : Z := snd p.

(** The body of the loop over the cluster ids: the record appended, if
    any. *)
Definition cluster_record (points_per_pixel : R) (positions : list rect)
  (color_labels : list Z) (cluster_centers_ : list color) (cluster_id : Z)
  : result (option Color.t) :=
  cluster_positions <- cluster_positions positions color_labels cluster_id ;;
  if 2 <? len cluster_positions then
    match nth_error cluster_centers_ (Z.to_nat cluster_id) with
    | None => Raise IndexError
    | Some (c0, c1, c2) =>
        min_x <- py_min (map rect_x cluster_positions) ;;
        min_y <- py_min (map rect_y cluster_positions) ;;
        max_x <- py_max (map (fun pos => rect_x pos + rect_w pos)
                             cluster_positions) ;;
        max_y <- py_max (map (fun pos => rect_y pos + rect_h pos)
                             cluster_positions) ;;
        Ok (Some
              {| Color.element_type := "background_color";
                 Color.position :=
                   {| x := round (IZR min_x * points_per_pixel) 2;
                      y := round (IZR min_y * points_per_pixel) 2;
                      width :=
                        round (IZR (max_x - min_x) * points_per_pixel) 2;
                      height :=
                        round (IZR (max_y - min_y) * points_per_pixel) 2;
                      box_units := "points" |};
                 Color.rgb := [int c2; int c1; int c0];
                 Color.hex :=
                   String "#"
                     (format_02x (int c2) ++ format_02x (int c1)
                      ++ format_02x (int c0))%string;
                 Color.region_count := len cluster_positions |})
    end
  else Ok None.

(** The loop inside [try: ... except: pass]: an exception ends it, and
    what was appended so far stays in [colors_data]. *)
Fixpoint cluster_loop (points_per_pixel : R) (positions : list rect)
  (color_labels : list Z) (cluster_centers_ : list color)
  (cluster_ids : list Z) (colors_data : list Color.t) : list Color.t :=
  match cluster_ids with
  | [] => colors_data
  | cluster_id :: rest =>
      match cluster_record points_per_pixel positions color_labels
                           cluster_centers_ cluster_id with
      | Raise _ => colors_data
      | Ok None =>
          cluster_loop points_per_pixel positions color_labels
                       cluster_centers_ rest colors_data
      | Ok (Some r) =>
          cluster_loop points_per_pixel positions color_labels
                       cluster_centers_ rest (colors_data ++ [r])
      end
  end.

(** The function starts with its own imports, outside the [try]:
    [from sklearn.cluster import KMeans] raises when the module cannot be
    imported, before the resolution is looked at.  [import warnings] is
    the standard library's, and [warnings.filterwarnings('ignore')] only
    changes which warnings are shown: neither has a result the function
    reads. *)
Definition detect_background_colors (img : bgr_image) (dpi : Z)
  (w : entropy) : result (list Color.t) :=
  _ <- import_sklearn_cluster ;;
  let colors_data := [] in
  if dpi =? 0 then Raise ZeroDivisionError
  else
    let points_per_pixel := (72 / IZR dpi)%R in
    let all_colors := all_colors img in
    let positions := positions img in
    if len all_colors <? 2 then Ok colors_data
    else
      let n_clusters := n_clusters img in
      match KMeans_fit_predict n_clusters (Some 42) 10 all_colors w with
      | Raise _ => Ok colors_data
      | Ok (color_labels, cluster_centers_) =>
          Ok (cluster_loop points_per_pixel positions color_labels
                           cluster_centers_ (range n_clusters) colors_data)
      end.

(** *** detect_checkboxes *)

Definition template_size : Z := 20.

Definition threshold : R := (6 / 10)%R.

Definition enumerate {A} (l : list A) : list (Z * A) :=
  combine (range (len l)) l.

(** The points [(x, y)] that [np.where(result >= threshold)] finds, zipped
    from its reversed index arrays: row by row. *)
Definition locations (result : list (list R)) : list (Z * Z) :=
  flat_map
    (fun '(y, row) =>
       flat_map (fun '(x, v) => if Rleb threshold v then [(x, y)] else [])
                (enumerate row))
    (enumerate result).

Definition template_record (points_per_pixel : R) (result : list (list R))
  (pt : Z * Z) : Checkbox.t :=
  {| Checkbox.element_type := "checkbox";
     Checkbox.detection_method := "template_matching";
     Checkbox.position :=
       {| x := round (IZR (fst pt) * points_per_pixel) 2;
          y := round (IZR (snd pt) * points_per_pixel) 2;
          width := round (IZR template_size * points_per_pixel) 2;
          height := round (IZR template_size * points_per_pixel) 2;
          box_units := "points" |};
     Checkbox.details :=
       Checkbox.confidence
         (nth (Z.to_nat (fst pt)) (nth (Z.to_nat (snd pt)) result []) 0%R) |}.

(** [gray_image[y0:y1, x0:x1]], flattened. *)
Definition roi (gray_image : gray_image) (y0 y1 x0 x1 : Z) : list Z :=
  flat_map
    (fun yy => map (fun xx => gray_at gray_image yy xx)
                   (slice x0 x1 (gray_cols gray_image)))
    (slice y0 y1 (gray_rows gray_image)).

(** The body of the loop over the contours: the record appended, if any. *)
Definition contour_record (gray_image : gray_image) (points_per_pixel : R)
  (contour : contour) : result (option Checkbox.t) :=
  perimeter <- arcLength contour true ;;
  let epsilon := (2 / 100 * perimeter)%R in
  approx <- approxPolyDP contour epsilon true ;;
  if len approx =? 4 then
    bounding <- boundingRect contour ;;
    let '(x, y, w, h) := bounding in
    area <- contourArea contour ;;
    let aspect_ratio := if negb (h =? 0) then (IZR w / IZR h)%R else 0%R in
    let extent :=
      if negb (w * h =? 0) then (area / IZR (w * h))%R else 0%R in
    if (15 <=? w) && (w <=? 35) && (15 <=? h) && (h <=? 35)
       && Rleb (8 / 10) aspect_ratio && Rleb aspect_ratio (12 / 10)
       && Rleb (7 / 10) extent && Rleb extent 1
       && Rleb 200 area && Rleb area 1000
    then
      let roi := roi gray_image (y + 3) (y + h - 3) (x + 3) (x + w - 3) in
      if 0 <? len roi then
        let interior_mean := mean (map IZR roi) in
        if Rltb 200 interior_mean then
          Ok (Some
                {| Checkbox.element_type := "checkbox";
                   Checkbox.detection_method := "contour_analysis";
                   Checkbox.position :=
                     {| x := round (IZR x * points_per_pixel) 2;
                        y := round (IZR y * points_per_pixel) 2;
                        width := round (IZR w * points_per_pixel) 2;
                        height := round (IZR h * points_per_pixel) 2;
                        box_units := "points" |};
                   Checkbox.details :=
                     Checkbox.properties
                       (round aspect_ratio 2)
                       (round extent 2)
                       (round (area * points_per_pixel ^ 2) 2)
                       (round interior_mean 1) |})
        else Ok None
      else Ok None
    else Ok None
  else Ok None.

(** The test of the inner loop of the duplicate removal. *)
Definition same_position (cb existing : Checkbox.t) : bool :=
  Rltb (Rabs (x (Checkbox.position cb) - x (Checkbox.position existing))) 10
  && Rltb (Rabs (y (Checkbox.position cb) - y (Checkbox.position existing)))
          10.

(** Remove duplicate detections: a checkbox is kept unless one kept
    before it has the same position. *)
Definition unique_checkboxes (checkboxes : list Checkbox.t)
  : list Checkbox.t :=
  fold_left
    (fun unique_checkboxes cb =>
       let is_duplicate := existsb (same_position cb) unique_checkboxes in
       if negb is_duplicate then unique_checkboxes ++ [cb]
       else unique_checkboxes)
    checkboxes [].

Definition option_list {A} (o : option A) : list A :=
  match o with Some a => [a] | None => [] end.

Definition detect_checkboxes (gray_image : gray_image) (dpi : Z)
  : result (list Checkbox.t) :=
  if dpi =? 0 then Raise ZeroDivisionError
  else
    let points_per_pixel := (72 / IZR dpi)%R in
    template <-
      rectangle (GrayImage template_size template_size (fun _ _ => 255))
                (2, 2) (template_size - 3, template_size - 3) 0 2 ;;
    result <- matchTemplate gray_image template ;;
    let checkboxes :=
      map (template_record points_per_pixel result) (locations result) in
    cleaned <- morphologyEx_CLOSE gray_image ;;
    contours <- findContours cleaned ;;
    found <- mapM (contour_record gray_image points_per_pixel) contours ;;
    let checkboxes := checkboxes ++ flat_map option_list found in
    Ok (unique_checkboxes checkboxes).

(** *** extract_pdf_elements *)

(** [a, b, c, d = item[1:5]]. *)
Definition unpack4 (l : list R) : result (R * R * R * R) :=
  match firstn 4 l with
  | [a; b; c; d] => Ok (a, b, c, d)
  | got =>
      Raise (ValueError ("not enough values to unpack (expected 4, got "
                         ++ str (len got) ++ ")")%string)
  end.

Definition shape_of_item (item : string * list R)
  : result (list Shape.t) :=
  let (tag, rest) := item in
  if String.eqb tag "l" then
    v <- unpack4 rest ;;
    let '(x1, y1, x2, y2) := v in
    Ok [ {| Shape.type := "line";
            Shape.coords :=
              Shape.line
                {| x1 := round x1 2; y1 := round y1 2;
                   x2 := round x2 2; y2 := round y2 2;
                   segment_units := "points" |} |} ]
  else if String.eqb tag "re" then
    v <- unpack4 rest ;;
    let '(x, y, w, h) := v in
    Ok [ {| Shape.type := "rectangle";
            Shape.coords :=
              Shape.rectangle
                {| x := round x 2; y := round y 2;
                   width := round w 2; height := round h 2;
                   box_units := "points" |} |} ]
  else Ok [].

Definition extract_pdf_elements (page : fitz_page)
  : result (list drawing * list Shape.t) :=
  drawings <- get_drawings page ;;
  shapes <- mapM shape_of_item (flat_map drawing_items drawings) ;;
  Ok (drawings, List.concat shapes).

(** *** detect_lines_and_colors *)

(** An element of one of the lists in the [results] dictionary. *)
Inductive item : Type :=
| ILine (r : Line.t)
| IColor (r : Color.t)
| ICheckbox (r : Checkbox.t)
| IDrawing (d : drawing)
| IShape (s : Shape.t).

Definition results_dict : Type := dict (list item).

(** [fitz.open(pdf_path)]: on success a document is open. *)
Definition open_document (pdf_path : string) : M fitz_doc :=
  doc <~ lift (fitz_open pdf_path) ;;
  _ <~ emit (DocOpen pdf_path) ;;
  ret doc.

(** Method 2, when PyMuPDF is available: the [try] statement. *)
Definition pymupdf_elements (pdf_path : string) (page_num : Z)
  (results : results_dict) : M results_dict :=
  try_except_Exception
    (doc <~ open_document pdf_path ;;
     results <~
       (if page_num <? doc_len doc then
          page <~ lift (doc_getitem doc page_num) ;;
          pymupdf_results <~ lift (extract_pdf_elements page) ;;
          let results :=
            dict_set results "pdf_drawings"
                     (map IDrawing (fst pymupdf_results)) in
          let results :=
            dict_set results "pdf_shapes"
                     (map IShape (snd pymupdf_results)) in
          ret results
        else ret results) ;;
     _ <~ emit (DocClose pdf_path) ;;
     ret results)
    (fun e =>
       _ <~ print ("PyMuPDF error: " ++ message e)%string ;;
       ret results).

Definition detect_lines_and_colors (pdf_path : string) (page_num dpi : Z)
  (w : entropy) : M results_dict :=
  let results : results_dict :=
    [("lines", []); ("background_colors", []); ("checkboxes", [])] in
  pages <~ lift (convert_from_path pdf_path dpi (page_num + 1)
                                   (page_num + 1)) ;;
  match pages with
  | [] => ret results
  | page0 :: _ =>
      img <~ lift (cvtColor_RGB2BGR page0) ;;
      gray <~ lift (cvtColor_BGR2GRAY img) ;;
      lines <~ lift (detect_lines gray dpi w) ;;
      let results := dict_set results "lines" (map ILine lines) in
      colors <~ lift (detect_background_colors img dpi w) ;;
      let results :=
        dict_set results "background_colors" (map IColor colors) in
      checkboxes <~ lift (detect_checkboxes gray dpi) ;;
      let results :=
        dict_set results "checkboxes" (map ICheckbox checkboxes) in
      if PYMUPDF_AVAILABLE then pymupdf_elements pdf_path page_num results
      else
        let results := dict_set results "pdf_drawings" [] in
        let results := dict_set results "pdf_shapes" [] in
        ret results
  end.

(** *** The script *)

Context {JR : Json results_dict} {JL : Json Line.t} {FS : FileSystem}.

(** [results[k]]; the three keys read by the script are always there. *)
Definition getitem (results : results_dict) (k : string) : list item :=
  match dict_get results k with
  | Some v => v
  | None => []
  end.

(** [print(json.dumps(line, indent=2))]. *)
Definition print_json_dumps (i : item) : M unit :=
  match i with
  | ILine r =>
      let (chunks, failure) := json_dump r in
      match failure with
      | None => print (String.concat "" chunks)
      | Some e => raise e
      end
  | _ => ret tt
  end.

(** The block under [if __name__ == "__main__":] (lines 351 to 372).
    The imports at the top of the module (cv2, numpy, pdf2image, PIL,
    json; fitz in a [try] of its own, which sets [PYMUPDF_AVAILABLE]) run
    before this block and outside its [try]: a run gets here only when
    they have succeeded, and an ImportError of theirs is not caught by the
    handler below. *)
Definition main (w : entropy) : M unit :=
  let pdf_path := "f1040.pdf" in
  try_except_Exception
    (results <~ detect_lines_and_colors pdf_path 0 150 w ;;
     _ <~ with_open_json_dump "detected_elements.json" results ;;
     _ <~ print ("Detected " ++ str (len (getitem results "lines"))
                 ++ " lines")%string ;;
     _ <~ print ("Detected "
                 ++ str (len (getitem results "background_colors"))
                 ++ " colored regions")%string ;;
     _ <~ print ("Detected " ++ str (len (getitem results "checkboxes"))
                 ++ " potential checkboxes")%string ;;
     match getitem results "lines" with
     | first :: _ =>
         _ <~ print (String (ascii_of_nat 10) "First line detected:") ;;
         print_json_dumps first
     | [] => ret tt
     end)
    (fun e =>
       _ <~ print ("Error processing PDF: " ++ message e)%string ;;
       print ("Make sure you have installed: "
              ++ "pip install opencv-python pdf2image PyMuPDF pillow")%string).

End VisualParser.

(* ================================================================= *)
(** ** textParser.py *)

(** The calls into pdfplumber.  A word is the dictionary that
    [extract_words] returns for it. *)
Class PdfPlumber : Type :=
  { plumber_pdf : Type;
    plumber_page : Type;
    word : Type;
    pdfplumber_open : string -> result plumber_pdf;
    pdf_pages : plumber_pdf -> result (list plumber_page);
    extract_words : plumber_page -> list string -> result (list word) }.

Section TextParser.
Context {P : PdfPlumber} {JW : Json (dict (list word))} {FS : FileSystem}.

(** The body of [for i, page in enumerate(pdf.pages)], run over the pages
    left, from index [i]. *)
Fixpoint pages_loop (i : Z) (pages : list plumber_page)
  (output : dict (list word)) : result (dict (list word)) :=
  match pages with
  | [] => Ok output
  | page :: pages' =>
      words <- extract_words page ["size"] ;;
      pages_loop (i + 1) pages'
                 (dict_set output ("page_" ++ str (i + 1))%string words)
  end.

(** [with pdfplumber.open(path) as pdf: body]: leaving the block closes
    the document, also when the body raised. *)
Definition with_pdfplumber_open {A} (path : string)
  (body : plumber_pdf -> M A) : M A :=
  pdf <~ lift (pdfplumber_open path) ;;
  _ <~ emit (DocOpen path) ;;
  fun t => let (r, t') := body pdf t in (r, t' ++ [DocClose path]).

Definition text_parser : M unit :=
  let output : dict (list word) := [] in
  output <~
    with_pdfplumber_open "f1040.pdf"
      (fun pdf =>
         pages <~ lift (pdf_pages pdf) ;;
         lift (pages_loop 0 pages output)) ;;
  with_open_json_dump "f1040_words.json" output.

End TextParser.

(* ================================================================= *)
(** ** The vocabulary of the claims, and synthetic libraries for concrete
       runs *)

(** The number of sample points that the loop of [detect_line_style]
    counts, as a filter. *)
Definition dark_samples (gray_image : gray_image) (s : segment) : Z :=
  let '(x1, y1, x2, y2) := s in
  len (filter (fun i => dark_sample gray_image (sample_point x1 y1 x2 y2 i))
              (range 20)).

(** *** The words of C2

    The definitions below follow the claim's words and use none of the
    functions of [detect_lines] and [detect_line_style]. *)

(** The [k]-th of 20 evenly spaced points of a segment: [k/19] of the way
    from the first endpoint to the second, so that point 0 is the first
    endpoint, point 19 the second, and two consecutive points are one
    nineteenth of the segment apart. *)
Definition evenly_spaced_point (s : segment) (k : Z) : R * R :=
  let '(x1, y1, x2, y2) := s in
  (IZR x1 + IZR k / 19 * (IZR x2 - IZR x1),
   IZR y1 + IZR k / 19 * (IZR y2 - IZR y1))%R.

(** [z] is [v] without its fraction: the row or column of pixels in which
    the coordinate [v] lies. *)
Definition truncation (v : R) (z : Z) : Prop :=
  ((0 <= v -> IZR z <= v < IZR z + 1)
   /\ (v < 0 -> IZR z - 1 < v <= IZR z))%R.

(** [pixels] are the pixels of the 20 evenly spaced points of [s]. *)
Definition samples_of (s : segment) (pixels : list (Z * Z)) : Prop :=
  Forall2
    (fun k p =>
       truncation (fst (evenly_spaced_point s (Z.of_nat k))) (fst p)
       /\ truncation (snd (evenly_spaced_point s (Z.of_nat k))) (snd p))
    (seq 0 20) pixels.

(** A pixel [(x, y)] inside the image whose grey value is below 128. *)
Definition dark_pixel_inside (g : gray_image) (p : Z * Z) : Prop :=
  0 <= fst p < gray_cols g /\ 0 <= snd p < gray_rows g
  /\ gray_at g (snd p) (fst p) < 128.

(** [d] of the pixels are dark pixels inside the image. *)
Inductive dark_count (g : gray_image) : list (Z * Z) -> Z -> Prop :=
| dark_count_nil : dark_count g [] 0
| dark_count_dark p ps d :
    dark_pixel_inside g p -> dark_count g ps d ->
    dark_count g (p :: ps) (d + 1)
| dark_count_other p ps d :
    ~ dark_pixel_inside g p -> dark_count g ps d ->
    dark_count g (p :: ps) d.

(** [a], in degrees and in (-180, 180], is the direction from the first
    endpoint of [s] to the second: the unit vector at the angle [a] is
    parallel to the segment and points the same way. *)
Definition direction_of (s : segment) (a : R) : Prop :=
  let '(x1, y1, x2, y2) := s in
  let dx := (IZR x2 - IZR x1)%R in
  let dy := (IZR y2 - IZR y1)%R in
  let theta := (a * PI / 180)%R in
  (- 180 < a <= 180
   /\ dx * sin theta = dy * cos theta
   /\ 0 <= dx * cos theta + dy * sin theta)%R.

Definition horizontal_angle (a : R) : Prop :=
  (Rabs a < 10 \/ Rabs (a - 180) < 10)%R.

Definition vertical_angle (a : R) : Prop :=
  (Rabs (a - 90) < 10 \/ Rabs (a + 90) < 10)%R.

(** What the libraries answer in one concrete situation. *)
Record scenario : Type := Scenario
  { sc_pages : result (list bgr_image);
    sc_hough : result (option (list segment));
    sc_kmeans : result (list Z * list color);
    sc_scores : result (list (list R));
    sc_pymupdf : bool;
    sc_fitz_open : result unit;
    sc_doc_len : Z;
    sc_drawings : result (list (list (string * list R))) }.

(** [gray = (b + g + r) / 3] stands in for OpenCV's weighted conversion;
    sklearn can be imported. *)
Definition scenario_libs (s : scenario) : Libs :=
  {| pil_image := bgr_image;
     edge_map := unit;
     contour := unit;
     fitz_doc := unit;
     fitz_page := unit;
     drawing := list (string * list R);
     entropy := Z;
     convert_from_path := fun _ _ _ _ => sc_pages s;
     cvtColor_RGB2BGR := fun p => Ok p;
     cvtColor_BGR2GRAY :=
       fun img =>
         Ok (GrayImage (bgr_rows img) (bgr_cols img)
               (fun y x => let '(b, g, r) := bgr_at img y x in
                           (b + g + r) / 3));
     Canny := fun _ _ _ _ => Ok tt;
     HoughLinesP := fun _ _ _ _ _ _ _ => sc_hough s;
     import_sklearn_cluster := Ok tt;
     KMeans_fit_predict := fun _ _ _ _ _ => sc_kmeans s;
     rectangle := fun img _ _ _ _ => Ok img;
     matchTemplate := fun _ _ => sc_scores s;
     morphologyEx_CLOSE := fun img => Ok img;
     findContours := fun _ => Ok [];
     arcLength := fun _ _ => Ok 0%R;
     approxPolyDP := fun _ _ _ => Ok [];
     boundingRect := fun _ => Ok (0, 0, 0, 0);
     contourArea := fun _ => Ok 0%R;
     PYMUPDF_AVAILABLE := sc_pymupdf s;
     fitz_open := fun _ => sc_fitz_open s;
     doc_len := fun _ => sc_doc_len s;
     doc_getitem := fun _ _ => Ok tt;
     get_drawings := fun _ => sc_drawings s;
     drawing_items := fun d => d |}.

(** The same libraries on a machine where sklearn is not installed. *)
Definition without_sklearn (L : Libs) : Libs :=
  {| pil_image := @pil_image L;
     edge_map := @edge_map L;
     contour := @contour L;
     fitz_doc := @fitz_doc L;
     fitz_page := @fitz_page L;
     drawing := @drawing L;
     entropy := @entropy L;
     convert_from_path := @convert_from_path L;
     cvtColor_RGB2BGR := @cvtColor_RGB2BGR L;
     cvtColor_BGR2GRAY := @cvtColor_BGR2GRAY L;
     Canny := @Canny L;
     HoughLinesP := @HoughLinesP L;
     import_sklearn_cluster :=
       Raise (Exn true "No module named 'sklearn'");
     KMeans_fit_predict := @KMeans_fit_predict L;
     rectangle := @rectangle L;
     matchTemplate := @matchTemplate L;
     morphologyEx_CLOSE := @morphologyEx_CLOSE L;
     findContours := @findContours L;
     arcLength := @arcLength L;
     approxPolyDP := @approxPolyDP L;
     boundingRect := @boundingRect L;
     contourArea := @contourArea L;
     PYMUPDF_AVAILABLE := @PYMUPDF_AVAILABLE L;
     fitz_open := @fitz_open L;
     doc_len := @doc_len L;
     doc_getitem := @doc_getitem L;
     get_drawings := @get_drawings L;
     drawing_items := @drawing_items L |}.

(** A page of uniform colour. *)
Definition uniform_page (rows cols : Z) (bgr : Z * Z * Z) : bgr_image :=
  BgrImage rows cols (fun _ _ => bgr).

Definition black_gray (rows cols : Z) : gray_image :=
  GrayImage rows cols (fun _ _ => 0).

(** One page, one horizontal Hough segment, nothing else found. *)
Definition one_line_scenario : scenario :=
  {| sc_pages := Ok [uniform_page 400 400 (0, 0, 0)];
     sc_hough := Ok (Some [(10, 50, 150, 50)]);
     sc_kmeans := Ok ([], []);
     sc_scores := Ok [];
     sc_pymupdf := false;
     sc_fitz_open := Ok tt;
     sc_doc_len := 1;
     sc_drawings := Ok [] |}.

(** [v] is [e] rounded to two decimals: on the grid of hundredths, and
    within half a hundredth of [e]. *)
Definition rounded2 (v e : R) : Prop :=
  v = round e 2 /\ (exists k : Z, (v * 100)%R = IZR k)
  /\ (Rabs (v - e) <= 1 / 200)%R.

(** What C1 says of the record [r] emitted for the segment [s]. *)
Definition horizontal_record (dpi : Z) (s : segment) (r : Line.t) : Prop :=
  let '(px1, py1, px2, py2) := s in
  is_int32 px1 -> is_int32 px2 -> py1 = py2 -> px1 <> px2 ->
  Line.orientation r = "horizontal"
  /\ rounded2 (x1 (Line.position r)) (IZR px1 * (72 / IZR dpi))
  /\ rounded2 (y1 (Line.position r)) (IZR py1 * (72 / IZR dpi))
  /\ rounded2 (x2 (Line.position r)) (IZR px2 * (72 / IZR dpi))
  /\ rounded2 (y2 (Line.position r)) (IZR py2 * (72 / IZR dpi)).

(** The coordinates of a Hough segment are pixel positions: their
    differences fit in 32 bits. *)
Definition fits_int32 (s : segment) : Prop :=
  let '(x1, y1, x2, y2) := s in
  is_int32 (x2 - x1) /\ is_int32 (y2 - y1).

(** The style [style] is the one the claim gives a segment of which [d]
    of 20 samples are dark: "dotted" below 70 percent, "solid" from 70
    percent on. *)
Definition style_of_dark_count (style : string) (d : Z) : Prop :=
  (style = "dotted" <-> 100 * d < 70 * 20)
  /\ (style = "solid" <-> 70 * 20 <= 100 * d).

(** What C2 says of the record [r] emitted for the segment [s]: the
    orientation is read off the angle alone, with a tolerance of 10
    degrees, and the angle is the direction of the segment; the style is
    "dotted" exactly when fewer than 70 percent of the 20 evenly spaced
    samples are dark pixels inside the image. *)
Definition classified_record (g : gray_image) (s : segment) (r : Line.t)
  : Prop :=
  let a := segment_angle s in
  Line.orientation r = classify_orientation a
  /\ (Line.orientation r = "horizontal" <-> horizontal_angle a)
  /\ (Line.orientation r = "vertical"
      <-> ~ horizontal_angle a /\ vertical_angle a)
  /\ (Line.orientation r = "diagonal"
      <-> ~ horizontal_angle a /\ ~ vertical_angle a)
  /\ In (Line.orientation r) ["horizontal"; "vertical"; "diagonal"]
  /\ In (Line.line_style r) ["solid"; "dotted"]
  /\ (fits_int32 s ->
      direction_of s a
      /\ (exists pixels d,
            samples_of s pixels /\ dark_count g pixels d
            /\ style_of_dark_count (Line.line_style r) d)
      /\ (forall pixels d,
            samples_of s pixels -> dark_count g pixels d ->
            style_of_dark_count (Line.line_style r) d)).

Definition white_gray (rows cols : Z) : gray_image :=
  GrayImage rows cols (fun _ _ => 255).

(** Both coordinates closer than 10 points. *)
Definition close_positions (a b : Checkbox.t) : Prop :=
  (Rabs (x (Checkbox.position a) - x (Checkbox.position b)) < 10)%R
  /\ (Rabs (y (Checkbox.position a) - y (Checkbox.position b)) < 10)%R.

Definition apart (a b : Checkbox.t) : Prop := ~ close_positions a b.

(** On one row of the score map, template matches at the pixels 0, 1
    and 5. *)
Definition three_matches_scenario : scenario :=
  {| sc_pages := Ok [uniform_page 400 400 (255, 255, 255)];
     sc_hough := Ok None;
     sc_kmeans := Ok ([], []);
     sc_scores := Ok [ [1; 1; 0; 0; 0; 1] ]%R;
     sc_pymupdf := false;
     sc_fitz_open := Ok tt;
     sc_doc_len := 1;
     sc_drawings := Ok [] |}.

Section PipelineTerms1.
Context {L : Libs}.

(** The dictionary at the start of [detect_lines_and_colors]. *)
Definition empty_results : results_dict :=
  [("lines", []); ("background_colors", []); ("checkboxes", [])].

(** The dictionary once the three detectors have run. *)
Definition detected_results (lines : list Line.t) (colors : list Color.t)
  (checkboxes : list Checkbox.t) : results_dict :=
  [("lines", map ILine lines);
   ("background_colors", map IColor colors);
   ("checkboxes", map ICheckbox checkboxes)].

(** The page was converted and the three detectors returned. *)
Definition detectors_return (pdf_path : string) (page_num dpi : Z)
  (w : entropy) (results : results_dict) : Prop :=
  exists page0 pages img gray lines colors checkboxes,
    convert_from_path pdf_path dpi (page_num + 1) (page_num + 1)
    = Ok (page0 :: pages)
    /\ cvtColor_RGB2BGR page0 = Ok img
    /\ cvtColor_BGR2GRAY img = Ok gray
    /\ detect_lines gray dpi w = Ok lines
    /\ detect_background_colors img dpi w = Ok colors
    /\ detect_checkboxes gray dpi = Ok checkboxes
    /\ results = detected_results lines colors checkboxes.

(** An exception raised outside the two inner handlers: by the page
    conversion, by a colour conversion, or out of one of the three
    detectors. *)
Inductive raised_outside_handlers (pdf_path : string) (page_num dpi : Z)
  (w : entropy) (e : exn) : Prop :=
| in_convert_from_path :
    convert_from_path pdf_path dpi (page_num + 1) (page_num + 1) = Raise e ->
    raised_outside_handlers pdf_path page_num dpi w e
| in_cvtColor_RGB2BGR page0 pages :
    convert_from_path pdf_path dpi (page_num + 1) (page_num + 1)
    = Ok (page0 :: pages) ->
    cvtColor_RGB2BGR page0 = Raise e ->
    raised_outside_handlers pdf_path page_num dpi w e
| in_cvtColor_BGR2GRAY page0 pages img :
    convert_from_path pdf_path dpi (page_num + 1) (page_num + 1)
    = Ok (page0 :: pages) ->
    cvtColor_RGB2BGR page0 = Ok img ->
    cvtColor_BGR2GRAY img = Raise e ->
    raised_outside_handlers pdf_path page_num dpi w e
| in_detect_lines page0 pages img gray :
    convert_from_path pdf_path dpi (page_num + 1) (page_num + 1)
    = Ok (page0 :: pages) ->
    cvtColor_RGB2BGR page0 = Ok img ->
    cvtColor_BGR2GRAY img = Ok gray ->
    detect_lines gray dpi w = Raise e ->
    raised_outside_handlers pdf_path page_num dpi w e
| in_detect_background_colors page0 pages img gray lines :
    convert_from_path pdf_path dpi (page_num + 1) (page_num + 1)
    = Ok (page0 :: pages) ->
    cvtColor_RGB2BGR page0 = Ok img ->
    cvtColor_BGR2GRAY img = Ok gray ->
    detect_lines gray dpi w = Ok lines ->
    detect_background_colors img dpi w = Raise e ->
    raised_outside_handlers pdf_path page_num dpi w e
| in_detect_checkboxes page0 pages img gray lines colors :
    convert_from_path pdf_path dpi (page_num + 1) (page_num + 1)
    = Ok (page0 :: pages) ->
    cvtColor_RGB2BGR page0 = Ok img ->
    cvtColor_BGR2GRAY img = Ok gray ->
    detect_lines gray dpi w = Ok lines ->
    detect_background_colors img dpi w = Ok colors ->
    detect_checkboxes gray dpi = Raise e ->
    raised_outside_handlers pdf_path page_num dpi w e.

(** An exception raised inside the [try] of the PyMuPDF block, after the
    detectors left [results]; [opened] tells whether the document was
    open by then. *)
Inductive raised_in_pymupdf (pdf_path : string) (page_num dpi : Z)
  (w : entropy) (results : results_dict) (e : exn) : bool -> Prop :=
| in_fitz_open :
    detectors_return pdf_path page_num dpi w results ->
    PYMUPDF_AVAILABLE = true ->
    fitz_open pdf_path = Raise e ->
    raised_in_pymupdf pdf_path page_num dpi w results e false
| in_doc_getitem doc :
    detectors_return pdf_path page_num dpi w results ->
    PYMUPDF_AVAILABLE = true ->
    fitz_open pdf_path = Ok doc ->
    page_num < doc_len doc ->
    doc_getitem doc page_num = Raise e ->
    raised_in_pymupdf pdf_path page_num dpi w results e true
| in_extract_pdf_elements doc page :
    detectors_return pdf_path page_num dpi w results ->
    PYMUPDF_AVAILABLE = true ->
    fitz_open pdf_path = Ok doc ->
    page_num < doc_len doc ->
    doc_getitem doc page_num = Ok page ->
    extract_pdf_elements page = Raise e ->
    raised_in_pymupdf pdf_path page_num dpi w results e true.

(** An exception raised by the clustering inside
    [detect_background_colors]: the function has imported sklearn and has
    got as far as the call of KMeans, which raises. *)
Definition raised_in_clustering (img : bgr_image) (dpi : Z) (w : entropy)
  (e : exn) : Prop :=
  import_sklearn_cluster = Ok tt
  /\ dpi <> 0 /\ 2 <= len (all_colors img)
  /\ KMeans_fit_predict (n_clusters img) (Some 42) 10 (all_colors img) w
     = Raise e.

(** What the PyMuPDF block leaves in the trace when it fails. *)
Definition pymupdf_failure_trace (pdf_path : string) (e : exn)
  (opened : bool) : trace :=
  (if opened then [DocOpen pdf_path] else [])
  ++ [Print ("PyMuPDF error: " ++ message e)%string].

End PipelineTerms1.

(** The conversion finds no page. *)
Definition no_page_scenario : scenario :=
  {| sc_pages := Ok [];
     sc_hough := Ok None;
     sc_kmeans := Ok ([], []);
     sc_scores := Ok [];
     sc_pymupdf := true;
     sc_fitz_open := Ok tt;
     sc_doc_len := 1;
     sc_drawings := Ok [] |}.

(** A page smaller than one sampling region, on which nothing is
    detected; its only drawing is a line whose item carries two entries
    after the tag, where the script unpacks four. *)
Definition line_drawing_scenario : scenario :=
  {| sc_pages := Ok [uniform_page 50 50 (255, 255, 255)];
     sc_hough := Ok None;
     sc_kmeans := Ok ([], []);
     sc_scores := Ok [];
     sc_pymupdf := true;
     sc_fitz_open := Ok tt;
     sc_doc_len := 1;
     sc_drawings := Ok [[("l", [0; 0]%R)]] |}.

Section PipelineTerms2.
Context {L : Libs}.

(** A library call made by a run of [detect_lines_and_colors] raised
    [e]. *)
Definition raised_inside (pdf_path : string) (page_num dpi : Z)
  (w : entropy) (e : exn) : Prop :=
  raised_outside_handlers pdf_path page_num dpi w e
  \/ (exists results opened,
        raised_in_pymupdf pdf_path page_num dpi w results e opened)
  \/ (exists page0 pages img gray lines,
        convert_from_path pdf_path dpi (page_num + 1) (page_num + 1)
        = Ok (page0 :: pages)
        /\ cvtColor_RGB2BGR page0 = Ok img
        /\ cvtColor_BGR2GRAY img = Ok gray
        /\ detect_lines gray dpi w = Ok lines
        /\ raised_in_clustering img dpi w e).

(** The two lines that the top-level handler prints. *)
Definition top_level_report (e : exn) : trace :=
  [Print ("Error processing PDF: " ++ message e)%string;
   Print "Make sure you have installed: pip install opencv-python pdf2image PyMuPDF pillow"].

End PipelineTerms2.

(** C3 as the specification states it: whatever is raised inside
    [detect_lines_and_colors] leaves it uncaught. *)
Definition every_exception_propagates : Prop :=
  forall (L : Libs) (pdf_path : string) (page_num dpi : Z) (w : entropy)
         (e : exn) (t : trace),
    raised_inside pdf_path page_num dpi w e ->
    fst (detect_lines_and_colors pdf_path page_num dpi w t) = Raise e.

(** Nothing is detected on the page, and [fitz.open] fails. *)
Definition fitz_failure_scenario : scenario :=
  {| sc_pages := Ok [uniform_page 50 50 (255, 255, 255)];
     sc_hough := Ok None;
     sc_kmeans := Ok ([], []);
     sc_scores := Ok [];
     sc_pymupdf := true;
     sc_fitz_open := Raise (Exn true "cannot open broken document");
     sc_doc_len := 1;
     sc_drawings := Ok [] |}.

(** The page conversion itself fails. *)
Definition conversion_failure_scenario : scenario :=
  {| sc_pages := Raise (Exn true "Unable to get page count.");
     sc_hough := Ok None;
     sc_kmeans := Ok ([], []);
     sc_scores := Ok [];
     sc_pymupdf := true;
     sc_fitz_open := Ok tt;
     sc_doc_len := 1;
     sc_drawings := Ok [] |}.

#[local] Instance silent_json (A : Type) : Json A :=
  {| json_dump := fun _ => ([], None) |}.

#[local] Instance open_always : FileSystem :=
  {| open_w := fun _ => Ok tt |}.

(** Every region of the sampling grid has pixels in it. *)
Definition grid_regions_nonempty (rows cols : Z) : bool :=
  forallb
    (fun y =>
       forallb
         (fun x =>
            (0 <? len (slice y (y + grid_size) rows))
            && (0 <? len (slice x (x + grid_size) cols)))
         (range3 0 (cols - grid_size) grid_size))
    (range3 0 (rows - grid_size) grid_size).

(** Two regions survive on a red page of 101 by 201 pixels, five on one of
    101 by 501 pixels. *)
Definition narrow_red_page : bgr_image := uniform_page 101 201 (0, 0, 90).

Definition wide_red_page : bgr_image := uniform_page 101 501 (0, 0, 90).

(** C4 as the specification states it: one constant serves every image
    on which KMeans is invoked. *)
Definition fixed_cluster_count : Prop :=
  exists k, forall img, 2 <= len (all_colors img) -> n_clusters img = k.

(** *** The words of C10

    The lowercase hexadecimal notation, written as its reading: the value
    of a digit, of two digits, and of the whole of ["#rrggbb"].  Nothing
    but the sixteen characters [0-9a-f] has a value: the digits are the
    ASCII codes 48 to 57, the letters [a] to [f] the codes 97 to 102. *)
Definition lower_hex_value (c : ascii) : option Z :=
  let code := Z.of_nat (nat_of_ascii c) in
  if (48 <=? code) && (code <=? 57) then Some (code - 48)
  else if (97 <=? code) && (code <=? 102) then Some (code - 87)
  else None.

Definition hex_pair_value (hi lo : ascii) : option Z :=
  match lower_hex_value hi, lower_hex_value lo with
  | Some h, Some l => Some (16 * h + l)
  | _, _ => None
  end.

(** The three integers that a string of the form ["#rrggbb"] encodes;
    [None] for any other string. *)
Definition decode_rrggbb (s : string) : option (list Z) :=
  match s with
  | String "#" (String r1 (String r0 (String g1 (String g0
      (String b1 (String b0 EmptyString)))))) =>
      match hex_pair_value r1 r0, hex_pair_value g1 g0,
            hex_pair_value b1 b0 with
      | Some r, Some g, Some b => Some [r; g; b]
      | _, _, _ => None
      end
  | _ => None
  end.

(** What C10 says of one record: at least three regions, and a [hex]
    field that reads as the three integers of [rgb] (for channels that
    are bytes, as those of an image are). *)
Definition color_record_ok (r : Color.t) : Prop :=
  3 <= Color.region_count r
  /\ exists cr cg cb,
       Color.rgb r = [cr; cg; cb]
       /\ Color.hex r
          = String "#" (format_02x cr ++ format_02x cg ++ format_02x cb)%string
       /\ (0 <= cr <= 255 -> 0 <= cg <= 255 -> 0 <= cb <= 255 ->
           decode_rrggbb (Color.hex r) = Some (Color.rgb r)).

(** KMeans puts the first three regions of the wide red page in one
    cluster and the other two in a second one. *)
Definition clustered_scenario : scenario :=
  {| sc_pages := Ok [wide_red_page];
     sc_hough := Ok None;
     sc_kmeans :=
       Ok ([0; 0; 0; 1; 1], [(IZR 0, IZR 0, IZR 90); (IZR 10, IZR 20, IZR 30)]);
     sc_scores := Ok [];
     sc_pymupdf := false;
     sc_fitz_open := Ok tt;
     sc_doc_len := 1;
     sc_drawings := Ok [] |}.

(** The chunks written, one after the other. *)
Definition joined (chunks : list string) : string :=
  fold_right String.append "" chunks.

Section TextTerms1.
Context {P : PdfPlumber} {JW : Json (dict (list word))} {FS : FileSystem}.

(** An exception raised in a run of the script.  [written] tells what
    had reached the output file by then: [None] when the output file was
    not open yet, the chunks written when [json.dump] raised. *)
Inductive text_failure (e : exn) : option (list string) -> Prop :=
| in_pdfplumber_open :
    pdfplumber_open "f1040.pdf" = Raise e ->
    text_failure e None
| in_pdf_pages pdf :
    pdfplumber_open "f1040.pdf" = Ok pdf ->
    pdf_pages pdf = Raise e ->
    text_failure e None
| in_extract_words pdf pages :
    pdfplumber_open "f1040.pdf" = Ok pdf ->
    pdf_pages pdf = Ok pages ->
    pages_loop 0 pages [] = Raise e ->
    text_failure e None
| in_open_w pdf pages output :
    pdfplumber_open "f1040.pdf" = Ok pdf ->
    pdf_pages pdf = Ok pages ->
    pages_loop 0 pages [] = Ok output ->
    open_w "f1040_words.json" = Raise e ->
    text_failure e None
| in_json_dump pdf pages output chunks :
    pdfplumber_open "f1040.pdf" = Ok pdf ->
    pdf_pages pdf = Ok pages ->
    pages_loop 0 pages [] = Ok output ->
    open_w "f1040_words.json" = Ok tt ->
    json_dump output = (chunks, Some e) ->
    text_failure e (Some chunks).

(** The trace of a run that fails when [written] had reached the file. *)
Definition text_failure_trace (e : exn) (written : option (list string))
  (pdf_open : bool) : trace :=
  (if pdf_open then [DocOpen "f1040.pdf"; DocClose "f1040.pdf"] else [])
  ++ match written with
     | None => []
     | Some chunks =>
         [FileOpen "f1040_words.json"]
         ++ map (FileWrite "f1040_words.json") chunks
         ++ [FileClose "f1040_words.json"]
     end.

End TextTerms1.

(** C6 as the specification states it: the exception leaves the script
    uncaught and the output file holds nothing. *)
Definition failure_commits_nothing : Prop :=
  forall (P : PdfPlumber) (JW : Json (dict (list word))) (FS : FileSystem)
         (e : exn) (written : option (list string)),
    text_failure e written ->
    exists t',
      text_parser [] = (Raise e, t')
      /\ (file_content "f1040_words.json" t' = None
          \/ file_content "f1040_words.json" t' = Some "").

(** A document of one page with two words. *)
Definition one_page_plumber : PdfPlumber :=
  {| plumber_pdf := unit;
     plumber_page := unit;
     word := string;
     pdfplumber_open := fun _ => Ok tt;
     pdf_pages := fun _ => Ok [tt];
     extract_words := fun _ _ => Ok ["Form"; "1040"] |}.

Definition not_serializable : exn :=
  Exn true "Object of type Decimal is not JSON serializable".

(** The encoder fails on a value after the opening of the object was
    written. *)
Definition failing_json : Json (dict (list (@word one_page_plumber))) :=
  {| json_dump := fun _ => (["{"; "page_1: ["], Some not_serializable) |}.

(* ----------------------------------------------------------------- *)
(** *** Further synthetic situations *)

(** One page on which the Hough transform finds the segments [segs]. *)
Definition hough_scenario (segs : option (list segment)) : scenario :=
  {| sc_pages := Ok [uniform_page 400 400 (0, 0, 0)];
     sc_hough := Ok segs;
     sc_kmeans := Ok ([], []);
     sc_scores := Ok [];
     sc_pymupdf := false;
     sc_fitz_open := Ok tt;
     sc_doc_len := 1;
     sc_drawings := Ok [] |}.

(** [l1] is [l2] with some elements left out, the order kept. *)
Inductive subsequence {A : Type} : list A -> list A -> Prop :=
| subsequence_nil : subsequence [] []
| subsequence_keep a l1 l2 :
    subsequence l1 l2 -> subsequence (a :: l1) (a :: l2)
| subsequence_drop a l1 l2 :
    subsequence l1 l2 -> subsequence l1 (a :: l2).

(** What the construction of a checkbox record guarantees: a template
    match scored at least 0.6 and has the size of the template; a contour
    passed the shape filter and has a bright interior. *)
Definition checkbox_ok (dpi : Z) (r : Checkbox.t) : Prop :=
  Checkbox.element_type r = "checkbox"
  /\ box_units (Checkbox.position r) = "points"
  /\ match Checkbox.details r with
     | Checkbox.confidence c =>
         Checkbox.detection_method r = "template_matching"
         /\ (6 / 10 <= c)%R
         /\ width (Checkbox.position r) = round (20 * (72 / IZR dpi)) 2
         /\ height (Checkbox.position r) = round (20 * (72 / IZR dpi)) 2
     | Checkbox.properties aspect_ratio extent area interior_brightness =>
         Checkbox.detection_method r = "contour_analysis"
         /\ (8 / 10 <= aspect_ratio <= 12 / 10)%R
         /\ (7 / 10 <= extent <= 1)%R
         /\ (200 <= interior_brightness)%R
     end.

(** The items that [extract_pdf_elements] turns into shapes, and the type
    of the shape. *)
Definition is_shape_item (item : string * list R) : bool :=
  String.eqb (fst item) "l" || String.eqb (fst item) "re".

Definition shape_type_of (item : string * list R) : string :=
  if String.eqb (fst item) "l" then "line" else "rectangle".

(** A page too small for any detection, in a document of [doc_len] pages
    whose pages all carry the drawings [drawings]. *)
Definition document_scenario (doc_len : Z)
  (drawings : list (list (string * list R))) : scenario :=
  {| sc_pages := Ok [uniform_page 50 50 (255, 255, 255)];
     sc_hough := Ok None;
     sc_kmeans := Ok ([], []);
     sc_scores := Ok [];
     sc_pymupdf := true;
     sc_fitz_open := Ok tt;
     sc_doc_len := doc_len;
     sc_drawings := Ok drawings |}.

(** The encoder writes the whole object in two chunks. *)
Definition two_chunk_json (A : Type) : Json A :=
  {| json_dump := fun _ => (["{"; "}"], None) |}.

Section TextTerms2.
Context {P : PdfPlumber}.

(** The object that the text script dumps for pages whose words are
    [wss]: one entry per page, keyed "page_1", "page_2", ... in page
    order. *)
Definition text_output (wss : list (list word)) : dict (list word) :=
  combine (map (fun k => ("page_" ++ str (Z.of_nat k + 1))%string)
               (seq 0 (List.length wss)))
          wss.

End TextTerms2.

(* ================================================================= *)
(** ** Facts about the numeric model *)

Section NumFacts.
Local Open Scope R_scope.

Lemma Rltb_true (a b : R) : Rltb a b = true <-> a < b.
Proof. unfold Rltb; destruct (Rlt_dec a b); split; intros; try easy. Qed.

Lemma Rltb_false (a b : R) : Rltb a b = false <-> b <= a.
Proof.
  unfold Rltb; destruct (Rlt_dec a b); split; intros; try easy; lra.
Qed.

Lemma rint_near (r : R) : Rabs (IZR (rint r) - r) <= 1 / 2.
Proof.
  unfold rint.
  pose proof (base_fp r) as [Hf0 Hf1].
  assert (Hr : r = IZR (Int_part r) + frac_part r)
    by apply Rplus_Int_part_frac_part.
  set (n := Int_part r) in *. set (f := frac_part r) in *.
  destruct (Rlt_dec f (1 / 2)).
  - apply Rabs_le; lra.
  - destruct (Rlt_dec (1 / 2) f).
    + rewrite plus_IZR; apply Rabs_le; lra.
    + destruct (Z.even n); [| rewrite plus_IZR]; apply Rabs_le; lra.
Qed.

Lemma pow10_pos (n : nat) : 0 < 10 ^ n.
Proof. apply pow_lt; lra. Qed.

(** Rounding to [n] decimals moves a value by at most half a unit of the
    last kept decimal. *)
Lemma round_near (x : R) (n : nat) :
  Rabs (round x n - x) <= / 2 * / 10 ^ n.
Proof.
  unfold round.
  pose proof (pow10_pos n) as Hp.
  pose proof (rint_near (x * 10 ^ n)) as H.
  replace (IZR (rint (x * 10 ^ n)) / 10 ^ n - x)
    with ((IZR (rint (x * 10 ^ n)) - x * 10 ^ n) * / 10 ^ n)
    by (field; lra).
  rewrite Rabs_mult, (Rabs_right (/ 10 ^ n)).
  - apply Rmult_le_compat_r; [ | lra].
    left; apply Rinv_0_lt_compat; exact Hp.
  - left; apply Rinv_0_lt_compat; exact Hp.
Qed.

Lemma round_grid (x : R) (n : nat) :
  (round x n * 10 ^ n = IZR (rint (x * 10 ^ n)))%R.
Proof.
  unfold round. pose proof (pow10_pos n). field; lra.
Qed.

Lemma Int_part_IZR (z : Z) : Int_part (IZR z) = z.
Proof. symmetry; apply Int_part_spec; lra. Qed.

Lemma int_IZR (z : Z) : int (IZR z) = z.
Proof.
  unfold int. destruct (Rle_dec 0 (IZR z)).
  - apply Int_part_IZR.
  - rewrite <- opp_IZR, Int_part_IZR. lia.
Qed.

Lemma arctan2_0_pos (x : R) : 0 < x -> arctan2 0 x = 0.
Proof.
  intros Hx. unfold arctan2. destruct (Rlt_dec 0 x); [ | contradiction].
  unfold Rdiv. rewrite Rmult_0_l. apply atan_0.
Qed.

Lemma arctan2_0_neg (x : R) : x < 0 -> arctan2 0 x = PI.
Proof.
  intros Hx. unfold arctan2.
  destruct (Rlt_dec 0 x); [lra | ].
  destruct (Rlt_dec x 0); [ | contradiction].
  destruct (Rle_dec 0 0); [ | lra].
  unfold Rdiv. rewrite Rmult_0_l, atan_0. lra.
Qed.

End NumFacts.

Lemma wrap32_id (z : Z) : is_int32 z -> wrap32 z = z.
Proof.
  unfold is_int32, wrap32. intros H.
  rewrite Z.mod_small; lia.
Qed.

Lemma wrap32_diff_nonzero (a b : Z) :
  is_int32 a -> is_int32 b -> a <> b -> wrap32 (b - a) <> 0.
Proof.
  unfold is_int32, wrap32. intros Ha Hb Hab H.
  assert (E : (b - a + 2 ^ 31) mod 2 ^ 32 = 2 ^ 31) by lia.
  pose proof (Z.div_mod (b - a + 2 ^ 31) (2 ^ 32) ltac:(lia)) as D.
  rewrite E in D.
  assert (Hq : (b - a + 2 ^ 31) / 2 ^ 32 = 0 \/ (b - a + 2 ^ 31) / 2 ^ 32 <> 0)
    by lia.
  destruct Hq as [Hq | Hq]; [rewrite Hq in D; lia | ].
  set (q := (b - a + 2 ^ 31) / 2 ^ 32) in *.
  assert (2 ^ 32 * q = b - a) by lia.
  assert (- 2 ^ 32 < b - a < 2 ^ 32) by lia.
  nia.
Qed.

(* ================================================================= *)
(** ** Facts about results and loops *)

Lemma mapM_Forall2 {A B} (f : A -> result B) (l : list A) (bs : list B) :
  mapM f l = Ok bs -> Forall2 (fun a b => f a = Ok b) l bs.
Proof.
  revert bs; induction l as [| a l IH]; simpl; intros bs H.
  - inversion H; constructor.
  - destruct (f a) as [b | e] eqn:Ea; simpl in H; [ | discriminate].
    destruct (mapM f l) as [bs' | e] eqn:El; simpl in H; [ | discriminate].
    inversion H; subst. constructor; auto.
Qed.

Lemma mapM_total {A B} (f : A -> result B) (l : list A) :
  (forall a, In a l -> exists b, f a = Ok b) -> exists bs, mapM f l = Ok bs.
Proof.
  induction l as [| a l IH]; simpl; intros H.
  - eexists; reflexivity.
  - destruct (H a (or_introl eq_refl)) as [b Hb].
    destruct IH as [bs Hbs]; [intros; apply H; auto | ].
    exists (b :: bs). rewrite Hb, Hbs. reflexivity.
Qed.

Lemma mapM_Raise {A B} (f : A -> result B) (l1 l2 : list A) (a : A)
  (bs : list B) (e : exn) :
  mapM f l1 = Ok bs -> f a = Raise e -> mapM f (l1 ++ a :: l2) = Raise e.
Proof.
  revert bs; induction l1 as [| a1 l1 IH]; simpl; intros bs H1 Ha.
  - rewrite Ha; reflexivity.
  - destruct (f a1); simpl in *; [ | discriminate].
    destruct (mapM f l1) eqn:E; simpl in *; [ | discriminate].
    rewrite (IH _ eq_refl Ha). reflexivity.
Qed.

Lemma Forall2_impl {A B} (P Q : A -> B -> Prop) (l : list A) (l' : list B) :
  (forall a b, P a b -> Q a b) -> Forall2 P l l' -> Forall2 Q l l'.
Proof. intros H F; induction F; constructor; auto. Qed.

(* ================================================================= *)
(** ** Line detection *)

Section LineFacts.
Context {L : Libs}.

Lemma black_count_dark_samples (g : gray_image) (x1 y1 x2 y2 : Z) :
  black_count g x1 y1 x2 y2 = dark_samples g (x1, y1, x2, y2).
Proof.
  unfold black_count, dark_samples, num_samples, len.
  generalize (range 20) as l.
  assert (G : forall l c,
             fold_left
               (fun bc i =>
                  if dark_sample g (sample_point x1 y1 x2 y2 i)
                  then bc + 1 else bc) l c
             = c + Z.of_nat
                     (List.length
                        (filter
                           (fun i =>
                              dark_sample g (sample_point x1 y1 x2 y2 i))
                           l))).
  { induction l as [| i l IH]; intros c; cbn [fold_left filter].
    - simpl; lia.
    - rewrite IH.
      destruct (dark_sample g (sample_point x1 y1 x2 y2 i));
        [cbn [List.length]; rewrite Nat2Z.inj_succ | ]; lia. }
  intros l; rewrite G; lia.
Qed.

Lemma detect_line_style_dotted (g : gray_image) (x1 y1 x2 y2 : Z) :
  detect_line_style g x1 y1 x2 y2 = "dotted"
  <-> 100 * dark_samples g (x1, y1, x2, y2) < 70 * 20.
Proof.
  unfold detect_line_style. rewrite black_count_dark_samples.
  set (n := dark_samples g (x1, y1, x2, y2)).
  unfold num_samples.
  destruct (Rltb (IZR n / 20) (7 / 10)) eqn:E.
  - apply Rltb_true in E. split; [intros _ | reflexivity].
    assert (IZR n < 14)%R by lra.
    assert (n < 14) by (apply lt_IZR; assumption). lia.
  - apply Rltb_false in E. split; [discriminate | intros H].
    assert (n < 14) by lia.
    assert (IZR n < 14)%R by (apply IZR_lt; assumption). lra.
Qed.

Lemma detect_line_style_cases (g : gray_image) (x1 y1 x2 y2 : Z) :
  detect_line_style g x1 y1 x2 y2 = "dotted"
  \/ detect_line_style g x1 y1 x2 y2 = "solid".
Proof.
  unfold detect_line_style. destruct (Rltb _ _); auto.
Qed.

Lemma orb_Rltb (a b c d : R) :
  Rltb a b || Rltb c d = true <-> (a < b \/ c < d)%R.
Proof.
  rewrite orb_true_iff, !Rltb_true. reflexivity.
Qed.

Lemma classify_orientation_spec (a : R) :
  (classify_orientation a = "horizontal" <-> horizontal_angle a)
  /\ (classify_orientation a = "vertical"
      <-> ~ horizontal_angle a /\ vertical_angle a)
  /\ (classify_orientation a = "diagonal"
      <-> ~ horizontal_angle a /\ ~ vertical_angle a).
Proof.
  unfold classify_orientation, horizontal_angle, vertical_angle.
  destruct (Rltb (Rabs a) 10 || Rltb (Rabs (a - 180)) 10) eqn:H.
  - apply orb_Rltb in H.
    repeat split; intros; try discriminate; tauto.
  - assert (Hn : ~ (Rabs a < 10 \/ Rabs (a - 180) < 10)%R).
    { intros C. apply orb_Rltb in C. congruence. }
    destruct (Rltb (Rabs (a - 90)) 10 || Rltb (Rabs (a + 90)) 10) eqn:V.
    + apply orb_Rltb in V.
      repeat split; intros; try discriminate; tauto.
    + assert (Vn : ~ (Rabs (a - 90) < 10 \/ Rabs (a + 90) < 10)%R).
      { intros C. apply orb_Rltb in C. congruence. }
      repeat split; intros; try discriminate; tauto.
Qed.

Lemma line_record_ok (g : gray_image) (dpi : Z) (s : segment) :
  dpi <> 0 -> exists r, line_record g dpi s = Ok r.
Proof.
  intros Hd. destruct s as [[[a b] c] d]. unfold line_record.
  destruct (dpi =? 0) eqn:E; [apply Z.eqb_eq in E; contradiction | ].
  eexists; reflexivity.
Qed.

(** With a resolution other than 0, [detect_lines] returns one record per
    Hough segment, each built by [line_record]. *)
Lemma detect_lines_records (g : gray_image) (dpi : Z) (w : entropy)
  (edges : edge_map) (segs : list segment) :
  dpi <> 0 ->
  Canny g 100 200 3 = Ok edges ->
  HoughLinesP edges 1 (PI / 180) 200 100 5 w = Ok (Some segs) ->
  exists recs,
    detect_lines g dpi w = Ok recs
    /\ Forall2 (fun s r => line_record g dpi s = Ok r) segs recs.
Proof.
  intros Hd Hc Hh. unfold detect_lines. rewrite Hc; simpl. rewrite Hh; simpl.
  destruct (mapM_total (line_record g dpi) segs) as [recs Hr].
  { intros; apply line_record_ok; assumption. }
  exists recs; split; [assumption | apply mapM_Forall2; assumption].
Qed.

(** [int] of a value between two integers stays between them. *)
Lemma int_between (a b : Z) (v : R) :
  0 <= a -> (IZR a <= v <= IZR b)%R -> a <= int v <= b.
Proof.
  intros Ha [Hl Hu]. unfold int.
  assert (0 <= IZR a)%R by (apply IZR_le; exact Ha).
  destruct (Rle_dec 0 v) as [_ | Hn]; [ | lra].
  destruct (base_Int_part v) as [H1 H2].
  split.
  - assert (IZR a < IZR (Int_part v + 1))%R by (rewrite plus_IZR; lra).
    apply lt_IZR in H0. lia.
  - apply le_IZR. lra.
Qed.

(** The samples of a segment whose endpoints are pixels of the image are
    pixels of the image: for the segments that [cv2.HoughLinesP] returns,
    no sample falls out of bounds. *)
Lemma samples_inside (g : gray_image) (px1 py1 px2 py2 i : Z) :
  gray_cols g <= 2 ^ 31 -> gray_rows g <= 2 ^ 31 ->
  0 <= px1 < gray_cols g -> 0 <= px2 < gray_cols g ->
  0 <= py1 < gray_rows g -> 0 <= py2 < gray_rows g ->
  In i (range num_samples) ->
  0 <= fst (sample_point px1 py1 px2 py2 i) < gray_cols g
  /\ 0 <= snd (sample_point px1 py1 px2 py2 i) < gray_rows g.
Proof.
  intros Hc Hr Hx1 Hx2 Hy1 Hy2 Hi.
  unfold sample_point; cbn [fst snd].
  assert (Wx : is_int32 (px2 - px1)) by (unfold is_int32; lia).
  assert (Wy : is_int32 (py2 - py1)) by (unfold is_int32; lia).
  rewrite (wrap32_id _ Wx), (wrap32_id _ Wy).
  assert (Ht : (0 <= IZR i / IZR (num_samples - 1) <= 1)%R).
  { change (In i [0; 1; 2; 3; 4; 5; 6; 7; 8; 9; 10; 11; 12; 13; 14; 15; 16;
                  17; 18; 19]) in Hi.
    simpl in Hi. unfold num_samples; simpl.
    repeat (destruct Hi as [<- | Hi]; [lra | ]). contradiction. }
  set (t := (IZR i / IZR (num_samples - 1))%R) in *.
  assert (B : forall a b : Z,
             (IZR (Z.min a b) <= IZR a + t * IZR (b - a)
              <= IZR (Z.max a b))%R).
  { intros a b. rewrite minus_IZR.
    destruct (Z_le_gt_dec a b) as [Hab | Hab].
    - rewrite Z.min_l, Z.max_r by lia.
      apply IZR_le in Hab. split; nra.
    - rewrite Z.min_r, Z.max_l by lia.
      assert (IZR b <= IZR a)%R by (apply IZR_le; lia). split; nra. }
  pose proof (int_between (Z.min px1 px2) (Z.max px1 px2) _
                ltac:(lia) (B px1 px2)).
  pose proof (int_between (Z.min py1 py2) (Z.max py1 py2) _
                ltac:(lia) (B py1 py2)).
  lia.
Qed.

End LineFacts.

(* ================================================================= *)
(** ** C1: horizontal segments *)

Section Horizontal.
Context {L : Libs}.

Lemma round_rounded2 (e : R) : rounded2 (round e 2) e.
Proof.
  split; [reflexivity | split].
  - exists (rint (e * 100)).
    pose proof (round_grid e 2) as H. simpl in H.
    replace (10 * (10 * 1))%R with 100%R in H by lra. exact H.
  - pose proof (round_near e 2) as H. simpl in H.
    replace (/ 2 * / (10 * (10 * 1)))%R with (1 / 200)%R in H by lra.
    exact H.
Qed.

Lemma horizontal_segment_angle (px1 py px2 : Z) :
  is_int32 px1 -> is_int32 px2 -> px1 <> px2 ->
  segment_angle (px1, py, px2, py) = 0%R
  \/ segment_angle (px1, py, px2, py) = 180%R.
Proof.
  intros H1 H2 Hne. unfold segment_angle.
  replace (py - py) with 0 by lia.
  change (wrap32 0) with 0.
  pose proof (wrap32_diff_nonzero px1 px2 H1 H2 Hne) as Hd.
  set (dx := wrap32 (px2 - px1)) in *.
  assert (Hs : dx < 0 \/ 0 < dx) by lia.
  pose proof PI_RGT_0 as Hpi.
  destruct Hs as [Hs | Hs].
  - right. rewrite arctan2_0_neg by (apply (IZR_lt dx 0); assumption).
    field; lra.
  - left. rewrite arctan2_0_pos by (apply (IZR_lt 0 dx); assumption).
    field; lra.
Qed.

Lemma horizontal_segment_orientation (px1 py px2 : Z) :
  is_int32 px1 -> is_int32 px2 -> px1 <> px2 ->
  classify_orientation (segment_angle (px1, py, px2, py)) = "horizontal".
Proof.
  intros H1 H2 Hne.
  apply (proj1 (classify_orientation_spec _)).
  destruct (horizontal_segment_angle px1 py px2 H1 H2 Hne) as [E | E];
    rewrite E; [left | right].
  - rewrite Rabs_R0; lra.
  - replace (180 - 180)%R with 0%R by lra. rewrite Rabs_R0; lra.
Qed.

Lemma line_record_horizontal (g : gray_image) (dpi : Z) (s : segment)
  (r : Line.t) :
  line_record g dpi s = Ok r -> horizontal_record dpi s r.
Proof.
  destruct s as [[[px1 py1] px2] py2]. unfold line_record, horizontal_record.
  destruct (dpi =? 0); [discriminate | ].
  intros H; inversion H; subst; clear H; simpl.
  intros H1 H2 Hy Hne; subst py2.
  split; [apply horizontal_segment_orientation; assumption | ].
  repeat split; try apply round_rounded2.
Qed.

(** C1. For a resolution other than 0, [detect_lines] emits one record per
    Hough segment, and the record of an exactly horizontal segment
    ([y1 = y2], [x1 <> x2], [int32] coordinates) has orientation
    "horizontal" and position coordinates that are the pixel coordinates
    times [72 / dpi] rounded to two decimals, hence within 0.005 of the
    exact point value. *)
Theorem detect_lines_horizontal (g : gray_image) (dpi : Z) (w : entropy)
  (edges : edge_map) (segs : list segment) :
  dpi <> 0 ->
  Canny g 100 200 3 = Ok edges ->
  HoughLinesP edges 1 (PI / 180) 200 100 5 w = Ok (Some segs) ->
  exists recs,
    detect_lines g dpi w = Ok recs
    /\ Forall2 (horizontal_record dpi) segs recs.
Proof.
  intros Hd Hc Hh.
  destruct (detect_lines_records g dpi w edges segs Hd Hc Hh)
    as [recs [Hr HF]].
  exists recs; split; [assumption | ].
  eapply Forall2_impl; [ | exact HF].
  intros s r; apply line_record_horizontal.
Qed.

End Horizontal.

(** A run of C1: one horizontal segment from (10, 50) to (150, 50) at
    150 dpi. *)
Lemma detect_lines_horizontal_witness :
  exists r,
    detect_lines (L := scenario_libs one_line_scenario)
                 (black_gray 400 400) 150 0 = Ok [r]
    /\ Line.orientation r = "horizontal"
    /\ (Rabs (x2 (Line.position r) - 72) <= 1 / 200)%R.
Proof.
  destruct (detect_lines_horizontal (L := scenario_libs one_line_scenario)
              (black_gray 400 400) 150 0 tt [(10, 50, 150, 50)])
    as [recs [Hr HF]]; [lia | reflexivity | reflexivity | ].
  inversion HF as [ | s r ss rs Hrec Hrest]; subst.
  inversion Hrest; subst.
  exists r. split; [exact Hr | ].
  destruct Hrec as [Ho [_ [_ [[_ [_ Hx2]] _]]]];
    [unfold is_int32; lia | unfold is_int32; lia | reflexivity | lia | ].
  split; [exact Ho | ].
  replace 72%R with (150 * (72 / 150))%R by lra. exact Hx2.
Defined.

(* ================================================================= *)
(** ** C2: orientation and style of every line record *)

(** *** The angle is the direction of the segment *)

Lemma sin_cos_atan (q : R) :
  (0 < cos (atan q) /\ sin (atan q) = q * cos (atan q))%R.
Proof.
  destruct (atan_bound q) as [Hlo Hhi].
  assert (Hc : (0 < cos (atan q))%R).
  { apply cos_gt_0; lra. }
  split; [exact Hc | ].
  pose proof (tan_atan q) as Ht. unfold tan in Ht.
  rewrite <- Ht at 2. field. lra.
Qed.

Lemma atan_sign (q : R) :
  ((q <= 0 -> atan q <= 0) /\ (0 < q -> 0 < atan q))%R.
Proof.
  split; intros H.
  - destruct H as [H | H].
    + apply atan_increasing in H. rewrite atan_0 in H. lra.
    + subst q. rewrite atan_0. lra.
  - apply atan_increasing in H. rewrite atan_0 in H. exact H.
Qed.

Lemma arctan2_direction (y x : R) :
  (- PI < arctan2 y x <= PI
   /\ x * sin (arctan2 y x) = y * cos (arctan2 y x)
   /\ 0 <= x * cos (arctan2 y x) + y * sin (arctan2 y x))%R.
Proof.
  pose proof PI_RGT_0 as HPI.
  unfold arctan2.
  destruct (Rlt_dec 0 x) as [Hx | Hx].
  { destruct (atan_bound (y / x)) as [Hlo Hhi].
    destruct (sin_cos_atan (y / x)) as [Hc Hs].
    split; [lra | ]. rewrite Hs. split; [field; lra | ].
    replace (x * cos (atan (y / x)) + y * (y / x * cos (atan (y / x))))%R
      with (cos (atan (y / x)) * ((x * x + y * y) / x))%R by (field; lra).
    apply Rmult_le_pos; [lra | ].
    apply Rmult_le_pos; [nra | ].
    left; apply Rinv_0_lt_compat; exact Hx. }
  destruct (Rlt_dec x 0) as [Hx' | Hx'].
  { destruct (atan_bound (y / x)) as [Hlo Hhi].
    destruct (sin_cos_atan (y / x)) as [Hc Hs].
    destruct (atan_sign (y / x)) as [Hneg Hpos].
    assert (Hdot : (0 <= - (x * cos (atan (y / x))
                            + y * (y / x * cos (atan (y / x)))))%R).
    { replace (- (x * cos (atan (y / x))
                  + y * (y / x * cos (atan (y / x)))))%R
        with (cos (atan (y / x)) * ((x * x + y * y) / - x))%R
        by (field; lra).
      apply Rmult_le_pos; [lra | ].
      apply Rmult_le_pos; [nra | ].
      left; apply Rinv_0_lt_compat; lra. }
    destruct (Rle_dec 0 y) as [Hy | Hy].
    - assert (Hq : (y / x <= 0)%R).
      { unfold Rdiv. replace 0%R with (y * 0)%R by ring.
        apply Rmult_le_compat_l; [exact Hy | ].
        left; apply Rinv_lt_0_compat; exact Hx'. }
      specialize (Hneg Hq).
      rewrite neg_sin, neg_cos, Hs.
      split; [lra | ]. split; [field; lra | lra].
    - assert (Hq : (0 < y / x)%R).
      { replace (y / x)%R with ((- y) * / (- x))%R by (field; lra).
        apply Rmult_lt_0_compat; [lra | ].
        apply Rinv_0_lt_compat; lra. }
      specialize (Hpos Hq).
      assert (Es : sin (atan (y / x) - PI) = (- sin (atan (y / x)))%R).
      { pose proof (neg_sin (atan (y / x) - PI)) as E.
        replace (atan (y / x) - PI + PI)%R with (atan (y / x)) in E by ring.
        lra. }
      assert (Ec : cos (atan (y / x) - PI) = (- cos (atan (y / x)))%R).
      { pose proof (neg_cos (atan (y / x) - PI)) as E.
        replace (atan (y / x) - PI + PI)%R with (atan (y / x)) in E by ring.
        lra. }
      rewrite Es, Ec, Hs.
      split; [lra | ]. split; [field; lra | lra]. }
  assert (x = 0)%R by lra. subst x.
  destruct (Rlt_dec 0 y) as [Hy | Hy].
  { rewrite sin_PI2, cos_PI2. split; [lra | ]. split; lra. }
  destruct (Rlt_dec y 0) as [Hy' | Hy'].
  { replace (- PI / 2)%R with (- (PI / 2))%R by field.
    rewrite sin_neg, cos_neg, sin_PI2, cos_PI2.
    split; [lra | ]. split; lra. }
  assert (y = 0)%R by lra. subst y.
  rewrite sin_0, cos_0. split; [lra | ]. split; lra.
Qed.

Lemma segment_angle_direction (s : segment) :
  fits_int32 s -> direction_of s (segment_angle s).
Proof.
  destruct s as [[[px1 py1] px2] py2]. intros [Hx Hy].
  unfold direction_of, segment_angle.
  rewrite !wrap32_id by assumption. rewrite !minus_IZR.
  pose proof PI_RGT_0 as HPI.
  set (dx := (IZR px2 - IZR px1)%R). set (dy := (IZR py2 - IZR py1)%R).
  destruct (arctan2_direction dy dx) as [[Hlo Hhi] [Hpar Hdot]].
  replace (arctan2 dy dx * 180 / PI * PI / 180)%R with (arctan2 dy dx)
    by (field; lra).
  split; [ | split; assumption].
  assert (Hk : (0 < 180 / PI)%R).
  { apply Rdiv_lt_0_compat; lra. }
  assert (E1 : (- PI * (180 / PI) = -180)%R) by (field; lra).
  assert (E2 : (PI * (180 / PI) = 180)%R) by (field; lra).
  replace (arctan2 dy dx * 180 / PI)%R with (arctan2 dy dx * (180 / PI))%R
    by (field; lra).
  pose proof (Rmult_lt_compat_r _ _ _ Hk Hlo) as H1.
  pose proof (Rmult_le_compat_r _ _ _ (Rlt_le _ _ Hk) Hhi) as H2.
  rewrite E1 in H1. rewrite E2 in H2. split; assumption.
Qed.

(** *** The samples of [detect_line_style] are the 20 evenly spaced
        points, and its count the number of dark pixels inside *)

Lemma truncation_int (v : R) : truncation v (int v).
Proof.
  unfold truncation, int.
  destruct (Rle_dec 0 v) as [Hv | Hv].
  - destruct (base_Int_part v) as [H1 H2].
    split; intros; lra.
  - destruct (base_Int_part (- v)) as [H1 H2].
    rewrite opp_IZR. split; intros; lra.
Qed.

Lemma truncation_unique (v : R) (z z' : Z) :
  truncation v z -> truncation v z' -> z = z'.
Proof.
  intros [Hp Hn] [Hp' Hn'].
  assert (H : (IZR z < IZR z' + 1 /\ IZR z' < IZR z + 1)%R).
  { destruct (Rle_dec 0 v) as [Hv | Hv].
    - specialize (Hp Hv); specialize (Hp' Hv). lra.
    - assert (Hv' : (v < 0)%R) by lra.
      specialize (Hn Hv'); specialize (Hn' Hv'). lra. }
  destruct H as [H1 H2].
  rewrite <- plus_IZR in H1, H2.
  apply lt_IZR in H1. apply lt_IZR in H2. lia.
Qed.

Lemma sample_point_evenly_spaced (px1 py1 px2 py2 k : Z) :
  fits_int32 (px1, py1, px2, py2) ->
  sample_point px1 py1 px2 py2 k
  = (int (fst (evenly_spaced_point (px1, py1, px2, py2) k)),
     int (snd (evenly_spaced_point (px1, py1, px2, py2) k))).
Proof.
  intros [Hx Hy]. unfold sample_point, evenly_spaced_point, num_samples.
  cbn [fst snd]. change (20 - 1) with 19.
  rewrite !wrap32_id by assumption. rewrite !minus_IZR. reflexivity.
Qed.

Lemma range_20 : range 20 = map Z.of_nat (seq 0 20).
Proof. reflexivity. Qed.

Lemma Forall2_map_seq {A} (P : nat -> A -> Prop) (f : Z -> A) (l : list nat) :
  (forall k, P k (f (Z.of_nat k))) ->
  Forall2 P l (map f (map Z.of_nat l)).
Proof.
  intros H. induction l as [| k l IH]; cbn [map]; constructor; auto.
Qed.

Lemma samples_of_sample_points (px1 py1 px2 py2 : Z) :
  fits_int32 (px1, py1, px2, py2) ->
  samples_of (px1, py1, px2, py2)
             (map (sample_point px1 py1 px2 py2) (range 20)).
Proof.
  intros Hf. unfold samples_of. rewrite range_20.
  apply Forall2_map_seq. intros k.
  rewrite sample_point_evenly_spaced by assumption. cbn [fst snd].
  split; apply truncation_int.
Qed.

Lemma samples_of_unique (s : segment) (pixels pixels' : list (Z * Z)) :
  samples_of s pixels -> samples_of s pixels' -> pixels = pixels'.
Proof.
  unfold samples_of. generalize (seq 0 20) as ks. intros ks H.
  revert pixels'.
  induction H as [| k p ks ps [Hx Hy] _ IH]; intros pixels' H';
    inversion H' as [| k' p' ks' ps' [Hx' Hy'] Hrest]; subst;
    [reflexivity | ].
  f_equal; [ | apply IH; assumption].
  destruct p as [a b], p' as [a' b']; cbn [fst snd] in *.
  f_equal; eapply truncation_unique; eassumption.
Qed.

Lemma dark_sample_inside (g : gray_image) (p : Z * Z) :
  dark_sample g p = true <-> dark_pixel_inside g p.
Proof.
  destruct p as [sx sy]. unfold dark_sample, dark_pixel_inside.
  cbn [fst snd].
  destruct ((0 <=? sx) && (sx <? gray_cols g)
            && (0 <=? sy) && (sy <? gray_rows g)) eqn:E.
  - rewrite !andb_true_iff in E. destruct E as [[[E1 E2] E3] E4].
    rewrite Z.ltb_lt. lia.
  - split; [discriminate | ].
    intros (Hx & Hy & _). exfalso.
    assert (E' : (0 <=? sx) && (sx <? gray_cols g)
                 && (0 <=? sy) && (sy <? gray_rows g) = true).
    { rewrite !andb_true_iff. repeat split; lia. }
    congruence.
Qed.

Lemma dark_count_filter (g : gray_image) (pixels : list (Z * Z)) :
  dark_count g pixels (len (filter (dark_sample g) pixels)).
Proof.
  unfold len. induction pixels as [| p ps IH]; [constructor | ].
  cbn [filter]. destruct (dark_sample g p) eqn:E.
  - cbn [List.length]. rewrite Nat2Z.inj_succ, <- Z.add_1_r.
    constructor; [apply dark_sample_inside; exact E | exact IH].
  - apply dark_count_other; [ | exact IH].
    intros H. apply dark_sample_inside in H. congruence.
Qed.

Lemma dark_count_unique (g : gray_image) (pixels : list (Z * Z)) (d d' : Z) :
  dark_count g pixels d -> dark_count g pixels d' -> d = d'.
Proof.
  intros H. revert d'.
  induction H as [| p ps d Hp _ IH | p ps d Hp _ IH]; intros d' H';
    inversion H'; subst; try reflexivity; try contradiction.
  - f_equal; apply IH; assumption.
  - apply IH; assumption.
Qed.

Lemma filter_map_length {A B} (f : A -> B) (p : B -> bool) (l : list A) :
  List.length (filter p (map f l))
  = List.length (filter (fun a => p (f a)) l).
Proof.
  induction l as [| a l IH]; [reflexivity | ].
  cbn [map filter]. destruct (p (f a)); cbn [List.length]; congruence.
Qed.

Lemma dark_count_sample_points (g : gray_image) (px1 py1 px2 py2 : Z) :
  dark_count g (map (sample_point px1 py1 px2 py2) (range 20))
             (dark_samples g (px1, py1, px2, py2)).
Proof.
  replace (dark_samples g (px1, py1, px2, py2))
    with (len (filter (dark_sample g)
                      (map (sample_point px1 py1 px2 py2) (range 20)))).
  - apply dark_count_filter.
  - unfold dark_samples, len. rewrite filter_map_length. reflexivity.
Qed.

Section Classification.
Context {L : Libs}.

Lemma classify_orientation_cases (a : R) :
  In (classify_orientation a) ["horizontal"; "vertical"; "diagonal"].
Proof.
  unfold classify_orientation.
  destruct (_ || _); [simpl; auto | ].
  destruct (_ || _); simpl; auto.
Qed.

Lemma detect_line_style_by_count (g : gray_image) (px1 py1 px2 py2 : Z) :
  style_of_dark_count (detect_line_style g px1 py1 px2 py2)
                      (dark_samples g (px1, py1, px2, py2)).
Proof.
  pose proof (detect_line_style_dotted g px1 py1 px2 py2) as Hdot.
  split; [exact Hdot | ].
  destruct (detect_line_style_cases g px1 py1 px2 py2) as [E | E].
  - split; [rewrite E; discriminate | ].
    intros Hge. apply Hdot in E. lia.
  - split; [intros _ | intros _; exact E].
    destruct (Z_lt_le_dec (100 * dark_samples g (px1, py1, px2, py2))
                          (70 * 20)) as [Hlt | Hge]; [ | exact Hge].
    apply Hdot in Hlt. rewrite E in Hlt. discriminate.
Qed.

Lemma line_record_classified (g : gray_image) (dpi : Z) (s : segment)
  (r : Line.t) :
  line_record g dpi s = Ok r -> classified_record g s r.
Proof.
  destruct s as [[[px1 py1] px2] py2]. unfold line_record, classified_record.
  destruct (dpi =? 0); [discriminate | ].
  intros H; inversion H; subst; clear H; cbn [Line.orientation Line.line_style].
  set (a := segment_angle (px1, py1, px2, py2)).
  destruct (classify_orientation_spec a) as [Hh [Hv Hd]].
  pose proof (detect_line_style_by_count g px1 py1 px2 py2) as Hstyle.
  split; [reflexivity | ].
  split; [exact Hh | ]. split; [exact Hv | ]. split; [exact Hd | ].
  split; [apply classify_orientation_cases | ].
  split.
  { destruct (detect_line_style_cases g px1 py1 px2 py2) as [E | E];
      rewrite E; simpl; auto. }
  intros Hfit.
  pose proof (samples_of_sample_points px1 py1 px2 py2 Hfit) as Hs.
  pose proof (dark_count_sample_points g px1 py1 px2 py2) as Hc.
  split; [apply segment_angle_direction; exact Hfit | ].
  split.
  - exists (map (sample_point px1 py1 px2 py2) (range 20)),
           (dark_samples g (px1, py1, px2, py2)).
    split; [exact Hs | ]. split; [exact Hc | exact Hstyle].
  - intros pixels d Hs' Hc'.
    rewrite <- (samples_of_unique _ _ _ Hs Hs') in Hc'.
    rewrite <- (dark_count_unique _ _ _ _ Hc Hc'). exact Hstyle.
Qed.

(** C2. For a resolution other than 0, every record that [detect_lines]
    emits has an orientation among "horizontal", "vertical" and
    "diagonal", decided by the angle of its segment alone with a
    tolerance of 10 degrees, the angle being the direction from the first
    endpoint to the second; and a style among "solid" and "dotted":
    "dotted" exactly when fewer than 70 percent of the 20 evenly spaced
    samples (the endpoints and 18 points between them, each taken at the
    pixel it lies in) are pixels inside the image with a grey value below
    128, "solid" otherwise. *)
Theorem detect_lines_classified (g : gray_image) (dpi : Z) (w : entropy)
  (edges : edge_map) (segs : list segment) :
  dpi <> 0 ->
  Canny g 100 200 3 = Ok edges ->
  HoughLinesP edges 1 (PI / 180) 200 100 5 w = Ok (Some segs) ->
  exists recs,
    detect_lines g dpi w = Ok recs
    /\ Forall2 (classified_record g) segs recs.
Proof.
  intros Hd Hc Hh.
  destruct (detect_lines_records g dpi w edges segs Hd Hc Hh)
    as [recs [Hr HF]].
  exists recs; split; [assumption | ].
  eapply Forall2_impl; [ | exact HF].
  intros s r; apply line_record_classified.
Qed.

End Classification.

Lemma white_gray_dark_count (rows cols : Z) (pixels : list (Z * Z)) (d : Z) :
  dark_count (white_gray rows cols) pixels d -> d = 0.
Proof.
  induction 1 as [| p ps d Hp _ IH | p ps d Hp _ IH];
    [reflexivity | | exact IH].
  destruct Hp as (_ & _ & Hp). cbn in Hp. lia.
Qed.

(** A run of C2: on a white page no sample is dark, so the segment is
    reported as dotted; its angle is the direction of the segment. *)
Lemma detect_lines_classified_witness :
  exists r,
    detect_lines (L := scenario_libs one_line_scenario)
                 (white_gray 400 400) 150 0 = Ok [r]
    /\ Line.line_style r = "dotted"
    /\ In (Line.orientation r) ["horizontal"; "vertical"; "diagonal"]
    /\ direction_of (10, 50, 150, 50) (segment_angle (10, 50, 150, 50)).
Proof.
  destruct (detect_lines_classified (L := scenario_libs one_line_scenario)
              (white_gray 400 400) 150 0 tt [(10, 50, 150, 50)])
    as [recs [Hr HF]]; [lia | reflexivity | reflexivity | ].
  inversion HF as [ | s r ss rs Hrec Hrest]; subst.
  inversion Hrest; subst.
  exists r. split; [exact Hr | ].
  destruct Hrec as [_ [_ [_ [_ [Ho [_ Hfit]]]]]].
  destruct Hfit as [Hdir [[pixels [d [_ [Hc [Hdot _]]]]] _]];
    [split; unfold is_int32; lia | ].
  split; [ | split; [exact Ho | exact Hdir]].
  apply Hdot. rewrite (white_gray_dark_count _ _ _ _ Hc). lia.
Defined.

(* ================================================================= *)
(** ** C8: no two retained checkboxes share a position *)

Section Deduplication.
Context {L : Libs}.

Lemma same_position_close (a b : Checkbox.t) :
  same_position a b = true <-> close_positions a b.
Proof.
  unfold same_position, close_positions.
  rewrite andb_true_iff, !Rltb_true. reflexivity.
Qed.

Lemma close_positions_sym (a b : Checkbox.t) :
  close_positions a b -> close_positions b a.
Proof.
  unfold close_positions. intros [Hx Hy].
  split; rewrite Rabs_minus_sym; assumption.
Qed.

Lemma pairs_snoc (l : list Checkbox.t) (cb : Checkbox.t) :
  ForallOrdPairs apart l ->
  Forall (fun e => apart e cb) l ->
  ForallOrdPairs apart (l ++ [cb]).
Proof.
  intros HP. induction HP as [| a l Ha HP IH]; intros HF; simpl.
  - constructor; constructor.
  - inversion HF; subst. constructor.
    + apply Forall_app; split; [assumption | constructor; auto].
    + apply IH; assumption.
Qed.

Lemma not_duplicate_apart (l : list Checkbox.t) (cb : Checkbox.t) :
  existsb (same_position cb) l = false -> Forall (fun e => apart e cb) l.
Proof.
  intros H. apply Forall_forall; intros e He C.
  apply close_positions_sym, same_position_close in C.
  assert (existsb (same_position cb) l = true)
    by (apply existsb_exists; exists e; auto).
  congruence.
Qed.

Lemma dedup_loop_pairs (checkboxes unique : list Checkbox.t) :
  ForallOrdPairs apart unique ->
  ForallOrdPairs apart
    (fold_left
       (fun unique_checkboxes cb =>
          let is_duplicate := existsb (same_position cb) unique_checkboxes in
          if negb is_duplicate then unique_checkboxes ++ [cb]
          else unique_checkboxes)
       checkboxes unique).
Proof.
  revert unique; induction checkboxes as [| cb cbs IH]; intros unique HP.
  - exact HP.
  - cbn [fold_left]. apply IH. cbv zeta.
    destruct (existsb (same_position cb) unique) eqn:E; simpl.
    + exact HP.
    + apply pairs_snoc; [exact HP | apply not_duplicate_apart; exact E].
Qed.

Lemma unique_checkboxes_pairs (checkboxes : list Checkbox.t) :
  ForallOrdPairs apart (unique_checkboxes checkboxes).
Proof. apply dedup_loop_pairs. constructor. Qed.

Lemma pairs_nth_lt (l : list Checkbox.t) :
  ForallOrdPairs apart l ->
  forall i j a b,
    (i < j)%nat -> nth_error l i = Some a -> nth_error l j = Some b ->
    apart a b.
Proof.
  induction 1 as [| c l Hc HP IH]; intros i j a b Hij Hi Hj.
  - destruct i; discriminate.
  - destruct j as [| j]; [lia | ]. simpl in Hj.
    destruct i as [| i]; simpl in Hi.
    + inversion Hi; subst.
      apply nth_error_In in Hj.
      rewrite Forall_forall in Hc. apply Hc; assumption.
    + apply (IH i j); [lia | assumption | assumption].
Qed.

Lemma detect_checkboxes_unique (g : gray_image) (dpi : Z)
  (out : list Checkbox.t) :
  detect_checkboxes g dpi = Ok out ->
  exists checkboxes, out = unique_checkboxes checkboxes.
Proof.
  unfold detect_checkboxes.
  destruct (dpi =? 0); [discriminate | ].
  destruct (rectangle _ _ _ _ _); simpl; [ | discriminate].
  destruct (matchTemplate _ _); simpl; [ | discriminate].
  destruct (morphologyEx_CLOSE _); simpl; [ | discriminate].
  destruct (findContours _); simpl; [ | discriminate].
  destruct (mapM _ _); simpl; [ | discriminate].
  intros H; inversion H. eexists; reflexivity.
Qed.

(** C8. In the list that [detect_checkboxes] returns, no two records at
    different indices have both their x positions closer than 10 points
    and their y positions closer than 10 points. *)
Theorem detect_checkboxes_no_duplicates (g : gray_image) (dpi : Z)
  (out : list Checkbox.t) :
  detect_checkboxes g dpi = Ok out ->
  forall i j a b,
    i <> j -> nth_error out i = Some a -> nth_error out j = Some b ->
    ~ ((Rabs (x (Checkbox.position a) - x (Checkbox.position b)) < 10)%R
       /\ (Rabs (y (Checkbox.position a) - y (Checkbox.position b)) < 10)%R).
Proof.
  intros Hout i j a b Hij Hi Hj.
  destruct (detect_checkboxes_unique g dpi out Hout) as [cbs E]; subst out.
  pose proof (unique_checkboxes_pairs cbs) as HP.
  destruct (Nat.lt_total i j) as [Hlt | [Heq | Hgt]]; [ | contradiction | ].
  - exact (pairs_nth_lt _ HP i j a b Hlt Hi Hj).
  - intros C. apply close_positions_sym in C.
    exact (pairs_nth_lt _ HP j i b a Hgt Hj Hi C).
Qed.

End Deduplication.

Lemma rint_IZR (k : Z) : rint (IZR k) = k.
Proof.
  unfold rint, frac_part. rewrite Int_part_IZR.
  destruct (Rlt_dec (IZR k - IZR k) (1 / 2)) as [_ | H]; [reflexivity | ].
  exfalso; apply H; lra.
Qed.

(** A value that already lies on the grid is left alone. *)
Lemma round_exact (v : R) (k : Z) (n : nat) :
  (v * 10 ^ n = IZR k)%R -> round v n = v.
Proof.
  intros H. unfold round. rewrite H, rint_IZR, <- H.
  pose proof (pow10_pos n). field; lra.
Qed.

Lemma unique_checkboxes_three (a b c : Checkbox.t) :
  same_position b a = true ->
  same_position c a = false ->
  unique_checkboxes [a; b; c] = [a; c].
Proof.
  intros Hb Hc.
  assert (Eb : existsb (same_position b) [a] = true)
    by (simpl; rewrite Hb; reflexivity).
  assert (Ec : existsb (same_position c) [a] = false)
    by (simpl; rewrite Hc; reflexivity).
  unfold unique_checkboxes. cbn [fold_left existsb app]. cbn [negb app].
  rewrite Eb. cbn [negb]. rewrite Ec. reflexivity.
Qed.

Lemma three_matches_locations :
  locations [ [1; 1; 0; 0; 0; 1] ]%R = [(0, 0); (1, 0); (5, 0)].
Proof.
  assert (H1 : Rleb threshold 1 = true).
  { unfold Rleb, threshold. destruct (Rle_dec (6 / 10) 1); [reflexivity | lra]. }
  assert (H0 : Rleb threshold 0 = false).
  { unfold Rleb, threshold. destruct (Rle_dec (6 / 10) 0); [lra | reflexivity]. }
  cbv -[Rleb threshold IZR]. rewrite H1, H0. reflexivity.
Qed.

(** At 36 dpi a pixel is 2 points: the match at pixel 1 lies 2 points
    from the one at pixel 0 and is dropped, the match at pixel 5 lies 10
    points away and is kept. *)
Lemma three_matches_checkboxes :
  detect_checkboxes (L := scenario_libs three_matches_scenario)
                    (white_gray 400 400) 36
  = Ok [template_record (72 / IZR 36) [ [1; 1; 0; 0; 0; 1] ]%R (0, 0);
        template_record (72 / IZR 36) [ [1; 1; 0; 0; 0; 1] ]%R (5, 0)].
Proof.
  unfold detect_checkboxes.
  cbn [Z.eqb rectangle matchTemplate morphologyEx_CLOSE findContours
       scenario_libs sc_scores three_matches_scenario bind mapM flat_map].
  rewrite three_matches_locations, app_nil_r. cbn [map]. f_equal.
  apply unique_checkboxes_three.
  - apply same_position_close. unfold close_positions.
    cbn [template_record Checkbox.position x y fst snd].
    rewrite (round_exact (IZR 1 * (72 / IZR 36)) 200 2) by (simpl; lra).
    rewrite (round_exact (IZR 0 * (72 / IZR 36)) 0 2) by (simpl; lra).
    split; apply Rabs_def1; lra.
  - apply not_true_is_false. intros C.
    apply same_position_close in C. destruct C as [Cx _].
    cbn [template_record Checkbox.position x y fst snd] in Cx.
    rewrite (round_exact (IZR 5 * (72 / IZR 36)) 1000 2) in Cx
      by (simpl; lra).
    rewrite (round_exact (IZR 0 * (72 / IZR 36)) 0 2) in Cx by (simpl; lra).
    apply Rabs_def2 in Cx. lra.
Qed.

(** A run of C8 on the three matches: two records are returned, and they
    are apart. *)
Lemma detect_checkboxes_no_duplicates_witness :
  exists a b,
    detect_checkboxes (L := scenario_libs three_matches_scenario)
                      (white_gray 400 400) 36 = Ok [a; b]
    /\ ~ ((Rabs (x (Checkbox.position a) - x (Checkbox.position b)) < 10)%R
          /\ (Rabs (y (Checkbox.position a) - y (Checkbox.position b))
              < 10)%R).
Proof.
  do 2 eexists. split; [exact three_matches_checkboxes | ].
  refine (detect_checkboxes_no_duplicates
            (L := scenario_libs three_matches_scenario)
            (white_gray 400 400) 36 _ three_matches_checkboxes
            0%nat 1%nat _ _ _ eq_refl eq_refl).
  discriminate.
Defined.

(* ================================================================= *)
(** ** The pipeline, stage by stage *)

Section Pipeline.
Context {L : Libs}.

Lemma pipeline_after_detectors (pdf_path : string) (page_num dpi : Z)
  (w : entropy) (results : results_dict) (t : trace) :
  detectors_return pdf_path page_num dpi w results ->
  detect_lines_and_colors pdf_path page_num dpi w t
  = if PYMUPDF_AVAILABLE
    then pymupdf_elements pdf_path page_num results t
    else (Ok (results ++ [("pdf_drawings", []); ("pdf_shapes", [])]), t).
Proof.
  intros (page0 & pages & img & gray & lines & colors & checkboxes
          & Hc & Hi & Hg & Hl & Hb & Hk & ->).
  unfold detect_lines_and_colors, bindM, lift.
  rewrite Hc, Hi, Hg, Hl, Hb, Hk.
  destruct PYMUPDF_AVAILABLE; reflexivity.
Qed.

Lemma outside_handlers_propagates (pdf_path : string) (page_num dpi : Z)
  (w : entropy) (e : exn) (t : trace) :
  raised_outside_handlers pdf_path page_num dpi w e ->
  detect_lines_and_colors pdf_path page_num dpi w t = (Raise e, t).
Proof.
  intros H; unfold detect_lines_and_colors, bindM, lift.
  destruct H as [Hc | p ps Hc Hi | p ps img Hc Hi Hg
                 | p ps img gray Hc Hi Hg Hl
                 | p ps img gray lines Hc Hi Hg Hl Hb
                 | p ps img gray lines colors Hc Hi Hg Hl Hb Hk];
    rewrite Hc; try rewrite Hi; try rewrite Hg; try rewrite Hl;
    try rewrite Hb; try rewrite Hk; reflexivity.
Qed.

Lemma pymupdf_elements_failure (pdf_path : string) (page_num dpi : Z)
  (w : entropy) (results : results_dict) (e : exn) (opened : bool)
  (t : trace) :
  raised_in_pymupdf pdf_path page_num dpi w results e opened ->
  pymupdf_elements pdf_path page_num results t
  = if is_Exception e
    then (Ok results, t ++ pymupdf_failure_trace pdf_path e opened)
    else (Raise e, t ++ if opened then [DocOpen pdf_path] else []).
Proof.
  intros H.
  unfold pymupdf_elements, try_except_Exception, open_document, bindM, lift,
    print, emit, ret, pymupdf_failure_trace.
  destruct H as [_ _ Ho | doc _ _ Ho Hlt Hp | doc page _ _ Ho Hlt Hp He];
    rewrite Ho.
  - destruct (is_Exception e); [reflexivity | ].
    rewrite app_nil_r; reflexivity.
  - apply Z.ltb_lt in Hlt. rewrite Hlt, Hp.
    destruct (is_Exception e); [ | reflexivity].
    cbn beta iota. rewrite <- app_assoc; reflexivity.
  - apply Z.ltb_lt in Hlt. rewrite Hlt, Hp, He.
    destruct (is_Exception e); [ | reflexivity].
    cbn beta iota. rewrite <- app_assoc; reflexivity.
Qed.

Lemma raised_in_pymupdf_detectors (pdf_path : string) (page_num dpi : Z)
  (w : entropy) (results : results_dict) (e : exn) (opened : bool) :
  raised_in_pymupdf pdf_path page_num dpi w results e opened ->
  detectors_return pdf_path page_num dpi w results
  /\ PYMUPDF_AVAILABLE = true.
Proof. intros H; destruct H; auto. Qed.

Lemma pymupdf_failure_pipeline (pdf_path : string) (page_num dpi : Z)
  (w : entropy) (results : results_dict) (e : exn) (opened : bool)
  (t : trace) :
  raised_in_pymupdf pdf_path page_num dpi w results e opened ->
  detect_lines_and_colors pdf_path page_num dpi w t
  = if is_Exception e
    then (Ok results, t ++ pymupdf_failure_trace pdf_path e opened)
    else (Raise e, t ++ if opened then [DocOpen pdf_path] else []).
Proof.
  intros H.
  destruct (raised_in_pymupdf_detectors _ _ _ _ _ _ _ H) as [Hd Ha].
  rewrite (pipeline_after_detectors _ _ _ _ _ _ Hd), Ha.
  eapply pymupdf_elements_failure; exact H.
Qed.

Lemma clustering_failure_swallowed (img : bgr_image) (dpi : Z) (w : entropy)
  (e : exn) :
  raised_in_clustering img dpi w e ->
  detect_background_colors img dpi w = Ok [].
Proof.
  intros (Hi & Hd & Hn & Hk). unfold detect_background_colors.
  rewrite Hi; cbn [bind].
  destruct (dpi =? 0) eqn:E; [apply Z.eqb_eq in E; contradiction | ].
  destruct (len (all_colors img) <? 2) eqn:E2; [reflexivity | ].
  rewrite Hk. reflexivity.
Qed.

End Pipeline.

(* ================================================================= *)
(** ** C9: a conversion that yields no page *)

Section EmptyPage.
Context {L : Libs}.

(** C9. When the conversion of the PDF yields no page,
    [detect_lines_and_colors] returns, without any effect, a dictionary
    whose keys are exactly "lines", "background_colors" and "checkboxes",
    each with an empty list; it has no "pdf_drawings" and no "pdf_shapes"
    key. *)
Theorem no_pages_results (pdf_path : string) (page_num dpi : Z)
  (w : entropy) (t : trace) :
  convert_from_path pdf_path dpi (page_num + 1) (page_num + 1) = Ok [] ->
  exists results,
    detect_lines_and_colors pdf_path page_num dpi w t = (Ok results, t)
    /\ keys results = ["lines"; "background_colors"; "checkboxes"]
    /\ dict_get results "lines" = Some []
    /\ dict_get results "background_colors" = Some []
    /\ dict_get results "checkboxes" = Some []
    /\ dict_get results "pdf_drawings" = None
    /\ dict_get results "pdf_shapes" = None.
Proof.
  intros Hc. exists empty_results.
  unfold detect_lines_and_colors, bindM, lift. rewrite Hc.
  repeat split; reflexivity.
Qed.

(** On the path where the detectors return and PyMuPDF is not available,
    the two keys are there. *)
Lemma without_pymupdf_results (pdf_path : string) (page_num dpi : Z)
  (w : entropy) (results : results_dict) (t : trace) :
  detectors_return pdf_path page_num dpi w results ->
  PYMUPDF_AVAILABLE = false ->
  exists results',
    detect_lines_and_colors pdf_path page_num dpi w t = (Ok results', t)
    /\ keys results'
       = ["lines"; "background_colors"; "checkboxes"; "pdf_drawings";
          "pdf_shapes"].
Proof.
  intros Hd Ha.
  rewrite (pipeline_after_detectors _ _ _ _ _ _ Hd), Ha.
  destruct Hd as (p & ps & img & gray & lines & colors & cbs & _ & _ & _
                  & _ & _ & _ & ->).
  eexists; split; reflexivity.
Qed.

End EmptyPage.

(** A run of C9. *)
Lemma no_pages_results_witness :
  exists results,
    detect_lines_and_colors (L := scenario_libs no_page_scenario)
                            "f1040.pdf" 0 150 0 [] = (Ok results, [])
    /\ keys results = ["lines"; "background_colors"; "checkboxes"].
Proof.
  destruct (no_pages_results (L := scenario_libs no_page_scenario)
              "f1040.pdf" 0 150 0 [] eq_refl)
    as (results & Hr & Hk & _).
  exists results; split; assumption.
Defined.

(* ================================================================= *)
(** ** C7: the document handle on the failure path *)

Lemma open_docs_app (t t' : trace) :
  open_docs (t ++ t') = open_docs t + open_docs t'.
Proof.
  induction t as [| e t IH]; [reflexivity | ].
  cbn [app open_docs]. destruct e; rewrite ?IH; ring.
Qed.

Section DocumentHandle.
Context {L : Libs}.

(** When the page is extracted without an exception, the document is
    closed again. *)
Lemma pymupdf_success_closes (pdf_path : string) (page_num : Z)
  (results : results_dict) (doc : fitz_doc) (page : fitz_page)
  (found : list drawing * list Shape.t) (t : trace) :
  fitz_open pdf_path = Ok doc ->
  page_num < doc_len doc ->
  doc_getitem doc page_num = Ok page ->
  extract_pdf_elements page = Ok found ->
  open_docs (snd (pymupdf_elements pdf_path page_num results t))
  = open_docs t.
Proof.
  intros Ho Hlt Hp He. apply Z.ltb_lt in Hlt.
  unfold pymupdf_elements, try_except_Exception, open_document, bindM, lift,
    print, emit, ret.
  rewrite Ho, Hlt, Hp, He. cbn [snd].
  rewrite !open_docs_app. simpl. lia.
Qed.

(** When the extraction raises an [Exception], the handler runs with the
    document still open, and nothing closes it. *)
Lemma pymupdf_failure_leaves_open (pdf_path : string) (page_num dpi : Z)
  (w : entropy) (results : results_dict) (e : exn) (t : trace) :
  raised_in_pymupdf pdf_path page_num dpi w results e true ->
  open_docs (snd (detect_lines_and_colors pdf_path page_num dpi w t))
  = open_docs t + 1.
Proof.
  intros H. rewrite (pymupdf_failure_pipeline _ _ _ _ _ _ _ _ H).
  unfold pymupdf_failure_trace.
  destruct (is_Exception e); cbn [snd]; rewrite !open_docs_app; simpl; lia.
Qed.

End DocumentHandle.

Lemma line_drawing_detectors :
  detectors_return (L := scenario_libs line_drawing_scenario)
                   "f1040.pdf" 0 150 0 (detected_results [] [] []).
Proof.
  exists (uniform_page 50 50 (255, 255, 255)), [].
  do 2 eexists. exists [], [], [].
  repeat split; reflexivity.
Qed.

(** C7, at the failing input: [extract_pdf_elements] raises, the handler
    prints the error, [detect_lines_and_colors] returns the three
    detector lists, and the document opened by [fitz.open] is still
    open. *)
Theorem extract_failure_leaves_document_open :
  let run :=
    detect_lines_and_colors (L := scenario_libs line_drawing_scenario)
                            "f1040.pdf" 0 150 0 [] in
  fst run = Ok (detected_results [] [] [])
  /\ snd run
     = [DocOpen "f1040.pdf";
        Print "PyMuPDF error: not enough values to unpack (expected 4, got 2)"]
  /\ open_docs (snd run) = 1.
Proof.
  cbv zeta.
  rewrite (pymupdf_failure_pipeline
             (L := scenario_libs line_drawing_scenario)
             "f1040.pdf" 0 150 0 (detected_results [] [] [])
             (ValueError "not enough values to unpack (expected 4, got 2)")
             true []).
  - repeat split; reflexivity.
  - apply (in_extract_pdf_elements (L := scenario_libs line_drawing_scenario)
             "f1040.pdf" 0 150 0 _ _ tt tt);
      try reflexivity.
    apply line_drawing_detectors.
Qed.

(* ================================================================= *)
(** ** C3: which exceptions reach the top-level handler *)

Section Handlers.
Context {L : Libs} {JR : Json results_dict} {JL : Json Line.t}
        {FS : FileSystem}.

Lemma main_handler (w : entropy) (e : exn) (t t' : trace) :
  detect_lines_and_colors "f1040.pdf" 0 150 w t = (Raise e, t') ->
  main w t
  = if is_Exception e then (Ok tt, t' ++ top_level_report e)
    else (Raise e, t').
Proof.
  intros H. unfold main, try_except_Exception, bindM at 1. rewrite H.
  destruct (is_Exception e); [ | reflexivity].
  unfold bindM, print, emit, top_level_report. cbn beta iota.
  rewrite <- app_assoc. reflexivity.
Qed.

(** C3, as amended.  An exception raised outside the two inner handlers
    leaves [detect_lines_and_colors] uncaught, and the top-level handler
    of the script prints the diagnostic and the installation hint for it
    when its class derives from [Exception].  An exception raised by the
    clustering is swallowed: [detect_background_colors] returns without
    any colour record.  An [Exception] raised in the PyMuPDF block is
    caught there: the error is printed and the results of the three
    detectors are returned, without the keys "pdf_drawings" and
    "pdf_shapes". *)
Theorem exception_handling (pdf_path : string) (page_num dpi : Z)
  (w : entropy) (e : exn) (t : trace) :
  (raised_outside_handlers pdf_path page_num dpi w e ->
   detect_lines_and_colors pdf_path page_num dpi w t = (Raise e, t))
  /\ (raised_outside_handlers "f1040.pdf" 0 150 w e ->
      is_Exception e = true ->
      main w t = (Ok tt, t ++ top_level_report e))
  /\ (forall img,
        raised_in_clustering img dpi w e ->
        detect_background_colors img dpi w = Ok [])
  /\ (forall results opened,
        raised_in_pymupdf pdf_path page_num dpi w results e opened ->
        is_Exception e = true ->
        detect_lines_and_colors pdf_path page_num dpi w t
        = (Ok results, t ++ pymupdf_failure_trace pdf_path e opened)
        /\ keys results = ["lines"; "background_colors"; "checkboxes"]).
Proof.
  split; [apply outside_handlers_propagates | ].
  split.
  { intros H He.
    rewrite (main_handler w e t t
               (outside_handlers_propagates _ _ _ _ _ t H)), He.
    reflexivity. }
  split; [intros img; apply clustering_failure_swallowed | ].
  intros results opened H He.
  rewrite (pymupdf_failure_pipeline _ _ _ _ _ _ _ t H), He.
  split; [reflexivity | ].
  destruct (raised_in_pymupdf_detectors _ _ _ _ _ _ _ H) as [Hd _].
  destruct Hd as (p & ps & img & gray & lines & colors & cbs & _ & _ & _
                  & _ & _ & _ & ->).
  reflexivity.
Qed.

End Handlers.

Lemma fitz_failure_raised :
  raised_in_pymupdf (L := scenario_libs fitz_failure_scenario)
                    "f1040.pdf" 0 150 0 (detected_results [] [] [])
                    (Exn true "cannot open broken document") false.
Proof.
  apply in_fitz_open; try reflexivity.
  exists (uniform_page 50 50 (255, 255, 255)), [].
  do 2 eexists. exists [], [], [].
  repeat split; reflexivity.
Qed.

(** The exception of [fitz.open] is raised inside
    [detect_lines_and_colors], which nevertheless returns. *)
Lemma fitz_failure_is_caught : ~ every_exception_propagates.
Proof.
  intros C.
  specialize (C (scenario_libs fitz_failure_scenario) "f1040.pdf" 0 150 0
                (Exn true "cannot open broken document") []).
  rewrite (pymupdf_failure_pipeline _ _ _ _ _ _ _ [] fitz_failure_raised)
    in C.
  cbn [is_Exception fst] in C.
  assert (H : Ok (detected_results (L := scenario_libs fitz_failure_scenario)
                    [] [] [])
              = Raise (Exn true "cannot open broken document")).
  { apply C. right; left. do 2 eexists. exact fitz_failure_raised. }
  discriminate H.
Qed.

(** Runs of C3 as amended: a failing conversion reaches the top-level
    handler, a failing [fitz.open] does not. *)
Lemma exception_handling_witness :
  main (L := scenario_libs conversion_failure_scenario) 0 []
  = (Ok tt, top_level_report (Exn true "Unable to get page count."))
  /\ detect_lines_and_colors (L := scenario_libs fitz_failure_scenario)
                             "f1040.pdf" 0 150 0 []
     = (Ok (detected_results [] [] []),
        [Print "PyMuPDF error: cannot open broken document"]).
Proof.
  split.
  - apply (exception_handling
             (L := scenario_libs conversion_failure_scenario)
             "f1040.pdf" 0 150 0 (Exn true "Unable to get page count.") []).
    + apply in_convert_from_path. reflexivity.
    + reflexivity.
  - destruct (exception_handling (L := scenario_libs fitz_failure_scenario)
                "f1040.pdf" 0 150 0
                (Exn true "cannot open broken document") [])
      as (_ & _ & _ & H).
    destruct (H _ _ fitz_failure_raised eq_refl) as [Hr _].
    exact Hr.
Defined.

(* ================================================================= *)
(** ** Sampling a page of uniform colour *)

Lemma flat_map_const_rows {A B C} (c : C) (xs : list A) (ys : list B) :
  flat_map (fun _ : B => map (fun _ : A => c) xs) ys
  = repeat c (List.length ys * List.length xs).
Proof.
  induction ys as [| b ys IH]; simpl; [reflexivity | ].
  rewrite IH, repeat_app. f_equal.
  clear. induction xs as [| a xs IH]; simpl; [ | rewrite IH]; reflexivity.
Qed.

Lemma Rsum_repeat (v : R) (n : nat) :
  Rsum (repeat v n) = (INR n * v)%R.
Proof.
  induction n as [| n IH]; [simpl; lra | ].
  cbn [repeat Rsum fold_right]. fold (Rsum (repeat v n)).
  rewrite IH, S_INR. lra.
Qed.

Lemma mean_map_repeat {A} (f : A -> R) (a : A) (n : nat) :
  (0 < n)%nat -> mean (map f (repeat a n)) = f a.
Proof.
  intros Hn. unfold mean.
  rewrite map_repeat, Rsum_repeat, repeat_length.
  assert (0 < INR n)%R by (apply lt_0_INR; exact Hn).
  field; lra.
Qed.

Lemma length_grid {A B C} (f : B -> A -> C) (xs : list A) (ys : list B) :
  List.length (flat_map (fun y => map (f y) xs) ys)
  = (List.length ys * List.length xs)%nat.
Proof.
  induction ys as [| b ys IH]; simpl; [reflexivity | ].
  rewrite length_app, length_map, IH. reflexivity.
Qed.

Section UniformPage.
Variables (rows cols : Z) (b g r : Z).

Let page := uniform_page rows cols (b, g, r).

Lemma region_uniform (x y : Z) :
  region page x y
  = repeat (b, g, r)
      (List.length (slice y (y + grid_size) rows)
       * List.length (slice x (x + grid_size) cols)).
Proof.
  unfold region, page, uniform_page; cbn [bgr_at bgr_rows bgr_cols].
  apply flat_map_const_rows.
Qed.

Lemma avg_color_uniform (x y : Z) :
  0 < len (slice y (y + grid_size) rows) ->
  0 < len (slice x (x + grid_size) cols) ->
  avg_color (region page x y) = (IZR b, IZR g, IZR r).
Proof.
  unfold len. intros Hy Hx. rewrite region_uniform. unfold avg_color.
  rewrite !mean_map_repeat by nia. reflexivity.
Qed.

(** If the colour passes the filter, every region of the grid is kept. *)
Lemma sampled_regions_uniform :
  grid_regions_nonempty rows cols = true ->
  not_near_white (IZR b, IZR g, IZR r) = true ->
  sampled_regions page
  = flat_map
      (fun y =>
         map (fun x => ((IZR b, IZR g, IZR r), (x, y, grid_size, grid_size)))
             (range3 0 (cols - grid_size) grid_size))
      (range3 0 (rows - grid_size) grid_size).
Proof.
  unfold grid_regions_nonempty, sampled_regions.
  change (bgr_rows page) with rows. change (bgr_cols page) with cols.
  intros Hne Hk.
  generalize dependent (range3 0 (rows - grid_size) grid_size).
  intros ys. induction ys as [| y ys IHy]; intros Hne; [reflexivity | ].
  cbn [forallb] in Hne. apply andb_true_iff in Hne. destruct Hne as [Hy Hys].
  cbn [flat_map]. rewrite (IHy Hys). f_equal.
  clear IHy Hys.
  generalize dependent (range3 0 (cols - grid_size) grid_size).
  intros xs. induction xs as [| x xs IHx]; intros Hy; [reflexivity | ].
  cbn [forallb] in Hy. apply andb_true_iff in Hy. destruct Hy as [Hx Hxs].
  apply andb_true_iff in Hx. destruct Hx as [Hly Hlx].
  apply Z.ltb_lt in Hly, Hlx.
  cbn [flat_map map]. rewrite (IHx Hxs).
  assert (Hr : (0 <? 3 * len (region page x y)) = true).
  { apply Z.ltb_lt. rewrite region_uniform. unfold len in *.
    rewrite repeat_length. nia. }
  rewrite Hr, (avg_color_uniform x y Hly Hlx), Hk. reflexivity.
Qed.

Lemma all_colors_uniform_length :
  grid_regions_nonempty rows cols = true ->
  not_near_white (IZR b, IZR g, IZR r) = true ->
  len (all_colors page)
  = len (range3 0 (rows - grid_size) grid_size)
    * len (range3 0 (cols - grid_size) grid_size).
Proof.
  intros Hne Hk. unfold all_colors, len.
  rewrite (sampled_regions_uniform Hne Hk), length_map, length_grid.
  lia.
Qed.

End UniformPage.

(** A saturated red, in B, G, R order; it is neither near white nor
    grey. *)
Lemma red_not_near_white : not_near_white (IZR 0, IZR 0, IZR 90) = true.
Proof.
  unfold not_near_white, channels, std, mean. simpl.
  apply andb_true_iff; split; apply Rltb_true.
  - lra.
  - replace 10%R with (sqrt (10 * 10)) at 1 by (apply sqrt_square; lra).
    apply sqrt_lt_1_alt. lra.
Qed.

(* ================================================================= *)
(** ** C4: the cluster count passed to KMeans *)

Lemma narrow_red_page_colors : len (all_colors narrow_red_page) = 2.
Proof.
  unfold narrow_red_page.
  rewrite all_colors_uniform_length;
    [reflexivity | reflexivity | exact red_not_near_white].
Qed.

Lemma wide_red_page_colors : len (all_colors wide_red_page) = 5.
Proof.
  unfold wide_red_page.
  rewrite all_colors_uniform_length;
    [reflexivity | reflexivity | exact red_not_near_white].
Qed.

(** The narrow page is clustered into 2, the wide one into 5. *)
Lemma cluster_count_varies : ~ fixed_cluster_count.
Proof.
  intros [k Hk].
  pose proof (Hk narrow_red_page) as Hn.
  pose proof (Hk wide_red_page) as Hw.
  unfold n_clusters in Hn, Hw.
  rewrite narrow_red_page_colors in Hn.
  rewrite wide_red_page_colors in Hw.
  specialize (Hn ltac:(lia)). specialize (Hw ltac:(lia)).
  simpl in Hn, Hw. lia.
Qed.

Section ClusterCount.
Context {L : Libs}.

(** With sklearn imported, a resolution other than 0 and at least two
    surviving regions, the clustering runs. *)
Lemma detect_background_colors_clustered (img : bgr_image) (dpi : Z)
  (w : entropy) :
  import_sklearn_cluster = Ok tt ->
  dpi <> 0 ->
  2 <= len (all_colors img) ->
  detect_background_colors img dpi w
  = Ok match KMeans_fit_predict (Z.min 5 (len (all_colors img))) (Some 42)
                                10 (all_colors img) w with
       | Raise _ => []
       | Ok (color_labels, cluster_centers_) =>
           cluster_loop (72 / IZR dpi) (positions img) color_labels
                        cluster_centers_
                        (range (Z.min 5 (len (all_colors img)))) []
       end.
Proof.
  intros Hi Hd Hn. unfold detect_background_colors, n_clusters.
  rewrite Hi; cbn [bind].
  destruct (dpi =? 0) eqn:E; [apply Z.eqb_eq in E; contradiction | ].
  destruct (len (all_colors img) <? 2) eqn:E2;
    [apply Z.ltb_lt in E2; lia | ].
  destruct (KMeans_fit_predict _ _ _ _ _) as [[labels centers] | ];
    reflexivity.
Qed.

(** C4, as amended.  When at least two sampled regions survive the
    filter (and the resolution is not 0), KMeans is invoked once sklearn
    is imported, on the surviving colours, seeded with 42, with
    [min(5, n)] clusters for [n] survivors: between 2 and 5, the same
    constant 5 as soon as five regions survive, and [n] itself below
    that. *)
Theorem kmeans_cluster_count (img : bgr_image) (dpi : Z) (w : entropy) :
  dpi <> 0 ->
  2 <= len (all_colors img) ->
  (import_sklearn_cluster = Ok tt ->
   detect_background_colors img dpi w
   = Ok match KMeans_fit_predict (Z.min 5 (len (all_colors img))) (Some 42)
                                 10 (all_colors img) w with
        | Raise _ => []
        | Ok (color_labels, cluster_centers_) =>
            cluster_loop (72 / IZR dpi) (positions img) color_labels
                         cluster_centers_
                         (range (Z.min 5 (len (all_colors img)))) []
        end)
  /\ n_clusters img = Z.min 5 (len (all_colors img))
  /\ 2 <= n_clusters img <= 5
  /\ (5 <= len (all_colors img) -> n_clusters img = 5)
  /\ (len (all_colors img) < 5 -> n_clusters img = len (all_colors img)).
Proof.
  intros Hd Hn.
  split; [intros Hi; apply detect_background_colors_clustered; assumption | ].
  unfold n_clusters. repeat split; lia.
Qed.

End ClusterCount.

(** A run of C4 as amended: two clusters for the narrow page. *)
Lemma kmeans_cluster_count_witness :
  n_clusters narrow_red_page = 2 /\ n_clusters wide_red_page = 5.
Proof.
  split.
  - destruct (kmeans_cluster_count (L := scenario_libs one_line_scenario)
                narrow_red_page 150 0)
      as (_ & _ & _ & _ & H);
      [lia | rewrite narrow_red_page_colors; lia | ].
    rewrite H by (rewrite narrow_red_page_colors; lia).
    exact narrow_red_page_colors.
  - destruct (kmeans_cluster_count (L := scenario_libs one_line_scenario)
                wide_red_page 150 0)
      as (_ & _ & _ & H & _);
      [lia | rewrite wide_red_page_colors; lia | ].
    apply H. rewrite wide_red_page_colors; lia.
Defined.

(* ================================================================= *)
(** ** C10: the background-colour records *)

(** The two characters that [format_02x] gives a byte read as the byte. *)
Lemma format_02x_byte (n : Z) :
  0 <= n <= 255 ->
  exists hi lo,
    format_02x n = String hi (String lo "")
    /\ hex_pair_value hi lo = Some n.
Proof.
  intros Hn.
  assert (H : forallb
                (fun k =>
                   match format_02x (Z.of_nat k) with
                   | String hi (String lo EmptyString) =>
                       match hex_pair_value hi lo with
                       | Some v => v =? Z.of_nat k
                       | None => false
                       end
                   | _ => false
                   end)
                (seq 0 256) = true) by (vm_compute; reflexivity).
  rewrite forallb_forall in H.
  specialize (H (Z.to_nat n)). rewrite Z2Nat.id in H by lia.
  assert (Hin : In (Z.to_nat n) (seq 0 256)) by (apply in_seq; lia).
  specialize (H Hin).
  destruct (format_02x n) as [| hi [| lo [| ? ?]]]; try discriminate.
  exists hi, lo. split; [reflexivity | ].
  destruct (hex_pair_value hi lo) as [v | ]; [ | discriminate].
  apply Z.eqb_eq in H. congruence.
Qed.

Lemma decode_rrggbb_bytes (cr cg cb : Z) :
  0 <= cr <= 255 -> 0 <= cg <= 255 -> 0 <= cb <= 255 ->
  decode_rrggbb
    (String "#" (format_02x cr ++ format_02x cg ++ format_02x cb)%string)
  = Some [cr; cg; cb].
Proof.
  intros Hr Hg Hb.
  destruct (format_02x_byte cr Hr) as (r1 & r0 & Er & Vr).
  destruct (format_02x_byte cg Hg) as (g1 & g0 & Eg & Vg).
  destruct (format_02x_byte cb Hb) as (b1 & b0 & Eb & Vb).
  rewrite Er, Eg, Eb. cbn [String.append decode_rrggbb].
  rewrite Vr, Vg, Vb. reflexivity.
Qed.

(** No two strings read as the same three integers: the notation of a
    colour is the only one. *)
Lemma lower_hex_value_code (c : ascii) (v : Z) :
  lower_hex_value c = Some v ->
  0 <= v <= 15
  /\ Z.of_nat (nat_of_ascii c) = if v <=? 9 then v + 48 else v + 87.
Proof.
  unfold lower_hex_value.
  set (code := Z.of_nat (nat_of_ascii c)).
  destruct ((48 <=? code) && (code <=? 57)) eqn:E1.
  - apply andb_true_iff in E1. destruct E1 as [Ha Hb].
    apply Z.leb_le in Ha, Hb. intros H; injection H as <-.
    destruct (code - 48 <=? 9) eqn:E; [lia | apply Z.leb_gt in E; lia].
  - destruct ((97 <=? code) && (code <=? 102)) eqn:E2; [ | discriminate].
    apply andb_true_iff in E2. destruct E2 as [Ha Hb].
    apply Z.leb_le in Ha, Hb. intros H; injection H as <-.
    destruct (code - 87 <=? 9) eqn:E; [apply Z.leb_le in E; lia | lia].
Qed.

Lemma lower_hex_value_inj (c c' : ascii) (v : Z) :
  lower_hex_value c = Some v -> lower_hex_value c' = Some v -> c = c'.
Proof.
  intros H H'.
  apply lower_hex_value_code in H, H'.
  destruct H as [_ H], H' as [_ H'].
  rewrite <- H' in H. apply Nat2Z.inj in H.
  rewrite <- (ascii_nat_embedding c), <- (ascii_nat_embedding c'), H.
  reflexivity.
Qed.

Lemma lower_hex_value_range (c : ascii) (v : Z) :
  lower_hex_value c = Some v -> 0 <= v <= 15.
Proof. intros H. apply lower_hex_value_code in H. tauto. Qed.

Lemma hex_pair_value_inj (hi lo hi' lo' : ascii) (v : Z) :
  hex_pair_value hi lo = Some v -> hex_pair_value hi' lo' = Some v ->
  hi = hi' /\ lo = lo'.
Proof.
  unfold hex_pair_value.
  destruct (lower_hex_value hi) as [h | ] eqn:Eh; [ | discriminate].
  destruct (lower_hex_value lo) as [l | ] eqn:El; [ | discriminate].
  destruct (lower_hex_value hi') as [h' | ] eqn:Eh'; [ | discriminate].
  destruct (lower_hex_value lo') as [l' | ] eqn:El'; [ | discriminate].
  intros H H'.
  assert (Hv : 16 * h + l = v) by congruence.
  assert (Hv' : 16 * h' + l' = v) by congruence.
  pose proof (lower_hex_value_range _ _ Eh).
  pose proof (lower_hex_value_range _ _ El).
  pose proof (lower_hex_value_range _ _ Eh').
  pose proof (lower_hex_value_range _ _ El').
  assert (h = h') by lia. assert (l = l') by lia. subst h' l'.
  split; eapply lower_hex_value_inj; eassumption.
Qed.

Lemma decode_rrggbb_inj (s s' : string) (rgb : list Z) :
  decode_rrggbb s = Some rgb -> decode_rrggbb s' = Some rgb -> s = s'.
Proof.
  unfold decode_rrggbb.
  destruct s as [| c0 [| r1 [| r0 [| g1 [| g0 [| b1 [| b0 [| ? ?]]]]]]]];
    try discriminate;
    try (destruct c0 as [[] [] [] [] [] [] [] []]; discriminate).
  destruct (Ascii.eqb c0 "#") eqn:E0;
    [apply Ascii.eqb_eq in E0; subst c0
    | destruct c0 as [[] [] [] [] [] [] [] []]; try discriminate;
      cbn in E0; discriminate].
  destruct s' as [| c0' [| r1' [| r0' [| g1' [| g0' [| b1' [| b0' [| ? ?]]]]]]]];
    try discriminate;
    try (destruct c0' as [[] [] [] [] [] [] [] []]; discriminate).
  destruct (Ascii.eqb c0' "#") eqn:E0';
    [apply Ascii.eqb_eq in E0'; subst c0'
    | destruct c0' as [[] [] [] [] [] [] [] []]; try discriminate;
      cbn in E0'; discriminate].
  destruct (hex_pair_value r1 r0) as [r | ] eqn:Er; [ | discriminate].
  destruct (hex_pair_value g1 g0) as [g | ] eqn:Eg; [ | discriminate].
  destruct (hex_pair_value b1 b0) as [b | ] eqn:Eb; [ | discriminate].
  destruct (hex_pair_value r1' r0') as [r' | ] eqn:Er'; [ | discriminate].
  destruct (hex_pair_value g1' g0') as [g' | ] eqn:Eg'; [ | discriminate].
  destruct (hex_pair_value b1' b0') as [b' | ] eqn:Eb'; [ | discriminate].
  intros H H'. injection H as <-. injection H' as Hr Hg Hb. subst r' g' b'.
  destruct (hex_pair_value_inj _ _ _ _ _ Er Er') as [-> ->].
  destruct (hex_pair_value_inj _ _ _ _ _ Eg Eg') as [-> ->].
  destruct (hex_pair_value_inj _ _ _ _ _ Eb Eb') as [-> ->].
  reflexivity.
Qed.

Section ColorRecords.
Context {L : Libs}.

Lemma cluster_record_ok (ppp : R) (positions : list rect)
  (labels : list Z) (centers : list color) (cluster_id : Z) (r : Color.t) :
  cluster_record ppp positions labels centers cluster_id = Ok (Some r) ->
  color_record_ok r.
Proof.
  unfold cluster_record.
  destruct (cluster_positions positions labels cluster_id) as [cps | ];
    simpl; [ | discriminate].
  destruct (2 <? len cps) eqn:E; [ | discriminate].
  apply Z.ltb_lt in E.
  destruct (nth_error centers (Z.to_nat cluster_id)) as [[[c0 c1] c2] | ];
    [ | discriminate].
  destruct (py_min (map rect_x cps)); simpl; [ | discriminate].
  destruct (py_min (map rect_y cps)); simpl; [ | discriminate].
  destruct (py_max _); simpl; [ | discriminate].
  destruct (py_max _); simpl; [ | discriminate].
  intros H; inversion H; subst; clear H. unfold color_record_ok; simpl.
  split; [lia | ].
  exists (int c2), (int c1), (int c0).
  split; [reflexivity | ]. split; [reflexivity | ].
  intros H2 H1 H0. apply decode_rrggbb_bytes; assumption.
Qed.

Lemma cluster_loop_ok (ppp : R) (positions : list rect) (labels : list Z)
  (centers : list color) (ids : list Z) (acc : list Color.t) :
  Forall color_record_ok acc ->
  Forall color_record_ok
         (cluster_loop ppp positions labels centers ids acc).
Proof.
  revert acc; induction ids as [| cid ids IH]; intros acc Hacc; simpl.
  - exact Hacc.
  - destruct (cluster_record ppp positions labels centers cid)
      as [[r | ] | ] eqn:E.
    + apply IH. apply Forall_app; split; [exact Hacc | ].
      constructor; [ | constructor].
      eapply cluster_record_ok; exact E.
    + apply IH; exact Hacc.
    + exact Hacc.
Qed.

(** C10. Every record that [detect_background_colors] emits has a
    [region_count] of at least 3 and a [hex] field that is "#" followed
    by the ["{:02x}"] rendering of the three integers of [rgb]; for
    channel values from 0 to 255 it is the lowercase "#rrggbb" that reads
    back as these three integers.  No record is emitted when fewer than 2
    sampled regions survive the filter.  And the function does return
    when sklearn can be imported and the resolution is not 0. *)
Theorem background_color_records (img : bgr_image) (dpi : Z) (w : entropy) :
  (forall out,
     detect_background_colors img dpi w = Ok out ->
     Forall color_record_ok out
     /\ (len (all_colors img) < 2 -> out = []))
  /\ (import_sklearn_cluster = Ok tt -> dpi <> 0 ->
      exists out, detect_background_colors img dpi w = Ok out).
Proof.
  unfold detect_background_colors.
  destruct import_sklearn_cluster as [[] | e]; cbn [bind];
    [ | split; [intros out H; discriminate | intros H; discriminate]].
  destruct (dpi =? 0) eqn:E.
  { apply Z.eqb_eq in E.
    split; [intros out H; discriminate | intros _ Hd; contradiction]. }
  destruct (len (all_colors img) <? 2) eqn:E2.
  - split; [ | intros _ _; eexists; reflexivity].
    intros out H; injection H as <-. split; [constructor | reflexivity].
  - apply Z.ltb_ge in E2.
    destruct (KMeans_fit_predict _ _ _ _ _) as [[labels centers] | ];
      (split; [ | intros _ _; eexists; reflexivity]);
      intros out H; injection H as <-.
    + split; [apply cluster_loop_ok; constructor | intros; lia].
    + split; [constructor | intros; lia].
Qed.

End ColorRecords.

Lemma wide_red_page_positions :
  positions wide_red_page
  = [(0, 0, 100, 100); (100, 0, 100, 100); (200, 0, 100, 100);
     (300, 0, 100, 100); (400, 0, 100, 100)].
Proof.
  unfold positions, wide_red_page.
  rewrite sampled_regions_uniform;
    [reflexivity | reflexivity | exact red_not_near_white].
Qed.

(** What the run on the wide red page emits: one record, for the cluster
    of three regions. *)
Lemma wide_red_page_record :
  exists r,
    detect_background_colors (L := scenario_libs clustered_scenario)
                             wide_red_page 150 0 = Ok [r]
    /\ Color.rgb r = [90; 0; 0]
    /\ Color.hex r = "#5a0000"
    /\ Color.region_count r = 3.
Proof.
  rewrite (detect_background_colors_clustered
             (L := scenario_libs clustered_scenario) wide_red_page 150 0)
    by (try rewrite wide_red_page_colors; reflexivity || lia).
  rewrite wide_red_page_colors, wide_red_page_positions.
  cbn [KMeans_fit_predict scenario_libs sc_kmeans clustered_scenario].
  eexists. split; [reflexivity | ].
  cbn [Color.rgb Color.hex Color.region_count].
  rewrite !int_IZR. repeat split; reflexivity.
Qed.

(** A run of C10 on the wide red page: the one record emitted counts
    three regions, and its [hex], "#5a0000", reads back as its [rgb]. *)
Lemma background_color_records_witness :
  exists r,
    detect_background_colors (L := scenario_libs clustered_scenario)
                             wide_red_page 150 0 = Ok [r]
    /\ 3 <= Color.region_count r
    /\ Color.hex r = "#5a0000"
    /\ decode_rrggbb (Color.hex r) = Some (Color.rgb r).
Proof.
  destruct wide_red_page_record as (r & Hr & Hrgb & Hhex & _).
  exists r. split; [exact Hr | ].
  destruct (background_color_records
              (L := scenario_libs clustered_scenario) wide_red_page 150 0)
    as [Hall _].
  destruct (Hall [r] Hr) as [Hok _].
  inversion Hok as [| r' rs [Hcount (cr & cg & cb & Ergb & _ & Hdec)] _];
    subst.
  split; [exact Hcount | ]. split; [exact Hhex | ].
  rewrite Hrgb in Ergb. injection Ergb as <- <- <-.
  apply Hdec; lia.
Defined.

(* ================================================================= *)
(** ** C6: failures of the text-parsing script *)

Lemma string_append_assoc (a b c : string) :
  ((a ++ b) ++ c)%string = (a ++ (b ++ c))%string.
Proof. induction a as [| ch a IH]; simpl; [ | rewrite IH]; reflexivity. Qed.

Lemma write_chunks_trace (name : string) (chunks : list string)
  (t : trace) :
  write_chunks name chunks t = (Ok tt, t ++ map (FileWrite name) chunks).
Proof.
  revert t; induction chunks as [| c cs IH]; intros t; simpl.
  - unfold ret. rewrite app_nil_r. reflexivity.
  - unfold bindM, emit. rewrite IH, <- app_assoc. reflexivity.
Qed.

Lemma file_content_app (name : string) (t t' : trace) :
  file_content name (t ++ t')
  = fold_left
      (fun content e =>
         match e with
         | FileOpen n =>
             if String.eqb n name then Some EmptyString else content
         | FileWrite n c =>
             if String.eqb n name
             then option_map (fun s => (s ++ c)%string) content
             else content
         | _ => content
         end)
      t' (file_content name t).
Proof. unfold file_content. apply fold_left_app. Qed.

Lemma file_content_writes (name : string) (chunks : list string)
  (s : string) (t : trace) :
  file_content name t = Some s ->
  file_content name (t ++ map (FileWrite name) chunks)
  = Some (s ++ joined chunks)%string.
Proof.
  revert s t; induction chunks as [| c cs IH]; intros s t Ht.
  - simpl. rewrite app_nil_r, Ht. f_equal.
    clear. induction s as [| ch s IH]; simpl; [ | rewrite <- IH]; reflexivity.
  - change (map (FileWrite name) (c :: cs))
      with ([FileWrite name c] ++ map (FileWrite name) cs).
    rewrite app_assoc.
    rewrite (IH (s ++ c)%string).
    + simpl. rewrite string_append_assoc. reflexivity.
    + rewrite file_content_app, Ht. simpl.
      rewrite String.eqb_refl. reflexivity.
Qed.

Section TextFailures.
Context {P : PdfPlumber} {JW : Json (dict (list word))} {FS : FileSystem}.

(** The extraction loop raises what the first failing page raises. *)
Lemma pages_loop_raises (done rest : list plumber_page) (page : plumber_page)
  (e : exn) (i : Z) (output : dict (list word)) :
  (forall p, In p done -> exists words, extract_words p ["size"] = Ok words) ->
  extract_words page ["size"] = Raise e ->
  pages_loop i (done ++ page :: rest) output = Raise e.
Proof.
  revert i output; induction done as [| p done IH]; intros i output Hd He.
  - simpl. rewrite He. reflexivity.
  - simpl. destruct (Hd p (or_introl eq_refl)) as [words Hw].
    rewrite Hw. simpl. apply IH; [ | exact He].
    intros q Hq. apply Hd. right; exact Hq.
Qed.

Lemma text_parser_failure (e : exn) (written : option (list string))
  (t : trace) :
  text_failure e written ->
  exists pdf_open,
    text_parser t = (Raise e, t ++ text_failure_trace e written pdf_open).
Proof.
  intros H.
  unfold text_parser, with_pdfplumber_open, with_open_json_dump, bindM, lift,
    emit, ret, raise, text_failure_trace.
  destruct H as [Ho | pdf Ho Hp | pdf pages Ho Hp Hl
                 | pdf pages output Ho Hp Hl Hw
                 | pdf pages output chunks Ho Hp Hl Hw Hj];
    rewrite Ho; try rewrite Hp; try rewrite Hl; try rewrite Hw;
    try rewrite Hj.
  - exists false. rewrite app_nil_r. reflexivity.
  - exists true. rewrite app_nil_r, <- app_assoc. reflexivity.
  - exists true. rewrite app_nil_r, <- app_assoc. reflexivity.
  - exists true. rewrite app_nil_r, <- app_assoc. reflexivity.
  - exists true. rewrite write_chunks_trace.
    rewrite <- !app_assoc. reflexivity.
Qed.

(** C6, as amended.  Every exception raised while opening the PDF,
    listing or extracting its pages, opening the output file or dumping
    the JSON leaves the script uncaught.  When it is raised before the
    output file is open, the output file is left as it was; when
    [json.dump] raises, the file has been truncated and holds the chunks
    that [json.dump] had written before the exception. *)
Theorem text_parser_failures (e : exn) (written : option (list string))
  (t : trace) :
  text_failure e written ->
  exists t',
    text_parser t = (Raise e, t')
    /\ match written with
       | None =>
           file_content "f1040_words.json" t'
           = file_content "f1040_words.json" t
       | Some chunks =>
           file_content "f1040_words.json" t' = Some (joined chunks)
       end.
Proof.
  intros H. destruct (text_parser_failure e written t H) as [pdf_open Ht].
  eexists; split; [exact Ht | ].
  unfold text_failure_trace.
  destruct written as [chunks | ].
  - rewrite !app_assoc.
    rewrite file_content_app. cbn [fold_left].
    rewrite <- !app_assoc.
    rewrite (app_assoc t), (app_assoc (t ++ _)).
    rewrite (file_content_writes "f1040_words.json" chunks "").
    + reflexivity.
    + rewrite file_content_app. simpl. reflexivity.
  - rewrite app_nil_r, file_content_app.
    destruct pdf_open; reflexivity.
Qed.

End TextFailures.

Lemma failing_dump_failure :
  text_failure (P := one_page_plumber) (JW := failing_json)
               (FS := open_always)
               not_serializable (Some ["{"; "page_1: ["]).
Proof.
  apply (in_json_dump (P := one_page_plumber) (JW := failing_json)
           (FS := open_always) not_serializable tt [tt]
           [("page_1", ["Form"; "1040"])]);
    reflexivity.
Qed.

(** When [json.dump] fails part-way, the exception leaves the script and
    the output file holds the part written. *)
Lemma failing_dump_commits_prefix : ~ failure_commits_nothing.
Proof.
  intros C.
  destruct (C one_page_plumber failing_json open_always not_serializable
              (Some ["{"; "page_1: ["]) failing_dump_failure)
    as (t' & Ht & Hc).
  vm_compute in Ht. inversion Ht; subst t'.
  vm_compute in Hc. destruct Hc as [Hc | Hc]; discriminate Hc.
Qed.

(** A run of C6 as amended, on the failing encoder. *)
Lemma text_parser_failures_witness :
  exists t',
    text_parser (P := one_page_plumber) (JW := failing_json)
                (FS := open_always) []
    = (Raise not_serializable, t')
    /\ file_content "f1040_words.json" t' = Some "{page_1: [".
Proof.
  exact (text_parser_failures (P := one_page_plumber) (JW := failing_json)
           (FS := open_always) not_serializable (Some ["{"; "page_1: ["]) []
           failing_dump_failure).
Defined.

(* ================================================================= *)
(** ** Further properties of the line detection *)

Section LineEdgeCases.
Context {L : Libs}.
Local Open Scope R_scope.

Lemma arctan2_pos_0 (y : R) : 0 < y -> arctan2 y 0 = PI / 2.
Proof.
  intros Hy. unfold arctan2.
  destruct (Rlt_dec 0 0); [lra | ].
  destruct (Rlt_dec 0 y); [reflexivity | contradiction].
Qed.

Lemma arctan2_neg_0 (y : R) : y < 0 -> arctan2 y 0 = - PI / 2.
Proof.
  intros Hy. unfold arctan2.
  destruct (Rlt_dec 0 0); [lra | ].
  destruct (Rlt_dec 0 y); [lra | ].
  destruct (Rlt_dec y 0); [reflexivity | contradiction].
Qed.

Lemma arctan2_0_0 : arctan2 0 0 = 0.
Proof.
  unfold arctan2.
  destruct (Rlt_dec 0 0); [lra | reflexivity].
Qed.

(** In the third quadrant, below the diagonal: between -180 and -135
    degrees. *)
Lemma arctan2_third_quadrant (y x : R) :
  x < y -> y < 0 ->
  - PI < arctan2 y x < - (3 * PI / 4).
Proof.
  intros Hxy Hy. unfold arctan2.
  destruct (Rlt_dec 0 x); [lra | ].
  destruct (Rlt_dec x 0); [ | lra].
  destruct (Rle_dec 0 y); [lra | ].
  assert (Hq : 0 < y / x < 1).
  { assert (0 < - x) by lra.
    replace (y / x) with ((- y) / (- x)) by (field; lra).
    split.
    - apply Rdiv_lt_0_compat; lra.
    - apply (Rmult_lt_reg_r (- x)); [lra | ].
      replace (- y / - x * - x) with (- y) by (field; lra). lra. }
  pose proof (atan_increasing 0 (y / x) (proj1 Hq)) as H0.
  pose proof (atan_increasing (y / x) 1 (proj2 Hq)) as H1.
  rewrite atan_0 in H0. rewrite atan_1 in H1.
  pose proof PI_RGT_0. lra.
Qed.

Lemma classify_vertical (a : R) :
  a = 90 \/ a = -90 -> classify_orientation a = "vertical".
Proof.
  intros Ha. apply (proj1 (proj2 (classify_orientation_spec a))).
  unfold horizontal_angle, vertical_angle.
  destruct Ha as [-> | ->].
  - split.
    + intros [H | H]; apply Rabs_def2 in H; lra.
    + left. replace (90 - 90) with 0 by lra. rewrite Rabs_R0; lra.
  - split.
    + intros [H | H]; apply Rabs_def2 in H; lra.
    + right. replace (-90 + 90) with 0 by lra. rewrite Rabs_R0; lra.
Qed.

Lemma classify_diagonal (a : R) :
  -180 < a < -135 -> classify_orientation a = "diagonal".
Proof.
  intros Ha. apply (proj2 (proj2 (classify_orientation_spec a))).
  unfold horizontal_angle, vertical_angle.
  split; intros [H | H]; apply Rabs_def2 in H; lra.
Qed.

Lemma vertical_segment_angle (px py1 py2 : Z) :
  is_int32 py1 -> is_int32 py2 -> py1 <> py2 ->
  segment_angle (px, py1, px, py2) = 90
  \/ segment_angle (px, py1, px, py2) = -90.
Proof.
  intros H1 H2 Hne. unfold segment_angle.
  replace (px - px)%Z with 0%Z by lia.
  change (wrap32 0) with 0%Z.
  pose proof (wrap32_diff_nonzero py1 py2 H1 H2 Hne) as Hd.
  set (dy := wrap32 (py2 - py1)) in *.
  assert (Hs : (dy < 0 \/ 0 < dy)%Z) by lia.
  pose proof PI_RGT_0 as Hpi.
  destruct Hs as [Hs | Hs].
  - right. rewrite arctan2_neg_0 by (apply (IZR_lt dy 0); assumption).
    field; lra.
  - left. rewrite arctan2_pos_0 by (apply (IZR_lt 0 dy); assumption).
    field; lra.
Qed.

(** Every record comes from [line_record]: a property of all the records
    of [line_record] holds of the output of [detect_lines]. *)
Lemma detect_lines_Forall2 (P : segment -> Line.t -> Prop)
  (g : gray_image) (dpi : Z) (w : entropy) (edges : edge_map)
  (segs : list segment) :
  (forall s r, line_record g dpi s = Ok r -> P s r) ->
  dpi <> 0%Z ->
  Canny g 100 200 3 = Ok edges ->
  HoughLinesP edges 1 (PI / 180) 200 100 5 w = Ok (Some segs) ->
  exists recs, detect_lines g dpi w = Ok recs /\ Forall2 P segs recs.
Proof.
  intros HP Hd Hc Hh.
  destruct (detect_lines_records g dpi w edges segs Hd Hc Hh)
    as [recs [Hr HF]].
  exists recs; split; [assumption | ].
  eapply Forall2_impl; [ | exact HF]. exact HP.
Qed.

Lemma line_record_orientation (g : gray_image) (dpi : Z) (s : segment)
  (r : Line.t) :
  line_record g dpi s = Ok r ->
  Line.orientation r = classify_orientation (segment_angle s)
  /\ Line.line_style r
     = (let '(px1, py1, px2, py2) := s in
        detect_line_style g px1 py1 px2 py2)
  /\ Line.element_type r = "line"
  /\ segment_units (Line.position r) = "points".
Proof.
  destruct s as [[[px1 py1] px2] py2]. unfold line_record.
  destruct (dpi =? 0)%Z; [discriminate | ].
  intros H; inversion H; subst; clear H. repeat split.
Qed.

Lemma line_record_measures (g : gray_image) (dpi : Z) (s : segment)
  (r : Line.t) :
  line_record g dpi s = Ok r ->
  Line.angle r = round (segment_angle s) 2
  /\ Line.length r = round (segment_length s * (72 / IZR dpi)) 2.
Proof.
  destruct s as [[[px1 py1] px2] py2]. unfold line_record.
  destruct (dpi =? 0)%Z; [discriminate | ].
  intros H; injection H as <-. split; reflexivity.
Qed.

(** X1. A run of [detect_lines_and_colors] with a resolution of 0, on a
    page that the libraries convert, never returns results.
    [detect_lines] raises ZeroDivisionError if the Hough transform found
    a segment, and returns the empty list if it found none; then
    [detect_background_colors], once it has imported sklearn, raises
    ZeroDivisionError, as [detect_checkboxes] would.  So with sklearn
    installed the run ends in ZeroDivisionError whatever the page shows;
    without it, a page with no segment ends in the import's error. *)
Theorem resolution_zero (pdf_path : string) (page_num : Z) (w : entropy)
  (t : trace) (page0 : pil_image) (pages : list pil_image)
  (img : bgr_image) (g : gray_image) (edges : edge_map)
  (found : option (list segment)) :
  convert_from_path pdf_path 0 (page_num + 1) (page_num + 1)
  = Ok (page0 :: pages) ->
  cvtColor_RGB2BGR page0 = Ok img ->
  cvtColor_BGR2GRAY img = Ok g ->
  Canny g 100 200 3 = Ok edges ->
  HoughLinesP edges 1 (PI / 180) 200 100 5 w = Ok found ->
  detect_lines g 0 w
  = match found with
    | Some (_ :: _) => Raise ZeroDivisionError
    | _ => Ok []
    end
  /\ (import_sklearn_cluster = Ok tt ->
      detect_background_colors img 0 w = Raise ZeroDivisionError)
  /\ detect_checkboxes g 0 = Raise ZeroDivisionError
  /\ (import_sklearn_cluster = Ok tt ->
      detect_lines_and_colors pdf_path page_num 0 w t
      = (Raise ZeroDivisionError, t))
  /\ (forall e,
        import_sklearn_cluster = Raise e ->
        detect_lines_and_colors pdf_path page_num 0 w t
        = (Raise match found with
                 | Some (_ :: _) => ZeroDivisionError
                 | _ => e
                 end, t)).
Proof.
  intros Hp Hi Hg Hc Hh.
  assert (Hl : detect_lines g 0 w
               = match found with
                 | Some (_ :: _) => Raise ZeroDivisionError
                 | _ => Ok []
                 end).
  { unfold detect_lines. rewrite Hc; cbn [bind]. rewrite Hh; cbn [bind].
    destruct found as [[| [[[a b] c] d] segs] | ]; reflexivity. }
  assert (Hb : import_sklearn_cluster = Ok tt ->
               detect_background_colors img 0 w = Raise ZeroDivisionError).
  { intros Hs. unfold detect_background_colors. rewrite Hs. reflexivity. }
  split; [exact Hl | ]. split; [exact Hb | ]. split; [reflexivity | ].
  split.
  - intros Hs. unfold detect_lines_and_colors, bindM, lift.
    rewrite Hp, Hi, Hg, Hl.
    destruct found as [[| s segs] | ]; try reflexivity;
      rewrite (Hb Hs); reflexivity.
  - intros e Hs. unfold detect_lines_and_colors, bindM, lift.
    rewrite Hp, Hi, Hg, Hl.
    destruct found as [[| s segs] | ]; try reflexivity;
      unfold detect_background_colors; rewrite Hs; reflexivity.
Qed.

(** X2. For a resolution other than 0, the record of an exactly vertical
    segment ([x1 = x2], [y1 <> y2], [int32] coordinates) has orientation
    "vertical", whichever way the segment points. *)
Theorem detect_lines_vertical (g : gray_image) (dpi : Z) (w : entropy)
  (edges : edge_map) (segs : list segment) :
  dpi <> 0%Z ->
  Canny g 100 200 3 = Ok edges ->
  HoughLinesP edges 1 (PI / 180) 200 100 5 w = Ok (Some segs) ->
  exists recs,
    detect_lines g dpi w = Ok recs
    /\ Forall2
         (fun (s : segment) (r : Line.t) =>
            let '(px1, py1, px2, py2) := s in
            is_int32 py1 -> is_int32 py2 -> px1 = px2 -> py1 <> py2 ->
            Line.orientation r = "vertical")
         segs recs.
Proof.
  apply detect_lines_Forall2.
  intros [[[px1 py1] px2] py2] r Hr H1 H2 Hx Hne; subst px2.
  rewrite (proj1 (line_record_orientation _ _ _ _ Hr)).
  apply classify_vertical, vertical_segment_angle; assumption.
Qed.

(** X3. A segment that points left and up with a slope below 1
    ([x2 < x1], [y2 < y1], [y1 - y2 < x1 - x2]) has an angle between -180
    and -135 degrees, which none of the tests accepts: it is reported as
    "diagonal", however close to horizontal it is. *)
Theorem detect_lines_leftward_shallow (g : gray_image) (dpi : Z)
  (w : entropy) (edges : edge_map) (segs : list segment) :
  dpi <> 0%Z ->
  Canny g 100 200 3 = Ok edges ->
  HoughLinesP edges 1 (PI / 180) 200 100 5 w = Ok (Some segs) ->
  exists recs,
    detect_lines g dpi w = Ok recs
    /\ Forall2
         (fun (s : segment) (r : Line.t) =>
            let '(px1, py1, px2, py2) := s in
            (0 <= px2 < px1)%Z -> (0 <= py2 < py1)%Z ->
            is_int32 px1 -> is_int32 py1 ->
            (py1 - py2 < px1 - px2)%Z ->
            Line.orientation r = "diagonal")
         segs recs.
Proof.
  apply detect_lines_Forall2.
  intros [[[px1 py1] px2] py2] r Hr Hx Hy H1 H2 Hs.
  rewrite (proj1 (line_record_orientation _ _ _ _ Hr)).
  apply classify_diagonal. unfold segment_angle.
  unfold is_int32 in *.
  rewrite !wrap32_id by (unfold is_int32; lia).
  assert (Hq : IZR (px2 - px1) < IZR (py2 - py1)) by (apply IZR_lt; lia).
  assert (Hn : IZR (py2 - py1) < 0) by (apply IZR_lt; lia).
  pose proof (arctan2_third_quadrant _ _ Hq Hn) as [Hl Hu].
  pose proof PI_RGT_0 as Hpi.
  set (a := arctan2 (IZR (py2 - py1)) (IZR (px2 - px1))) in *.
  split.
  - apply (Rmult_lt_reg_r (PI / 180)); [lra | ].
    replace (a * 180 / PI * (PI / 180)) with a by (field; lra). lra.
  - apply (Rmult_lt_reg_r (PI / 180)); [lra | ].
    replace (a * 180 / PI * (PI / 180)) with a by (field; lra). lra.
Qed.

(** X4. A segment of length zero ([x1 = x2] and [y1 = y2]) has angle 0:
    it is reported as "horizontal", with angle 0 and length 0. *)
Theorem detect_lines_degenerate (g : gray_image) (dpi : Z) (w : entropy)
  (edges : edge_map) (segs : list segment) :
  dpi <> 0%Z ->
  Canny g 100 200 3 = Ok edges ->
  HoughLinesP edges 1 (PI / 180) 200 100 5 w = Ok (Some segs) ->
  exists recs,
    detect_lines g dpi w = Ok recs
    /\ Forall2
         (fun (s : segment) (r : Line.t) =>
            let '(px1, py1, px2, py2) := s in
            px1 = px2 -> py1 = py2 ->
            Line.orientation r = "horizontal"
            /\ Line.angle r = 0 /\ Line.length r = 0)
         segs recs.
Proof.
  apply detect_lines_Forall2.
  intros [[[px1 py1] px2] py2] r Hr Hx Hy; subst px2 py2.
  assert (Ha : segment_angle (px1, py1, px1, py1) = 0).
  { unfold segment_angle. replace (px1 - px1)%Z with 0%Z by lia.
    replace (py1 - py1)%Z with 0%Z by lia. change (wrap32 0) with 0%Z.
    rewrite arctan2_0_0. pose proof PI_RGT_0. field; lra. }
  assert (Hl : segment_length (px1, py1, px1, py1) = 0).
  { unfold segment_length. replace (px1 - px1)%Z with 0%Z by lia.
    replace (py1 - py1)%Z with 0%Z by lia. change (wrap32 0) with 0%Z.
    change (wrap32 (wrap32 (0 ^ 2) + wrap32 (0 ^ 2))) with 0%Z.
    apply sqrt_0. }
  split.
  - rewrite (proj1 (line_record_orientation _ _ _ _ Hr)), Ha.
    apply (proj1 (classify_orientation_spec 0)). left.
    rewrite Rabs_R0; lra.
  - destruct (line_record_measures _ _ _ _ Hr) as [-> ->].
    rewrite Ha, Hl. split.
    + apply (round_exact 0 0 2). simpl; lra.
    + rewrite Rmult_0_l. apply (round_exact 0 0 2). simpl; lra.
Qed.

End LineEdgeCases.

(** A run of X1: a resolution of 0 on a page with no segment, with
    sklearn installed. *)
Lemma resolution_zero_witness :
  detect_lines (L := scenario_libs (hough_scenario None))
               (black_gray 400 400) 0 0
  = Ok []
  /\ detect_lines_and_colors (L := scenario_libs (hough_scenario None))
                             "f1040.pdf" 0 0 0 []
     = (Raise ZeroDivisionError, []).
Proof.
  destruct (resolution_zero
              (L := scenario_libs (hough_scenario None))
              "f1040.pdf" 0 0 [] (uniform_page 400 400 (0, 0, 0)) []
              (uniform_page 400 400 (0, 0, 0)) (black_gray 400 400) tt None
              eq_refl eq_refl eq_refl eq_refl eq_refl)
    as (Hl & _ & _ & Hrun & _).
  split; [exact Hl | ]. apply Hrun. reflexivity.
Defined.

(** A run of X2: a segment pointing straight up. *)
Lemma detect_lines_vertical_witness :
  exists r,
    detect_lines (L := scenario_libs (hough_scenario (Some [(30, 200, 30, 40)])))
                 (black_gray 400 400) 150 0 = Ok [r]
    /\ Line.orientation r = "vertical".
Proof.
  destruct (detect_lines_vertical
              (L := scenario_libs (hough_scenario (Some [(30, 200, 30, 40)])))
              (black_gray 400 400) 150 0 tt [(30, 200, 30, 40)])
    as [recs [Hr HF]]; [lia | reflexivity | reflexivity | ].
  inversion HF as [ | s r ss rs Hrec Hrest]; subst.
  inversion Hrest; subst.
  exists r. split; [exact Hr | ].
  apply Hrec; unfold is_int32; lia.
Defined.

(** A run of X3: from (100, 10) to (0, 9), one pixel up over a hundred
    pixels to the left. *)
Lemma detect_lines_leftward_shallow_witness :
  exists r,
    detect_lines (L := scenario_libs (hough_scenario (Some [(100, 10, 0, 9)])))
                 (black_gray 400 400) 150 0 = Ok [r]
    /\ Line.orientation r = "diagonal".
Proof.
  destruct (detect_lines_leftward_shallow
              (L := scenario_libs (hough_scenario (Some [(100, 10, 0, 9)])))
              (black_gray 400 400) 150 0 tt [(100, 10, 0, 9)])
    as [recs [Hr HF]]; [lia | reflexivity | reflexivity | ].
  inversion HF as [ | s r ss rs Hrec Hrest]; subst.
  inversion Hrest; subst.
  exists r. split; [exact Hr | ].
  apply Hrec; unfold is_int32; lia.
Defined.

(** A run of X4: the segment from (7, 7) to (7, 7). *)
Lemma detect_lines_degenerate_witness :
  exists r,
    detect_lines (L := scenario_libs (hough_scenario (Some [(7, 7, 7, 7)])))
                 (black_gray 400 400) 150 0 = Ok [r]
    /\ Line.orientation r = "horizontal" /\ Line.length r = 0%R.
Proof.
  destruct (detect_lines_degenerate
              (L := scenario_libs (hough_scenario (Some [(7, 7, 7, 7)])))
              (black_gray 400 400) 150 0 tt [(7, 7, 7, 7)])
    as [recs [Hr HF]]; [lia | reflexivity | reflexivity | ].
  inversion HF as [ | s r ss rs Hrec Hrest]; subst.
  inversion Hrest; subst.
  exists r. split; [exact Hr | ].
  destruct Hrec as (Ho & _ & Hl); [reflexivity | reflexivity | ].
  split; assumption.
Defined.

(* ================================================================= *)
(** ** Further properties of the line style *)

Section LineStyle.
Context {L : Libs}.

Lemma filter_all {A} (f : A -> bool) (l : list A) :
  (forall a, In a l -> f a = true) -> filter f l = l.
Proof.
  induction l as [| a l IH]; intros H; simpl; [reflexivity | ].
  rewrite (H a (or_introl eq_refl)), IH; [reflexivity | ].
  intros b Hb; apply H; right; exact Hb.
Qed.

Lemma filter_none {A} (f : A -> bool) (l : list A) :
  (forall a, In a l -> f a = false) -> filter f l = [].
Proof.
  induction l as [| a l IH]; intros H; simpl; [reflexivity | ].
  rewrite (H a (or_introl eq_refl)). apply IH.
  intros b Hb; apply H; right; exact Hb.
Qed.

Lemma style_of_count (g : gray_image) (px1 py1 px2 py2 : Z) :
  (dark_samples g (px1, py1, px2, py2) = 20 ->
   detect_line_style g px1 py1 px2 py2 = "solid")
  /\ (dark_samples g (px1, py1, px2, py2) = 0 ->
      detect_line_style g px1 py1 px2 py2 = "dotted").
Proof.
  pose proof (detect_line_style_dotted g px1 py1 px2 py2) as Hd.
  split; intros E.
  - destruct (detect_line_style_cases g px1 py1 px2 py2) as [C | C];
      [ | exact C].
    apply Hd in C. lia.
  - apply Hd. lia.
Qed.

(** X5. On an image whose pixels are all dark (below 128), a segment
    between two pixels of the image is "solid": all of its 20 samples
    fall inside the image and are dark. *)
Theorem dark_image_solid (g : gray_image) (px1 py1 px2 py2 : Z) :
  (forall y x, 0 <= y < gray_rows g -> 0 <= x < gray_cols g ->
               gray_at g y x < 128) ->
  gray_cols g <= 2 ^ 31 -> gray_rows g <= 2 ^ 31 ->
  0 <= px1 < gray_cols g -> 0 <= px2 < gray_cols g ->
  0 <= py1 < gray_rows g -> 0 <= py2 < gray_rows g ->
  detect_line_style g px1 py1 px2 py2 = "solid".
Proof.
  intros Hdark Hc Hr Hx1 Hx2 Hy1 Hy2.
  apply (proj1 (style_of_count g px1 py1 px2 py2)).
  unfold dark_samples. rewrite filter_all; [reflexivity | ].
  intros i Hi.
  destruct (samples_inside g px1 py1 px2 py2 i Hc Hr Hx1 Hx2 Hy1 Hy2 Hi)
    as [Hx Hy].
  unfold dark_sample.
  destruct (sample_point px1 py1 px2 py2 i) as [sx sy]; cbn [fst snd] in *.
  assert (E : (0 <=? sx) && (sx <? gray_cols g) && (0 <=? sy)
              && (sy <? gray_rows g) = true).
  { rewrite !andb_true_iff. repeat split;
      first [apply Z.leb_le | apply Z.ltb_lt]; lia. }
  rewrite E. apply Z.ltb_lt. apply Hdark; lia.
Qed.

(** X6. On an image without any dark pixel, every segment is "dotted",
    wherever its endpoints are. *)
Theorem light_image_dotted (g : gray_image) (px1 py1 px2 py2 : Z) :
  (forall y x, 128 <= gray_at g y x) ->
  detect_line_style g px1 py1 px2 py2 = "dotted".
Proof.
  intros Hlight.
  apply (proj2 (style_of_count g px1 py1 px2 py2)).
  unfold dark_samples. rewrite filter_none; [reflexivity | ].
  intros i _. unfold dark_sample.
  destruct (sample_point px1 py1 px2 py2 i) as [sx sy].
  destruct (_ && _); [ | reflexivity].
  apply Z.ltb_ge. apply Hlight.
Qed.

End LineStyle.

(** A run of X5: a diagonal across a black image. *)
Lemma dark_image_solid_witness :
  detect_line_style (black_gray 400 300) 0 0 299 399 = "solid".
Proof.
  apply dark_image_solid; cbn [black_gray gray_rows gray_cols gray_at];
    intros; lia.
Defined.

(** A run of X6: a segment on a white image. *)
Lemma light_image_dotted_witness :
  detect_line_style (white_gray 400 400) 10 50 150 50 = "dotted".
Proof.
  apply light_image_dotted. intros; cbn [white_gray gray_at]. lia.
Defined.

(* ================================================================= *)
(** ** Further properties of the colour sampling *)

Lemma range3_In (start stop step v : Z) :
  0 < step -> In v (range3 start stop step) ->
  start <= v < stop /\ (v - start) mod step = 0.
Proof.
  intros Hs Hv. unfold range3 in Hv.
  apply in_map_iff in Hv. destruct Hv as (k & <- & Hk).
  apply in_seq in Hk.
  set (q := (stop - start + step - 1) / step) in *.
  assert (Hq : 0 < q) by lia.
  assert (Hk' : Z.of_nat k <= q - 1) by lia.
  pose proof (Z.mul_div_le (stop - start + step - 1) step Hs) as Hm.
  fold q in Hm.
  split; [nia | ].
  replace (start + Z.of_nat k * step - start) with (Z.of_nat k * step) by lia.
  apply Z.mod_mul. lia.
Qed.

Lemma range3_empty (start stop step : Z) :
  0 < step -> stop <= start -> range3 start stop step = [].
Proof.
  intros Hs Hle. unfold range3.
  assert ((stop - start + step - 1) / step <= 0).
  { apply Z.lt_succ_r. apply Z.div_lt_upper_bound; lia. }
  replace (Z.to_nat ((stop - start + step - 1) / step)) with 0%nat by lia.
  reflexivity.
Qed.

Lemma range_length (n : Z) : 0 <= n -> len (range n) = n.
Proof.
  intros Hn. unfold len, range, range3.
  rewrite length_map, length_seq.
  replace (n - 0 + 1 - 1) with n by lia. rewrite Z.div_1_r. lia.
Qed.

Lemma sampled_regions_In (img : bgr_image) (c : color) (p : rect) :
  In (c, p) (sampled_regions img) ->
  exists x y,
    p = (x, y, grid_size, grid_size)
    /\ In y (range3 0 (bgr_rows img - grid_size) grid_size)
    /\ In x (range3 0 (bgr_cols img - grid_size) grid_size)
    /\ c = avg_color (region img x y)
    /\ not_near_white c = true.
Proof.
  unfold sampled_regions. intros H.
  apply in_flat_map in H. destruct H as (y & Hy & H).
  apply in_flat_map in H. destruct H as (x & Hx & H).
  cbv zeta in H.
  destruct (0 <? 3 * len (region img x y)); [ | contradiction].
  destruct (not_near_white (avg_color (region img x y))) eqn:E;
    [ | contradiction].
  destruct H as [H | []]. inversion H; subst.
  exists x, y. repeat split; assumption.
Qed.

(** X7. Every region that the sampling keeps is a 100 by 100 square of the
    grid that lies strictly inside the page (its right and bottom edges
    stay short of the last pixel column and row), and every colour handed
    to KMeans passed the filter: channel mean below 230 and channel
    standard deviation above 10. *)
Theorem sampled_regions_inside (img : bgr_image) :
  Forall
    (fun p : rect =>
       rect_w p = 100 /\ rect_h p = 100
       /\ 0 <= rect_x p /\ rect_x p + rect_w p < bgr_cols img
       /\ 0 <= rect_y p /\ rect_y p + rect_h p < bgr_rows img
       /\ rect_x p mod 100 = 0 /\ rect_y p mod 100 = 0)
    (positions img)
  /\ Forall
       (fun c : color =>
          (mean (channels c) < 230)%R /\ (10 < std (channels c))%R)
       (all_colors img)
  /\ List.length (positions img) = List.length (all_colors img).
Proof.
  unfold positions, all_colors. split; [ | split].
  - apply Forall_forall. intros p Hp.
    apply in_map_iff in Hp. destruct Hp as ([c p'] & <- & Hin).
    apply sampled_regions_In in Hin.
    destruct Hin as (x & y & -> & Hy & Hx & _ & _).
    apply range3_In in Hy; [ | unfold grid_size; lia].
    apply range3_In in Hx; [ | unfold grid_size; lia].
    unfold grid_size in *. cbn [snd rect_w rect_h rect_x rect_y fst].
    rewrite !Z.sub_0_r in *. lia.
  - apply Forall_forall. intros c Hc.
    apply in_map_iff in Hc. destruct Hc as ([c' p] & <- & Hin).
    apply sampled_regions_In in Hin.
    destruct Hin as (x & y & _ & _ & _ & _ & Hk).
    unfold not_near_white in Hk. apply andb_true_iff in Hk.
    destruct Hk as [Hm Hs]. apply Rltb_true in Hm, Hs.
    cbn [fst]. split; assumption.
  - rewrite !length_map. reflexivity.
Qed.

Section ColorEdgeCases.
Context {L : Libs}.

Lemma small_page_no_regions (img : bgr_image) :
  bgr_rows img <= 100 \/ bgr_cols img <= 100 -> sampled_regions img = [].
Proof.
  intros H. unfold sampled_regions, grid_size.
  destruct H as [H | H].
  - rewrite (range3_empty 0 (bgr_rows img - 100) 100) by lia. reflexivity.
  - rewrite (range3_empty 0 (bgr_cols img - 100) 100) by lia.
    induction (range3 0 (bgr_rows img - 100) 100); [reflexivity | ].
    simpl. assumption.
Qed.

(** X8. On a page that is at most 100 pixels high or at most 100 pixels
    wide no region is sampled: once sklearn is imported,
    [detect_background_colors] returns the empty list without clustering,
    whatever KMeans would do.  The import comes first, though: where it
    fails, the function raises its error, even on such a page. *)
Theorem small_page_no_colors (img : bgr_image) (dpi : Z) (w : entropy) :
  dpi <> 0 ->
  bgr_rows img <= 100 \/ bgr_cols img <= 100 ->
  positions img = []
  /\ (import_sklearn_cluster = Ok tt ->
      detect_background_colors img dpi w = Ok [])
  /\ (forall e,
        import_sklearn_cluster = Raise e ->
        detect_background_colors img dpi w = Raise e).
Proof.
  intros Hd Hs. pose proof (small_page_no_regions img Hs) as E.
  unfold positions. rewrite E. split; [reflexivity | ].
  unfold detect_background_colors, all_colors. rewrite E.
  split; [intros Hi | intros e Hi]; rewrite Hi; cbn [bind];
    [ | reflexivity].
  destruct (dpi =? 0) eqn:Ed; [apply Z.eqb_eq in Ed; contradiction | ].
  reflexivity.
Qed.

Lemma mapM_length {A B} (f : A -> result B) (l : list A) (bs : list B) :
  mapM f l = Ok bs -> List.length bs = List.length l.
Proof.
  intros H. apply mapM_Forall2 in H.
  induction H; simpl; [reflexivity | f_equal; assumption].
Qed.

Lemma cluster_positions_length (positions : list rect) (labels : list Z)
  (cluster_id : Z) (cps : list rect) :
  cluster_positions positions labels cluster_id = Ok cps ->
  len cps <= len positions.
Proof.
  unfold cluster_positions.
  destruct (mapM _ _) as [picked | ] eqn:E; simpl; [ | discriminate].
  intros H; inversion H; subst; clear H.
  apply mapM_length in E.
  pose proof (range_length (len positions) ltac:(unfold len; lia)) as Hr.
  unfold len in *. rewrite length_map.
  pose proof (filter_length_le fst picked). lia.
Qed.

Lemma cluster_record_needs_three (ppp : R) (positions : list rect)
  (labels : list Z) (centers : list color) (cluster_id : Z) (r : Color.t) :
  cluster_record ppp positions labels centers cluster_id = Ok (Some r) ->
  3 <= len positions /\ Color.region_count r <= len positions.
Proof.
  unfold cluster_record.
  destruct (cluster_positions positions labels cluster_id) as [cps | ] eqn:E;
    simpl; [ | discriminate].
  apply cluster_positions_length in E.
  destruct (2 <? len cps) eqn:E2; [ | discriminate].
  apply Z.ltb_lt in E2.
  destruct (nth_error centers (Z.to_nat cluster_id)) as [[[c0 c1] c2] | ];
    [ | discriminate].
  destruct (py_min (map rect_x cps)); simpl; [ | discriminate].
  destruct (py_min (map rect_y cps)); simpl; [ | discriminate].
  destruct (py_max _); simpl; [ | discriminate].
  destruct (py_max _); simpl; [ | discriminate].
  intros H; inversion H; subst; clear H. simpl. lia.
Qed.

Lemma cluster_loop_bounds (ppp : R) (positions : list rect)
  (labels : list Z) (centers : list color) (ids : list Z)
  (acc : list Color.t) :
  len (cluster_loop ppp positions labels centers ids acc)
  <= len acc + len ids
  /\ (len positions < 3 ->
      cluster_loop ppp positions labels centers ids acc = acc)
  /\ (Forall (fun r => Color.region_count r <= len positions) acc ->
      Forall (fun r => Color.region_count r <= len positions)
             (cluster_loop ppp positions labels centers ids acc)).
Proof.
  revert acc; induction ids as [| cid ids IH]; intros acc; simpl.
  - unfold len; simpl. repeat split; auto. lia.
  - destruct (cluster_record ppp positions labels centers cid)
      as [[r | ] | ] eqn:E.
    + destruct (IH (acc ++ [r])) as (H1 & H2 & H3).
      apply cluster_record_needs_three in E.
      repeat split.
      * unfold len in *. rewrite length_app in H1. simpl in *. lia.
      * intros; lia.
      * intros Hacc. apply H3. apply Forall_app; split; [assumption | ].
        constructor; [lia | constructor].
    + destruct (IH acc) as (H1 & H2 & H3).
      repeat split; auto. unfold len in *; simpl; lia.
    + repeat split; auto. unfold len; simpl; lia.
Qed.

(** X9. [detect_background_colors] emits at most five records, never more
    than the cluster count it asked for; it emits none unless at least
    three sampled regions survive the filter (two survivors are clustered,
    but no cluster can gather more than two regions); and no record
    counts more regions than were sampled. *)
Theorem color_records_bounds (img : bgr_image) (dpi : Z) (w : entropy)
  (out : list Color.t) :
  detect_background_colors img dpi w = Ok out ->
  len out <= 5
  /\ len out <= Z.max 0 (n_clusters img)
  /\ (len (all_colors img) < 3 -> out = [])
  /\ Forall (fun r => Color.region_count r <= len (all_colors img)) out.
Proof.
  unfold detect_background_colors.
  destruct import_sklearn_cluster as [[] | ]; cbn [bind]; [ | discriminate].
  destruct (dpi =? 0); [discriminate | ].
  assert (Hlen : len (positions img) = len (all_colors img)).
  { unfold positions, all_colors, len. rewrite !length_map. reflexivity. }
  destruct (len (all_colors img) <? 2) eqn:E2.
  - intros H; inversion H; subst. unfold len; simpl.
    repeat split; auto; lia.
  - apply Z.ltb_ge in E2.
    destruct (KMeans_fit_predict _ _ _ _ _) as [[labels centers] | ].
    + intros H; inversion H; subst; clear H.
      destruct (cluster_loop_bounds (72 / IZR dpi) (positions img) labels
                  centers (range (n_clusters img)) [])
        as (H1 & H2 & H3).
      assert (Hn : 0 <= n_clusters img <= 5) by (unfold n_clusters; lia).
      rewrite range_length in H1 by lia.
      change (len []) with 0 in H1.
      rewrite Hlen in H2, H3.
      repeat split; try lia; auto.
    + intros H; inversion H; subst. unfold len; simpl.
      repeat split; auto; lia.
Qed.

End ColorEdgeCases.

(** A run of X8: a page of 100 by 5000 pixels, with sklearn and
    without. *)
Lemma small_page_no_colors_witness :
  detect_background_colors (L := scenario_libs clustered_scenario)
                           (uniform_page 100 5000 (0, 0, 90)) 150 0
  = Ok []
  /\ detect_background_colors
       (L := without_sklearn (scenario_libs clustered_scenario))
       (uniform_page 100 5000 (0, 0, 90)) 150 0
     = Raise (Exn true "No module named 'sklearn'").
Proof.
  split.
  - apply (small_page_no_colors (L := scenario_libs clustered_scenario)
             (uniform_page 100 5000 (0, 0, 90)) 150 0).
    + lia.
    + left. cbn [uniform_page bgr_rows]. lia.
    + reflexivity.
  - apply (small_page_no_colors
             (L := without_sklearn (scenario_libs clustered_scenario))
             (uniform_page 100 5000 (0, 0, 90)) 150 0).
    + lia.
    + left. cbn [uniform_page bgr_rows]. lia.
    + reflexivity.
Defined.

(** A run of X9: the wide red page gives one record, of three regions out
    of five. *)
Lemma color_records_bounds_witness :
  exists r,
    detect_background_colors (L := scenario_libs clustered_scenario)
                             wide_red_page 150 0 = Ok [r]
    /\ Color.region_count r <= 5.
Proof.
  destruct wide_red_page_record as (r & Hr & _).
  exists r. split; [exact Hr | ].
  destruct (color_records_bounds (L := scenario_libs clustered_scenario)
              wide_red_page 150 0 [r] Hr)
    as (_ & _ & _ & HF).
  inversion HF; subst. rewrite wide_red_page_colors in *. assumption.
Defined.

(* ================================================================= *)
(** ** Further properties of the checkbox detection *)

Section DedupFacts.
Context {L : Libs}.

Lemma subsequence_refl {A} (l : list A) : subsequence l l.
Proof. induction l; constructor; assumption. Qed.

Lemma subsequence_In {A} (l1 l2 : list A) (a : A) :
  subsequence l1 l2 -> In a l1 -> In a l2.
Proof.
  induction 1; simpl; intros Ha; auto.
  destruct Ha; auto.
Qed.

Lemma close_positions_refl (a : Checkbox.t) : close_positions a a.
Proof.
  unfold close_positions.
  rewrite !Rminus_diag, Rabs_R0. split; lra.
Qed.

(** The loop of the duplicate removal, from any list kept so far: it
    extends that list by a subsequence of the candidates, and every
    candidate ends up close to a kept record. *)
Lemma dedup_loop_extends (checkboxes unique : list Checkbox.t) :
  exists extra,
    fold_left
      (fun unique_checkboxes cb =>
         let is_duplicate := existsb (same_position cb) unique_checkboxes in
         if negb is_duplicate then unique_checkboxes ++ [cb]
         else unique_checkboxes)
      checkboxes unique
    = unique ++ extra
    /\ subsequence extra checkboxes
    /\ forall cb, In cb checkboxes ->
                  exists e, In e (unique ++ extra) /\ close_positions cb e.
Proof.
  revert unique; induction checkboxes as [| cb cbs IH]; intros unique.
  - exists []. rewrite app_nil_r. repeat split; [constructor | ].
    intros cb [].
  - cbn [fold_left].
    destruct (existsb (same_position cb) unique) eqn:E.
    + destruct (IH unique) as (extra & Hf & Hs & Hc).
      exists extra. split; [exact Hf | ].
      split; [constructor; exact Hs | ].
      intros c [<- | Hin]; [ | apply Hc; exact Hin].
      apply existsb_exists in E. destruct E as (e & He & Hse).
      exists e. split; [apply in_or_app; left; exact He | ].
      apply same_position_close; exact Hse.
    + destruct (IH (unique ++ [cb])) as (extra & Hf & Hs & Hc).
      exists (cb :: extra). rewrite <- app_assoc in Hf.
      split; [exact Hf | ]. split; [constructor; exact Hs | ].
      intros c [<- | Hin].
      * exists cb. split; [ | apply close_positions_refl].
        apply in_or_app; right; left; reflexivity.
      * destruct (Hc c Hin) as (e & He & Hce).
        exists e. split; [ | exact Hce].
        rewrite <- app_assoc in He. exact He.
Qed.

Lemma unique_checkboxes_subsequence (checkboxes : list Checkbox.t) :
  subsequence (unique_checkboxes checkboxes) checkboxes.
Proof.
  destruct (dedup_loop_extends checkboxes []) as (extra & Hf & Hs & _).
  replace (unique_checkboxes checkboxes) with ([] ++ extra)
    by (symmetry; exact Hf).
  exact Hs.
Qed.

(** X10. The duplicate removal only leaves candidates out: what it
    returns is a subsequence of the candidates, in their order, and the
    first candidate is always kept.  Since the template matches are the
    first candidates, a contour found at the position of a template match
    is the one that goes. *)
Theorem unique_checkboxes_keeps_order (checkboxes : list Checkbox.t) :
  subsequence (unique_checkboxes checkboxes) checkboxes
  /\ (forall cb rest,
        checkboxes = cb :: rest ->
        exists kept, unique_checkboxes checkboxes = cb :: kept).
Proof.
  split; [apply unique_checkboxes_subsequence | ].
  intros cb rest ->.
  destruct (dedup_loop_extends rest [cb]) as (extra & Hf & _ & _).
  exists extra. exact Hf.
Qed.

(** X11. The duplicate removal loses no position: every candidate is
    within 10 points, in x and in y, of a record that is returned. *)
Theorem unique_checkboxes_covers (checkboxes : list Checkbox.t)
  (cb : Checkbox.t) :
  In cb checkboxes ->
  exists e,
    In e (unique_checkboxes checkboxes)
    /\ (Rabs (x (Checkbox.position cb) - x (Checkbox.position e)) < 10)%R
    /\ (Rabs (y (Checkbox.position cb) - y (Checkbox.position e)) < 10)%R.
Proof.
  intros Hin.
  destruct (dedup_loop_extends checkboxes []) as (extra & Hf & _ & Hc).
  replace (unique_checkboxes checkboxes) with ([] ++ extra)
    by (symmetry; exact Hf).
  destruct (Hc cb Hin) as (e & He & Hx & Hy).
  exists e. repeat split; assumption.
Qed.

Lemma dedup_loop_apart (checkboxes unique : list Checkbox.t) :
  ForallOrdPairs apart (unique ++ checkboxes) ->
  fold_left
    (fun unique_checkboxes cb =>
       let is_duplicate := existsb (same_position cb) unique_checkboxes in
       if negb is_duplicate then unique_checkboxes ++ [cb]
       else unique_checkboxes)
    checkboxes unique
  = unique ++ checkboxes.
Proof.
  revert unique; induction checkboxes as [| cb cbs IH]; intros unique HP.
  - rewrite app_nil_r. reflexivity.
  - cbn [fold_left].
    assert (E : existsb (same_position cb) unique = false).
    { apply not_true_is_false. intros C.
      apply existsb_exists in C. destruct C as (e & He & Hse).
      apply same_position_close, close_positions_sym in Hse.
      apply in_split in He. destruct He as (l1 & l2 & ->).
      rewrite <- app_assoc in HP. cbn [app] in HP.
      clear IH. induction l1 as [| a l1 IHl]; cbn [app] in HP.
      - inversion HP as [ | ? ? Hall _]; subst.
        rewrite Forall_forall in Hall.
        apply (Hall cb); [ | exact Hse].
        apply in_or_app; right; left; reflexivity.
      - inversion HP; subst. apply IHl; assumption. }
    rewrite E.
    pose proof (IH (unique ++ [cb])) as H.
    rewrite <- app_assoc in H. apply H. exact HP.
Qed.

(** X12. Removing duplicates twice changes nothing more: a list already
    free of duplicates is returned as it is, and so is the output of the
    removal. *)
Theorem unique_checkboxes_idempotent (checkboxes : list Checkbox.t) :
  unique_checkboxes (unique_checkboxes checkboxes)
  = unique_checkboxes checkboxes.
Proof.
  apply (dedup_loop_apart (unique_checkboxes checkboxes) []).
  apply unique_checkboxes_pairs.
Qed.

End DedupFacts.

(** A run of X11 on the three template matches at the pixels 0, 1 and 5 at
    36 dpi: the match at pixel 1 is dropped and is close to a kept one. *)
Lemma unique_checkboxes_covers_witness :
  exists e,
    In e (unique_checkboxes
            (map (template_record (72 / IZR 36) [ [1; 1; 0; 0; 0; 1] ]%R)
                 [(0, 0); (1, 0); (5, 0)]))
    /\ (Rabs (x (Checkbox.position
                   (template_record (72 / IZR 36) [ [1; 1; 0; 0; 0; 1] ]%R
                                    (1, 0)%Z))
              - x (Checkbox.position e)) < 10)%R.
Proof.
  destruct (unique_checkboxes_covers
              (map (template_record (72 / IZR 36) [ [1; 1; 0; 0; 0; 1] ]%R)
                   [(0, 0); (1, 0); (5, 0)])
              (template_record (72 / IZR 36) [ [1; 1; 0; 0; 0; 1] ]%R (1, 0)))
    as (e & He & Hx & _).
  - right; left; reflexivity.
  - exists e. split; assumption.
Defined.

Section CheckboxRecords.
Context {L : Libs}.
Local Open Scope R_scope.

Lemma rint_ge (r : R) (k : Z) : IZR k <= r -> (k <= rint r)%Z.
Proof.
  intros H. destruct (base_Int_part r) as [H1 H2].
  assert (Hk : (k <= Int_part r)%Z).
  { assert (IZR k < IZR (Int_part r + 1)) by (rewrite plus_IZR; lra).
    apply lt_IZR in H0. lia. }
  unfold rint.
  destruct (Rlt_dec (frac_part r) (1 / 2)); [exact Hk | ].
  destruct (Rlt_dec (1 / 2) (frac_part r)); [lia | ].
  destruct (Z.even (Int_part r)); lia.
Qed.

Lemma rint_le (r : R) (k : Z) : r <= IZR k -> (rint r <= k)%Z.
Proof.
  intros H. destruct (base_Int_part r) as [H1 H2].
  pose proof (Rplus_Int_part_frac_part r) as Hr.
  assert (Hk : (Int_part r <= k)%Z) by (apply le_IZR; lra).
  unfold rint.
  destruct (Rlt_dec (frac_part r) (1 / 2)) as [_ | Hf]; [exact Hk | ].
  assert (Hlt : (Int_part r < k)%Z) by (apply lt_IZR; lra).
  destruct (Rlt_dec (1 / 2) (frac_part r)); [lia | ].
  destruct (Z.even (Int_part r)); lia.
Qed.

(** Rounding keeps a value between two bounds that lie on the grid. *)
Lemma round_ge (a v : R) (k : Z) (n : nat) :
  a * 10 ^ n = IZR k -> a <= v -> a <= round v n.
Proof.
  intros Ha Hv. pose proof (pow10_pos n) as Hp. unfold round.
  assert (Hk : (k <= rint (v * 10 ^ n))%Z).
  { apply rint_ge. rewrite <- Ha. apply Rmult_le_compat_r; lra. }
  apply IZR_le in Hk. rewrite <- Ha in Hk.
  apply (Rmult_le_reg_r (10 ^ n)); [exact Hp | ].
  replace (IZR (rint (v * 10 ^ n)) / 10 ^ n * 10 ^ n)
    with (IZR (rint (v * 10 ^ n))) by (field; lra).
  exact Hk.
Qed.

Lemma round_le (b v : R) (k : Z) (n : nat) :
  b * 10 ^ n = IZR k -> v <= b -> round v n <= b.
Proof.
  intros Hb Hv. pose proof (pow10_pos n) as Hp. unfold round.
  assert (Hk : (rint (v * 10 ^ n) <= k)%Z).
  { apply rint_le. rewrite <- Hb. apply Rmult_le_compat_r; lra. }
  apply IZR_le in Hk. rewrite <- Hb in Hk.
  apply (Rmult_le_reg_r (10 ^ n)); [exact Hp | ].
  replace (IZR (rint (v * 10 ^ n)) / 10 ^ n * 10 ^ n)
    with (IZR (rint (v * 10 ^ n))) by (field; lra).
  exact Hk.
Qed.

Lemma Rleb_true (a b : R) : Rleb a b = true <-> a <= b.
Proof.
  unfold Rleb; destruct (Rle_dec a b); split; intros; try easy.
Qed.

Lemma combine_seq_In {A} (l : list A) (s : nat) (i : Z) (a : A) :
  In (i, a)
     (combine (map (fun k => (0 + Z.of_nat k * 1)%Z) (seq s (List.length l)))
              l) ->
  exists k, i = Z.of_nat (s + k) /\ nth_error l k = Some a.
Proof.
  revert s; induction l as [| b l IH]; intros s H; [destruct H | ].
  cbn [List.length seq map combine] in H. destruct H as [H | H].
  - inversion H; subst. exists 0%nat. split; [lia | reflexivity].
  - destruct (IH (S s) H) as (k & -> & Hk).
    exists (S k). split; [lia | exact Hk].
Qed.

Lemma enumerate_In {A} (l : list A) (i : Z) (a : A) :
  In (i, a) (enumerate l) ->
  (0 <= i)%Z /\ nth_error l (Z.to_nat i) = Some a.
Proof.
  unfold enumerate, range, range3, len. intros H.
  replace (Z.to_nat ((Z.of_nat (List.length l) - 0 + 1 - 1) / 1))
    with (List.length l) in H
    by (rewrite Z.div_1_r; lia).
  destruct (combine_seq_In l 0 i a H) as (k & -> & Hk).
  split; [lia | ]. rewrite Nat2Z.id. exact Hk.
Qed.

(** A point that [locations] returns indexes a score of at least 0.6. *)
Lemma locations_In (result : list (list R)) (px py : Z) :
  In (px, py) (locations result) ->
  threshold
  <= nth (Z.to_nat px) (nth (Z.to_nat py) result []) 0.
Proof.
  unfold locations. intros H.
  apply in_flat_map in H. destruct H as ([y0 row] & Hrow & H).
  apply in_flat_map in H. destruct H as ([x0 v] & Hv & H).
  destruct (Rleb threshold v) eqn:E; [ | destruct H].
  destruct H as [H | []]. inversion H; subst.
  apply enumerate_In in Hrow, Hv.
  destruct Hrow as [_ Hrow]. destruct Hv as [_ Hv].
  rewrite (nth_error_nth _ _ _ Hrow), (nth_error_nth _ _ _ Hv).
  apply Rleb_true; exact E.
Qed.

Lemma contour_record_ok (g : gray_image) (dpi : Z) (c : contour)
  (r : Checkbox.t) :
  contour_record g (72 / IZR dpi) c = Ok (Some r) -> checkbox_ok dpi r.
Proof.
  unfold contour_record.
  destruct (arcLength c true); simpl; [ | discriminate].
  destruct (approxPolyDP c _ true) as [approx | ]; simpl; [ | discriminate].
  destruct (len approx =? 4)%Z; [ | discriminate].
  destruct (boundingRect c) as [[[[bx by_] bw] bh] | ]; simpl;
    [ | discriminate].
  destruct (contourArea c) as [area | ]; simpl; [ | discriminate].
  set (aspect := if negb (bh =? 0)%Z then IZR bw / IZR bh else 0).
  set (extent := if negb (bw * bh =? 0)%Z then area / IZR (bw * bh) else 0).
  destruct (_ && _) eqn:F; [ | discriminate].
  repeat (apply andb_true_iff in F; destruct F as [F ?]).
  destruct (0 <? len _)%Z; [ | discriminate].
  destruct (Rltb 200 _) eqn:B; [ | discriminate].
  apply Rltb_true in B.
  repeat match goal with
         | H : Rleb _ _ = true |- _ => apply Rleb_true in H
         end.
  intros E; inversion E; subst; clear E.
  unfold checkbox_ok; cbn.
  repeat split.
  - apply (round_ge _ _ 80 2); [simpl; lra | assumption].
  - apply (round_le _ _ 120 2); [simpl; lra | assumption].
  - apply (round_ge _ _ 70 2); [simpl; lra | assumption].
  - apply (round_le _ _ 100 2); [simpl; lra | assumption].
  - apply (round_ge _ _ 2000 1); [simpl; lra | lra].
Qed.

Lemma template_record_ok (dpi : Z) (result : list (list R)) (pt : Z * Z) :
  In pt (locations result) ->
  checkbox_ok dpi (template_record (72 / IZR dpi) result pt).
Proof.
  intros H. destruct pt as [px py]. apply locations_In in H.
  unfold checkbox_ok, template_record; cbn.
  unfold threshold in H. repeat split; try reflexivity. exact H.
Qed.

(** X13. Every record that [detect_checkboxes] returns is a "checkbox" in
    points and is of one of two kinds: a template match, whose confidence
    is at least 0.6 and whose width and height are those of the 20-pixel
    template; or a contour, whose reported aspect ratio lies between 0.8
    and 1.2, whose extent lies between 0.7 and 1, and whose interior
    brightness is at least 200. *)
Theorem detect_checkboxes_records (g : gray_image) (dpi : Z)
  (out : list Checkbox.t) :
  detect_checkboxes g dpi = Ok out -> Forall (checkbox_ok dpi) out.
Proof.
  unfold detect_checkboxes.
  destruct (dpi =? 0)%Z; [discriminate | ].
  destruct (rectangle _ _ _ _ _) as [template | ]; simpl; [ | discriminate].
  destruct (matchTemplate g template) as [result | ]; simpl;
    [ | discriminate].
  destruct (morphologyEx_CLOSE g) as [cleaned | ]; simpl; [ | discriminate].
  destruct (findContours cleaned) as [contours | ]; simpl; [ | discriminate].
  destruct (mapM _ contours) as [found | ] eqn:Ef; simpl; [ | discriminate].
  intros H; inversion H; subst; clear H.
  apply Forall_forall. intros r Hr.
  apply (subsequence_In _ _ _ (unique_checkboxes_subsequence _)) in Hr.
  apply in_app_or in Hr. destruct Hr as [Hr | Hr].
  - apply in_map_iff in Hr. destruct Hr as (pt & <- & Hpt).
    apply template_record_ok; exact Hpt.
  - apply in_flat_map in Hr. destruct Hr as (o & Ho & Hr).
    destruct o as [r' | ]; [ | destruct Hr].
    destruct Hr as [<- | []].
    apply mapM_Forall2 in Ef.
    clear - Ef Ho. induction Ef as [| c o' cs os Hc _ IH]; [destruct Ho | ].
    destruct Ho as [-> | Ho]; [ | apply IH; exact Ho].
    eapply contour_record_ok; exact Hc.
Qed.

End CheckboxRecords.

(** A run of X13 on the three template matches. *)
Lemma detect_checkboxes_records_witness :
  exists out,
    detect_checkboxes (L := scenario_libs three_matches_scenario)
                      (white_gray 400 400) 36 = Ok out
    /\ Forall (checkbox_ok 36) out /\ List.length out = 2%nat.
Proof.
  eexists. split; [exact three_matches_checkboxes | ].
  split; [ | reflexivity].
  exact (detect_checkboxes_records (L := scenario_libs three_matches_scenario)
           (white_gray 400 400) 36 _ three_matches_checkboxes).
Defined.

(* ================================================================= *)
(** ** Properties of [extract_pdf_elements] *)

Section PdfElements.
Context {L : Libs}.

Lemma unpack4_enough (l : list R) :
  (4 <= List.length l)%nat -> exists v, unpack4 l = Ok v.
Proof.
  intros H. unfold unpack4.
  destruct l as [| a [| b [| c [| d l]]]]; simpl in H; try lia.
  eexists; reflexivity.
Qed.

Lemma unpack4_short (l : list R) :
  (List.length l < 4)%nat ->
  unpack4 l
  = Raise (ValueError ("not enough values to unpack (expected 4, got "
                       ++ str (len l) ++ ")")%string).
Proof.
  intros H. unfold unpack4.
  destruct l as [| a [| b [| c [| d l]]]]; simpl in H; try lia; reflexivity.
Qed.

Lemma shape_of_item_cases (item : string * list R) :
  (is_shape_item item = false -> shape_of_item item = Ok [])
  /\ (is_shape_item item = true ->
      (4 <= List.length (snd item))%nat ->
      exists sh,
        shape_of_item item = Ok [sh]
        /\ Shape.type sh = shape_type_of item)
  /\ (is_shape_item item = true ->
      (List.length (snd item) < 4)%nat ->
      shape_of_item item
      = Raise (ValueError ("not enough values to unpack (expected 4, got "
                           ++ str (len (snd item)) ++ ")")%string)).
Proof.
  destruct item as [tag rest].
  unfold is_shape_item, shape_type_of, shape_of_item; cbn [fst snd].
  repeat split.
  - intros H. apply orb_false_iff in H. destruct H as [-> ->]. reflexivity.
  - intros H Hlen. destruct (unpack4_enough rest Hlen) as [[[[a b] c] d] Hv].
    rewrite Hv.
    destruct (String.eqb tag "l"); [eexists; split; reflexivity | ].
    simpl in H. rewrite H. eexists; split; reflexivity.
  - intros H Hlen. rewrite (unpack4_short rest Hlen).
    destruct (String.eqb tag "l"); [reflexivity | ].
    simpl in H. rewrite H. reflexivity.
Qed.

Lemma shapes_of_items (items : list (string * list R)) :
  (forall item, In item items -> is_shape_item item = true ->
                (4 <= List.length (snd item))%nat) ->
  exists shapes,
    mapM shape_of_item items = Ok shapes
    /\ map Shape.type (List.concat shapes)
       = map shape_type_of (filter is_shape_item items).
Proof.
  induction items as [| item items IH]; intros H.
  - exists []. split; reflexivity.
  - destruct IH as (shapes & Hs & Ht);
      [intros it Hit; apply H; right; exact Hit | ].
    destruct (shape_of_item_cases item) as (Hno & Hyes & _).
    cbn [mapM filter].
    destruct (is_shape_item item) eqn:E.
    + destruct (Hyes eq_refl (H item (or_introl eq_refl) E))
        as (sh & Hsh & Hty).
      exists ([sh] :: shapes). rewrite Hsh, Hs. split; [reflexivity | ].
      cbn [List.concat app map]. rewrite Hty, Ht. reflexivity.
    + exists ([] :: shapes). rewrite (Hno eq_refl), Hs.
      split; [reflexivity | exact Ht].
Qed.

(** X14. If every line ("l") and rectangle ("re") item of the page's
    drawings carries at least four entries after its tag,
    [extract_pdf_elements] returns the drawings as PyMuPDF gave them and
    one shape per line or rectangle item, in the order of the items, of
    type "line" or "rectangle" accordingly; items with any other tag
    (curves, quads) give no shape. *)
Theorem extract_pdf_elements_shapes (page : fitz_page)
  (drawings : list drawing) :
  get_drawings page = Ok drawings ->
  (forall item, In item (flat_map drawing_items drawings) ->
                is_shape_item item = true ->
                (4 <= List.length (snd item))%nat) ->
  exists shapes,
    extract_pdf_elements page = Ok (drawings, shapes)
    /\ map Shape.type shapes
       = map shape_type_of
             (filter is_shape_item (flat_map drawing_items drawings)).
Proof.
  intros Hd Hitems. unfold extract_pdf_elements. rewrite Hd; simpl.
  destruct (shapes_of_items _ Hitems) as (shapes & Hs & Ht).
  rewrite Hs; simpl. eexists; split; [reflexivity | exact Ht].
Qed.

(** X15. The first line or rectangle item that carries fewer than four
    entries after its tag makes [extract_pdf_elements] raise the
    ValueError of the failed unpacking, whatever follows it. *)
Theorem extract_pdf_elements_short_item (page : fitz_page)
  (drawings : list drawing) (before after : list (string * list R))
  (item : string * list R) :
  get_drawings page = Ok drawings ->
  flat_map drawing_items drawings = before ++ item :: after ->
  (forall it, In it before -> is_shape_item it = true ->
              (4 <= List.length (snd it))%nat) ->
  is_shape_item item = true ->
  (List.length (snd item) < 4)%nat ->
  extract_pdf_elements page
  = Raise (ValueError ("not enough values to unpack (expected 4, got "
                       ++ str (len (snd item)) ++ ")")%string).
Proof.
  intros Hd Hitems Hbefore Hshape Hshort.
  unfold extract_pdf_elements. rewrite Hd; simpl. rewrite Hitems.
  destruct (shapes_of_items before Hbefore) as (shapes & Hs & _).
  destruct (shape_of_item_cases item) as (_ & _ & Hraise).
  rewrite (mapM_Raise shape_of_item before after item shapes _ Hs
             (Hraise Hshape Hshort)).
  reflexivity.
Qed.

End PdfElements.

(** A run of X14: a rectangle, a curve and a line with four entries
    each. *)
Lemma extract_pdf_elements_shapes_witness :
  exists shapes,
    extract_pdf_elements
      (L := scenario_libs
              (document_scenario 1
                 [[("re", [0; 0; 10; 20]%R); ("c", [1; 2; 3; 4]%R)];
                  [("l", [0; 0; 5; 5]%R)]]))
      tt
    = Ok ([[("re", [0; 0; 10; 20]%R); ("c", [1; 2; 3; 4]%R)];
           [("l", [0; 0; 5; 5]%R)]], shapes)
    /\ map Shape.type shapes = ["rectangle"; "line"].
Proof.
  apply (extract_pdf_elements_shapes
           (L := scenario_libs
                   (document_scenario 1
                      [[("re", [0; 0; 10; 20]%R); ("c", [1; 2; 3; 4]%R)];
                       [("l", [0; 0; 5; 5]%R)]]))
           tt).
  - reflexivity.
  - intros item Hin _. cbn in Hin.
    destruct Hin as [<- | [<- | [<- | []]]]; simpl; lia.
Defined.

(** A run of X15: a line item with its two points after the tag. *)
Lemma extract_pdf_elements_short_item_witness :
  extract_pdf_elements
    (L := scenario_libs
            (document_scenario 1
               [[("re", [0; 0; 10; 20]%R); ("l", [0; 0]%R)]]))
    tt
  = Raise (ValueError "not enough values to unpack (expected 4, got 2)").
Proof.
  apply (extract_pdf_elements_short_item
           (L := scenario_libs
                   (document_scenario 1
                      [[("re", [0; 0; 10; 20]%R); ("l", [0; 0]%R)]]))
           tt [[("re", [0; 0; 10; 20]%R); ("l", [0; 0]%R)]]
           [("re", [0; 0; 10; 20]%R)] [] ("l", [0; 0]%R)).
  - reflexivity.
  - reflexivity.
  - intros it [<- | []] _. simpl; lia.
  - reflexivity.
  - simpl; lia.
Defined.

(* ================================================================= *)
(** ** Further properties of the pipeline and of the script *)

Section PipelineResults.
Context {L : Libs} {JR : Json results_dict} {JL : Json Line.t}
        {FS : FileSystem}.

(** X16. Whenever [detect_lines_and_colors] returns, the dictionary has
    the keys "lines", "background_colors", "checkboxes", in this order,
    followed either by nothing or by both "pdf_drawings" and
    "pdf_shapes": never another key, never one of the two without the
    other. *)
Theorem results_keys (pdf_path : string) (page_num dpi : Z) (w : entropy)
  (t t' : trace) (results : results_dict) :
  detect_lines_and_colors pdf_path page_num dpi w t = (Ok results, t') ->
  keys results = ["lines"; "background_colors"; "checkboxes"]
  \/ keys results
     = ["lines"; "background_colors"; "checkboxes"; "pdf_drawings";
        "pdf_shapes"].
Proof.
  unfold detect_lines_and_colors, pymupdf_elements, try_except_Exception,
    open_document, bindM, lift, print, emit, ret.
  destruct (convert_from_path _ _ _ _) as [[| p ps] | ];
    [intros H; inversion H; left; reflexivity | | discriminate].
  destruct (cvtColor_RGB2BGR p) as [img | ]; [ | discriminate].
  destruct (cvtColor_BGR2GRAY img) as [g | ]; [ | discriminate].
  destruct (detect_lines g dpi w) as [lines | ]; [ | discriminate].
  destruct (detect_background_colors img dpi w) as [colors | ];
    [ | discriminate].
  destruct (detect_checkboxes g dpi) as [cbs | ]; [ | discriminate].
  destruct PYMUPDF_AVAILABLE;
    [ | intros H; inversion H; right; reflexivity].
  destruct (fitz_open pdf_path) as [doc | e].
  - destruct (page_num <? doc_len doc);
      [ | intros H; inversion H; left; reflexivity].
    destruct (doc_getitem doc page_num) as [page | e].
    + destruct (extract_pdf_elements page) as [found | e].
      * intros H; inversion H; right; reflexivity.
      * destruct (is_Exception e); [ | discriminate].
        intros H; inversion H; left; reflexivity.
    + destruct (is_Exception e); [ | discriminate].
      intros H; inversion H; left; reflexivity.
  - destruct (is_Exception e); [ | discriminate].
    intros H; inversion H; left; reflexivity.
Qed.

(** X17. When PyMuPDF is available and the second method runs without an
    exception, the document it opens is closed again and nothing is
    printed: for a page number beyond the document the results keep their
    three keys; for a page of the document they gain "pdf_drawings" and
    "pdf_shapes", holding what [extract_pdf_elements] found. *)
Theorem pymupdf_completes (pdf_path : string) (page_num dpi : Z)
  (w : entropy) (results : results_dict) (doc : fitz_doc) (t : trace) :
  detectors_return pdf_path page_num dpi w results ->
  PYMUPDF_AVAILABLE = true ->
  fitz_open pdf_path = Ok doc ->
  (doc_len doc <= page_num ->
   detect_lines_and_colors pdf_path page_num dpi w t
   = (Ok results, t ++ [DocOpen pdf_path; DocClose pdf_path]))
  /\ (forall page drawings shapes,
        page_num < doc_len doc ->
        doc_getitem doc page_num = Ok page ->
        extract_pdf_elements page = Ok (drawings, shapes) ->
        detect_lines_and_colors pdf_path page_num dpi w t
        = (Ok (results ++ [("pdf_drawings", map IDrawing drawings);
                           ("pdf_shapes", map IShape shapes)]),
           t ++ [DocOpen pdf_path; DocClose pdf_path])).
Proof.
  intros Hd Ha Ho.
  rewrite (pipeline_after_detectors _ _ _ _ _ t Hd), Ha.
  destruct Hd as (p & ps & img & g & lines & colors & cbs & _ & _ & _
                  & _ & _ & _ & ->).
  unfold pymupdf_elements, try_except_Exception, open_document, bindM, lift,
    print, emit, ret.
  rewrite Ho. split.
  - intros Hlen. apply Z.ltb_ge in Hlen. rewrite Hlen.
    rewrite <- app_assoc. reflexivity.
  - intros page drawings shapes Hlt Hp He. apply Z.ltb_lt in Hlt.
    rewrite Hlt, Hp, He. rewrite <- app_assoc. reflexivity.
Qed.

Lemma printed_app (t t' : trace) : printed (t ++ t') = printed t ++ printed t'.
Proof. unfold printed. apply flat_map_app. Qed.

Lemma printed_writes (name : string) (chunks : list string) :
  printed (map (FileWrite name) chunks) = [].
Proof. induction chunks as [| c cs IH]; [reflexivity | exact IH]. Qed.

Lemma file_content_prints (name : string) (t : trace) (l : list string) :
  file_content name (t ++ map Print l) = file_content name t.
Proof.
  rewrite file_content_app.
  induction l as [| s l IH]; [reflexivity | exact IH].
Qed.

(** X19. When the conversion of the PDF yields no page, the script still
    writes the output file, with what [json.dump] writes for the three
    empty lists, and reports 0 lines, 0 colored regions and 0 potential
    checkboxes; it prints no first line and no error. *)
Theorem main_without_pages (w : entropy) (t : trace)
  (chunks : list string) :
  convert_from_path "f1040.pdf" 150 1 1 = Ok [] ->
  open_w "detected_elements.json" = Ok tt ->
  json_dump (A := results_dict) empty_results = (chunks, None) ->
  exists t',
    main w t = (Ok tt, t')
    /\ printed t'
       = printed t
         ++ ["Detected 0 lines"; "Detected 0 colored regions";
             "Detected 0 potential checkboxes"]
    /\ file_content "detected_elements.json" t' = Some (joined chunks).
Proof.
  intros Hc Ho Hj.
  assert (Hrun : detect_lines_and_colors "f1040.pdf" 0 150 w t
                 = (Ok empty_results, t)).
  { unfold detect_lines_and_colors, bindM, lift.
    change (0 + 1) with 1. rewrite Hc. reflexivity. }
  unfold main, try_except_Exception, bindM at 1. rewrite Hrun.
  unfold with_open_json_dump, bindM, lift, print, emit, ret.
  rewrite Ho, Hj, write_chunks_trace.
  eexists. split; [reflexivity | ]. split.
  - rewrite !printed_app, printed_writes. cbn.
    rewrite !app_nil_r, <- !app_assoc. reflexivity.
  - rewrite <- !app_assoc.
    change ([FileClose "detected_elements.json"] ++ _)
      with ([FileClose "detected_elements.json"]
            ++ map Print ["Detected 0 lines"; "Detected 0 colored regions";
                          "Detected 0 potential checkboxes"]).
    rewrite !app_assoc. rewrite file_content_prints.
    rewrite file_content_app. cbn [fold_left].
    rewrite (file_content_writes "detected_elements.json" chunks "").
    + reflexivity.
    + rewrite file_content_app. simpl. reflexivity.
Qed.

End PipelineResults.

Lemma document_detectors (doc_len : Z)
  (drawings : list (list (string * list R))) (page_num : Z) :
  detectors_return (L := scenario_libs (document_scenario doc_len drawings))
                   "f1040.pdf" page_num 150 0 (detected_results [] [] []).
Proof.
  exists (uniform_page 50 50 (255, 255, 255)), [].
  do 2 eexists. exists [], [], [].
  repeat split; reflexivity.
Qed.

(** A run of X16: the conversion finds no page. *)
Lemma results_keys_witness :
  keys (@empty_results (scenario_libs no_page_scenario))
  = ["lines"; "background_colors"; "checkboxes"]
  \/ keys (@empty_results (scenario_libs no_page_scenario))
     = ["lines"; "background_colors"; "checkboxes"; "pdf_drawings";
        "pdf_shapes"].
Proof.
  exact (results_keys (L := scenario_libs no_page_scenario)
           "f1040.pdf" 0 150 0 [] [] empty_results eq_refl).
Defined.

(** Runs of X17 on a document of two pages: page 5 does not exist, page 1
    carries one rectangle. *)
Lemma pymupdf_completes_witness :
  detect_lines_and_colors
    (L := scenario_libs (document_scenario 2 [[("re", [0; 0; 10; 20]%R)]]))
    "f1040.pdf" 5 150 0 []
  = (Ok (detected_results [] [] []),
     [DocOpen "f1040.pdf"; DocClose "f1040.pdf"])
  /\ exists results,
       detect_lines_and_colors
         (L := scenario_libs
                 (document_scenario 2 [[("re", [0; 0; 10; 20]%R)]]))
         "f1040.pdf" 1 150 0 []
       = (Ok results, [DocOpen "f1040.pdf"; DocClose "f1040.pdf"])
       /\ keys results
          = ["lines"; "background_colors"; "checkboxes"; "pdf_drawings";
             "pdf_shapes"].
Proof.
  split.
  - apply (pymupdf_completes
             (L := scenario_libs
                     (document_scenario 2 [[("re", [0; 0; 10; 20]%R)]]))
             "f1040.pdf" 5 150 0 _ tt []);
      [apply document_detectors | reflexivity | reflexivity | simpl; lia].
  - eexists.
    destruct (pymupdf_completes
                (L := scenario_libs
                        (document_scenario 2 [[("re", [0; 0; 10; 20]%R)]]))
                "f1040.pdf" 1 150 0 _ tt []
                (document_detectors 2 [[("re", [0; 0; 10; 20]%R)]] 1)
                eq_refl eq_refl)
      as [_ H].
    split; [exact (H tt _ _ ltac:(simpl; lia) eq_refl eq_refl) | ].
    reflexivity.
Defined.

(** A run of X19, with an encoder that writes two chunks. *)
Lemma main_without_pages_witness :
  exists t',
    main (L := scenario_libs no_page_scenario)
         (JR := two_chunk_json _) 0 []
    = (Ok tt, t')
    /\ printed t'
       = ["Detected 0 lines"; "Detected 0 colored regions";
          "Detected 0 potential checkboxes"]
    /\ file_content "detected_elements.json" t' = Some "{}".
Proof.
  exact (main_without_pages (L := scenario_libs no_page_scenario)
           (JR := two_chunk_json _) 0 [] ["{"; "}"]
           eq_refl eq_refl eq_refl).
Defined.

(* ================================================================= *)
(** ** Further properties of the text-parsing script *)

Lemma open_docs_writes (name : string) (chunks : list string) :
  open_docs (map (FileWrite name) chunks) = 0.
Proof. induction chunks as [| c cs IH]; [reflexivity | exact IH]. Qed.

Lemma str_inj (a b : Z) : 0 < a -> 0 < b -> str a = str b -> a = b.
Proof.
  intros Ha Hb H. unfold str in H.
  apply (f_equal DecimalString.NilZero.int_of_string) in H.
  assert (N : forall z, 0 < z ->
                        DecimalString.NilZero.int_of_string
                          (DecimalString.NilZero.string_of_int (Z.to_int z))
                        = Some (Z.to_int z)).
  { intros z Hz. apply DecimalString.NilZero.isi.
    - destruct z as [| p | p]; try lia. simpl. intros C.
      inversion C as [C']. exact (DecimalPos.Unsigned.to_uint_nonnil p C').
    - destruct z as [| p | p]; try lia. simpl. discriminate. }
  rewrite (N a Ha), (N b Hb) in H. injection H as H.
  apply (f_equal Z.of_int) in H. rewrite !DecimalZ.of_to in H. exact H.
Qed.

Lemma dict_set_fresh {V} (d : dict V) (k : string) (v : V) :
  ~ In k (keys d) -> dict_set d k v = d ++ [(k, v)].
Proof.
  induction d as [| [k' v'] d IH]; intros H; simpl; [reflexivity | ].
  destruct (String.eqb k' k) eqn:E.
  - apply String.eqb_eq in E. exfalso. apply H. left. exact E.
  - rewrite IH; [reflexivity | ]. intros C. apply H. right. exact C.
Qed.

Section TextSuccess.
Context {P : PdfPlumber} {JW : Json (dict (list word))} {FS : FileSystem}.

(** X20. The text script closes the PDF it opened on every path, also
    when the extraction, the opening of the output file or the dump
    raises: no document is left open, whatever the libraries do. *)
Theorem text_parser_closes_pdf (t : trace) :
  open_docs (snd (text_parser t)) = open_docs t.
Proof.
  unfold text_parser, with_pdfplumber_open, with_open_json_dump, bindM, lift,
    emit, ret, raise.
  destruct (pdfplumber_open "f1040.pdf") as [pdf | e]; [ | reflexivity].
  destruct (pdf_pages pdf) as [pages | e];
    [ | cbn [snd]; rewrite !open_docs_app; simpl; ring].
  destruct (pages_loop 0 pages []) as [output | e];
    [ | cbn [snd]; rewrite !open_docs_app; simpl; ring].
  destruct (open_w "f1040_words.json") as [u | e];
    [ | cbn [snd]; rewrite !open_docs_app; simpl; ring].
  destruct (json_dump output) as [chunks failure].
  rewrite write_chunks_trace.
  destruct failure; cbn [snd];
    rewrite !open_docs_app, open_docs_writes; simpl; ring.
Qed.

Lemma pages_loop_output (pages : list plumber_page)
  (wss : list (list word)) :
  Forall2 (fun p ws => extract_words p ["size"] = Ok ws) pages wss ->
  forall (i : Z) (output : dict (list word)),
    0 <= i ->
    (forall j, i < j -> ~ In ("page_" ++ str j)%string (keys output)) ->
    pages_loop i pages output
    = Ok (output
          ++ combine (map (fun k => ("page_" ++ str (Z.of_nat k + (i + 1)))%string)
                          (seq 0 (List.length wss)))
                     wss).
Proof.
  induction 1 as [| p ws pages wss Hp HF IH]; intros i output Hi Hfresh.
  - simpl. rewrite app_nil_r. reflexivity.
  - cbn [pages_loop]. rewrite Hp. cbn [bind].
    rewrite dict_set_fresh by (apply Hfresh; lia).
    rewrite IH.
    + rewrite <- app_assoc. f_equal. f_equal.
      cbn [List.length seq map combine app]. f_equal.
      rewrite <- seq_shift, map_map. f_equal.
      apply map_ext. intros k. do 2 f_equal. lia.
    + lia.
    + intros j Hj C. unfold keys in C. rewrite map_app in C.
      apply in_app_or in C. destruct C as [C | [C | []]].
      * apply (Hfresh j); [lia | exact C].
      * cbn [fst] in C. injection C as C.
        apply str_inj in C; lia.
Qed.

(** X21. When the PDF opens, every page yields its words, the output file
    opens and the dump succeeds, the script dumps one entry per page,
    keyed "page_1", "page_2", ... in page order with the words of that
    page; it leaves in f1040_words.json exactly what [json.dump] wrote,
    after closing the PDF. *)
Theorem text_parser_success (pdf : plumber_pdf) (pages : list plumber_page)
  (wss : list (list word)) (chunks : list string) (t : trace) :
  pdfplumber_open "f1040.pdf" = Ok pdf ->
  pdf_pages pdf = Ok pages ->
  Forall2 (fun p ws => extract_words p ["size"] = Ok ws) pages wss ->
  open_w "f1040_words.json" = Ok tt ->
  json_dump (text_output wss) = (chunks, None) ->
  text_parser t
  = (Ok tt,
     t ++ [DocOpen "f1040.pdf"; DocClose "f1040.pdf";
           FileOpen "f1040_words.json"]
       ++ map (FileWrite "f1040_words.json") chunks
       ++ [FileClose "f1040_words.json"])
  /\ file_content "f1040_words.json" (snd (text_parser t))
     = Some (joined chunks)
  /\ List.length (text_output wss) = List.length pages.
Proof.
  intros Ho Hp HF Hw Hj.
  assert (Hout : pages_loop 0 pages [] = Ok (text_output wss)).
  { rewrite (pages_loop_output pages wss HF 0 []);
      [reflexivity | lia | intros j _ []]. }
  assert (Hrun : text_parser t
                 = (Ok tt,
                    t ++ [DocOpen "f1040.pdf"; DocClose "f1040.pdf";
                          FileOpen "f1040_words.json"]
                      ++ map (FileWrite "f1040_words.json") chunks
                      ++ [FileClose "f1040_words.json"])).
  { unfold text_parser, with_pdfplumber_open, with_open_json_dump, bindM,
      lift, emit, ret.
    rewrite Ho, Hp, Hout, Hw, Hj, write_chunks_trace.
    rewrite <- !app_assoc. reflexivity. }
  split; [exact Hrun | ]. split.
  - rewrite Hrun. cbn [snd].
    rewrite !app_assoc. rewrite file_content_app. cbn [fold_left].
    rewrite (file_content_writes "f1040_words.json" chunks "").
    + reflexivity.
    + rewrite file_content_app. simpl. reflexivity.
  - unfold text_output. rewrite length_combine, length_map, length_seq.
    apply Forall2_length in HF. lia.
Qed.

End TextSuccess.

(** A run of X21: one page, two words, an encoder that writes two
    chunks. *)
Lemma text_parser_success_witness :
  text_parser (P := one_page_plumber) (JW := two_chunk_json _)
              (FS := open_always) []
  = (Ok tt,
     [DocOpen "f1040.pdf"; DocClose "f1040.pdf";
      FileOpen "f1040_words.json"; FileWrite "f1040_words.json" "{";
      FileWrite "f1040_words.json" "}"; FileClose "f1040_words.json"])
  /\ keys (text_output (P := one_page_plumber) [["Form"; "1040"]])
     = ["page_1"].
Proof.
  split; [ | reflexivity].
  apply (text_parser_success (P := one_page_plumber)
           (JW := two_chunk_json _) (FS := open_always)
           tt [tt] [["Form"; "1040"]] ["{"; "}"] []);
    try reflexivity.
  constructor; [reflexivity | constructor].
Defined.
